(** * Predictive maintenance engine: a shallow embedding of [models.py]

    The development follows [src/Python Backend/models.py] and the
    configuration it imports.  Python values are modelled as follows.

    - A [datetime] is a day number (the proleptic Gregorian ordinal that
      [date.toordinal] returns) together with the microsecond of the day.
      The representable range of the library types (years 1..9999) is checked
      where [strptime] builds a date; arithmetic past that range is outside
      the model.
    - A [float] is a rational number; [NaN], the value pandas gives to an
      empty cell, is [None].
    - A pandas [DataFrame] is its column index and its rows in order; the
      index label of a row is its position (the [RangeIndex] of [read_csv]).
    - A raised exception is the [Raise] case of [result].
    - Text is ASCII. *)

From Stdlib Require Import ZArith QArith Qround List String Ascii Bool Lia.
From Stdlib Require Import Sorting.Permutation Sorting.Sorted.
From Stdlib Require Import DecimalString.
Import ListNotations.

Local Open Scope Z_scope.

(* ===================================================================== *)
(** * Exceptions and results *)
(* ===================================================================== *)

Inductive exn : Type :=
| RuntimeError (msg : string)
| ValueError (msg : string)
| TypeError (msg : string)
| AttributeError (attr : string)
| KeyError (key : string)
| FileNotFoundError (msg : string)
| Exception (msg : string).

(** [str(e)] *)
Definition str_exn (e : exn) : string :=
  match e with
  | RuntimeError m | ValueError m | TypeError m | FileNotFoundError m
  | Exception m => m
  | AttributeError a =>
      ("'HotelMaintenanceModel' object has no attribute '" ++ a ++ "'")%string
  | KeyError k => ("'" ++ k ++ "'")%string
  end.

Inductive result (A : Type) : Type :=
| Ok (a : A)
| Raise (e : exn).
Arguments Ok {A} a.
Arguments Raise {A} e.

Definition bind {A B} (r : result A) (k : A -> result B) : result B :=
  match r with
  | Ok a => k a
  | Raise e => Raise e
  end.

Notation "x <- r ;; k" := (bind r (fun x => k))
  (at level 61, r at next level, right associativity).

(** A [for] loop whose body may raise: the first exception ends the loop. *)
Fixpoint for_each {A B} (body : A -> result (list B)) (l : list A)
  : result (list B) :=
  match l with
  | [] => Ok []
  | x :: t => ys <- body x ;; rest <- for_each body t ;; Ok (ys ++ rest)
  end.

(* ===================================================================== *)
(** * Calendar: the arithmetic of [datetime] *)
(* ===================================================================== *)

Module Calendar.

Record date : Type := mkDate { year : Z; month : Z; day : Z }.

Definition is_leap (y : Z) : bool :=
  (y mod 4 =? 0) && (negb (y mod 100 =? 0) || (y mod 400 =? 0)).

Definition days_in_month (y m : Z) : Z :=
  if m =? 2 then (if is_leap y then 29 else 28)
  else if (m =? 4) || (m =? 6) || (m =? 9) || (m =? 11) then 30
  else 31.

(** number of days before January 1st of year [y] *)
Definition days_before_year (y : Z) : Z :=
  let p := y - 1 in p * 365 + p / 4 - p / 100 + p / 400.

Definition DAYS_BEFORE_MONTH (m : Z) : Z :=
  match m with
  | 1 => 0 | 2 => 31 | 3 => 59 | 4 => 90 | 5 => 120 | 6 => 151
  | 7 => 181 | 8 => 212 | 9 => 243 | 10 => 273 | 11 => 304 | _ => 334
  end.

Definition days_before_month (y m : Z) : Z :=
  DAYS_BEFORE_MONTH m + (if (2 <? m) && is_leap y then 1 else 0).

(** [date(y, m, d)] raises [ValueError] outside these bounds. *)
Definition valid_date (d : date) : bool :=
  (1 <=? year d) && (year d <=? 9999) &&
  (1 <=? month d) && (month d <=? 12) &&
  (1 <=? day d) && (day d <=? days_in_month (year d) (month d)).

(** [date.toordinal()]: January 1st of year 1 is day 1. *)
Definition toordinal (d : date) : Z :=
  days_before_year (year d) + days_before_month (year d) (month d) + day d.

(** [date.weekday()]: Monday is 0, Sunday is 6. *)
Definition weekday_of_ordinal (n : Z) : Z := (n + 6) mod 7.

(** calendar order on dates: year, then month, then day *)
Definition date_lt (a b : date) : Prop :=
  year a < year b \/
  (year a = year b /\
   (month a < month b \/ (month a = month b /\ day a < day b))).

(** A point in time: the day and the microsecond within it. *)
Record datetime : Type := mkDT { dt_ord : Z; dt_usec : Z }.

Definition day_us : Z := 86400000000.

(** what [strptime] returns for a format without time fields *)
Definition datetime_of_date (d : date) : datetime :=
  {| dt_ord := toordinal d; dt_usec := 0 |}.

(** [dt.replace(hour=0, minute=0, second=0, microsecond=0)] *)
Definition midnight (t : datetime) : datetime :=
  {| dt_ord := dt_ord t; dt_usec := 0 |}.

(** [a <= b] and [a < b] on datetimes *)
Definition dt_leb (a b : datetime) : bool :=
  (dt_ord a <? dt_ord b) ||
  ((dt_ord a =? dt_ord b) && (dt_usec a <=? dt_usec b)).
Definition dt_ltb (a b : datetime) : bool :=
  (dt_ord a <? dt_ord b) ||
  ((dt_ord a =? dt_ord b) && (dt_usec a <? dt_usec b)).

(** Python's [round]: to the nearest integer, ties to the even one. *)
Definition round_half_even (q : Q) : Z :=
  let f := Qfloor q in
  match Qcompare (q - inject_Z f) (1 # 2) with
  | Lt => f
  | Gt => f + 1
  | Eq => if Z.even f then f else f + 1
  end.

(** [timedelta(days=p)] for a float [p], in microseconds: the constructor
    rounds to the nearest microsecond. *)
Definition timedelta_days (p : Q) : Z :=
  round_half_even (p * inject_Z day_us).

(** [timedelta(days=n)] for an integer [n] *)
Definition timedelta_whole_days (n : Z) : Z := n * day_us.

(** [dt + td] and [dt - td] *)
Definition dt_add (t : datetime) (td : Z) : datetime :=
  let u := dt_usec t + td in
  {| dt_ord := dt_ord t + u / day_us; dt_usec := u mod day_us |}.
Definition dt_sub (t : datetime) (td : Z) : datetime := dt_add t (- td).

End Calendar.
Import Calendar.

(* ===================================================================== *)
(** * [datetime.strptime] for the directives the program uses *)
(* ===================================================================== *)

Module Strptime.

Inductive directive : Type := Dm | Dd | DY | Dy.

(** A compiled format: directives and literal characters. *)
Inductive token : Type :=
| Field (d : directive)
| Lit (c : ascii).

(** [TimeRE.pattern]: [%x] becomes the group of directive [x], [%%] a
    literal percent sign, any other character stands for itself.  A
    directive outside [m d Y y] and a blank in the format (which the
    library turns into a run of white space) are not modelled ([None]). *)
Fixpoint pattern (fmt : string) : option (list token) :=
  match fmt with
  | EmptyString => Some []
  | String " " _ => None
  | String "%" (String c rest) =>
      match pattern rest with
      | None => None
      | Some ts =>
          match c with
          | "m"%char => Some (Field Dm :: ts)
          | "d"%char => Some (Field Dd :: ts)
          | "Y"%char => Some (Field DY :: ts)
          | "y"%char => Some (Field Dy :: ts)
          | "%"%char => Some (Lit "%" :: ts)
          | _ => None
          end
      end
  | String "%" EmptyString => None
  | String c rest =>
      match pattern rest with
      | None => None
      | Some ts => Some (Lit c :: ts)
      end
  end.

(** Character classes of the regular expressions. *)
Definition cls : Type := ascii -> bool.
Definition is_char (c : ascii) : cls := fun a => Ascii.eqb a c.
Definition in_range (lo hi : ascii) : cls :=
  fun a => (nat_of_ascii lo <=? nat_of_ascii a)%nat &&
           (nat_of_ascii a <=? nat_of_ascii hi)%nat.
Definition digit : cls := in_range "0" "9".

(** The group of each directive, as its alternatives in the order the
    regular expression lists them:
    - [%m]: [1[0-2]|0[1-9]|[1-9]]
    - [%d]: [3[0-1]|[1-2]\d|0[1-9]|[1-9]| [1-9]]
    - [%Y]: [\d\d\d\d]
    - [%y]: [\d\d] *)
Definition regex_of (d : directive) : list (list cls) :=
  match d with
  | Dm => [ [is_char "1"; in_range "0" "2"];
            [is_char "0"; in_range "1" "9"];
            [in_range "1" "9"] ]
  | Dd => [ [is_char "3"; in_range "0" "1"];
            [in_range "1" "2"; digit];
            [is_char "0"; in_range "1" "9"];
            [in_range "1" "9"];
            [is_char " "; in_range "1" "9"] ]
  | DY => [ [digit; digit; digit; digit] ]
  | Dy => [ [digit; digit] ]
  end.

(** Match a sequence of classes at the head of [s]: the matched text and
    what follows it. *)
Fixpoint match_classes (cs : list cls) (s : string)
  : option (string * string) :=
  match cs with
  | [] => Some (EmptyString, s)
  | c :: cs' =>
      match s with
      | EmptyString => None
      | String a rest =>
          if c a then
            match match_classes cs' rest with
            | Some (m, r) => Some (String a m, r)
            | None => None
            end
          else None
      end
  end.

(** The named groups found so far. *)
Record groups : Type := mkGroups {
  g_m : option string; g_d : option string;
  g_Y : option string; g_y : option string }.

Definition no_groups : groups :=
  {| g_m := None; g_d := None; g_Y := None; g_y := None |}.

Definition set_group (d : directive) (txt : string) (g : groups) : groups :=
  match d with
  | Dm => {| g_m := Some txt; g_d := g_d g; g_Y := g_Y g; g_y := g_y g |}
  | Dd => {| g_m := g_m g; g_d := Some txt; g_Y := g_Y g; g_y := g_y g |}
  | DY => {| g_m := g_m g; g_d := g_d g; g_Y := Some txt; g_y := g_y g |}
  | Dy => {| g_m := g_m g; g_d := g_d g; g_Y := g_Y g; g_y := Some txt |}
  end.

(** All the ways one token matches at the head of [s], in the order a
    backtracking matcher tries them. *)
Definition match_token (t : token) (g : groups) (s : string)
  : list (groups * string) :=
  match t with
  | Lit c =>
      match s with
      | String a rest => if Ascii.eqb a c then [(g, rest)] else []
      | EmptyString => []
      end
  | Field d =>
      flat_map (fun alt =>
                  match match_classes alt s with
                  | Some (txt, rest) => [(set_group d txt g, rest)]
                  | None => []
                  end)
               (regex_of d)
  end.

(** All the matches of a compiled format at the head of [s], in
    backtracking order; [re.match] returns the first. *)
Fixpoint match_tokens (ts : list token) (g : groups) (s : string)
  : list (groups * string) :=
  match ts with
  | [] => [(g, s)]
  | t :: ts' =>
      flat_map (fun gs => match_tokens ts' (fst gs) (snd gs))
               (match_token t g s)
  end.

Definition digit_value (a : ascii) : Z := Z.of_nat (nat_of_ascii a) - 48.

(** [int(txt)] on a matched group: blanks around the digits are dropped. *)
Fixpoint int_digits (acc : Z) (s : string) : Z :=
  match s with
  | EmptyString => acc
  | String a rest =>
      if digit a then int_digits (10 * acc + digit_value a) rest
      else int_digits acc rest
  end.
Definition int (s : string) : Z := int_digits 0 s.

(** The year of the groups: [%Y] as written; [%y] through the pivot
    (00..68 are 2000..2068, 69..99 are 1969..1999); 1900 when the format
    has no year. *)
Definition year_of (g : groups) : Z :=
  match g_Y g, g_y g with
  | Some txt, _ => int txt
  | None, Some txt => let y := int txt in
                      if y <=? 68 then y + 2000 else y + 1900
  | None, None => 1900
  end.
Definition month_of (g : groups) : Z :=
  match g_m g with Some txt => int txt | None => 1 end.
Definition day_of (g : groups) : Z :=
  match g_d g with Some txt => int txt | None => 1 end.

(** [datetime.strptime(s, fmt)]; [None] is the [ValueError] it raises when
    the text does not match, when text remains after the match, or when
    the fields do not make a date. *)
Definition strptime (s fmt : string) : option date :=
  match pattern fmt with
  | None => None
  | Some ts =>
      match match_tokens ts no_groups s with
      | [] => None
      | (g, rest) :: _ =>
          match rest with
          | EmptyString =>
              let d := {| year := year_of g; month := month_of g;
                          day := day_of g |} in
              if valid_date d then Some d else None
          | String _ _ => None
          end
      end
  end.

End Strptime.
Import Strptime.

Local Open Scope string_scope.
Local Open Scope Z_scope.

(** The format list every date loop of [models.py] iterates over. *)
Definition date_formats : list string :=
  ["%m/%d/%Y"; "%m/%d/%y"; "%Y-%m-%d"; "%d-%m-%Y"; "%d/%m/%Y"; "%d/%m/%y"].

(** [for fmt in formats: try: return strptime(s, fmt) except ValueError: pass] *)
Fixpoint try_formats (fmts : list string) (s : string) : option date :=
  match fmts with
  | [] => None
  | fmt :: rest =>
      match strptime s fmt with
      | Some d => Some d
      | None => try_formats rest s
      end
  end.

(* ===================================================================== *)
(** * Text helpers *)
(* ===================================================================== *)

(** [str.lower()] *)
Definition lower_char (a : ascii) : ascii :=
  if in_range "A" "Z" a then ascii_of_nat (nat_of_ascii a + 32) else a.
Fixpoint lower (s : string) : string :=
  match s with
  | EmptyString => EmptyString
  | String a rest => String (lower_char a) (lower rest)
  end.

(** [needle in s] *)
Fixpoint contains (needle s : string) : bool :=
  prefix needle s ||
  match s with
  | EmptyString => false
  | String _ rest => contains needle rest
  end.

(** [', '.join(l)] *)
Fixpoint join (sep : string) (l : list string) : string :=
  match l with
  | [] => EmptyString
  | [x] => x
  | x :: rest => x ++ sep ++ join sep rest
  end.

Definition mem (x : string) (l : list string) : bool :=
  existsb (String.eqb x) l.

(** [os.path.basename] *)
Fixpoint basename_from (cur : string) (s : string) : string :=
  match s with
  | EmptyString => cur
  | String "/" rest => basename_from rest rest
  | String _ rest => basename_from cur rest
  end.
Definition basename (s : string) : string := basename_from s s.

(* ===================================================================== *)
(** * Data model *)
(* ===================================================================== *)

(** One row of the dataset.  A cell pandas reads as missing is [None]. *)
Record DeviceRecord : Type := mkRecord {
  Room_Number : Z;
  Appliance_Type : string;
  Last_Maintenance_Date : option string;
  Usage_Hours : option Q;
  Days_Since_Maintenance : option Q;
  Average_Daily_Usage : option Q;
  Device_Year : option Z;
  Status : option string;
  Warranty_Year : option Z }.

(** A frame: its column names and its rows.  A row carries the cells of the
    nine schema columns.  The seven columns that every training asks for
    are there in every frame the program holds.  [Status] and
    [Warranty Year] may be absent (a frame stored by a training that did
    not ask for them): such a column has empty cells, which is what
    [row.get] gives for it, and [row[...]] on it is [getitem] below. *)
Record DataFrame : Type := mkFrame {
  columns : list string;
  rows : list DeviceRecord }.

(** [pd.DataFrame()] *)
Definition empty_frame : DataFrame := {| columns := []; rows := [] |}.

(** [df.empty]: some axis has length 0 *)
Definition df_empty (df : DataFrame) : bool :=
  match columns df, rows df with
  | _ :: _, _ :: _ => false
  | _, _ => true
  end.

(** [row[name]]: the cell, or a [KeyError] when the frame has no such
    column *)
Definition getitem {A : Type} (cols : list string) (name : string) (cell : A)
  : result A :=
  if mem name cols then Ok cell else Raise (KeyError name).

(** [df.iterrows()]: each row with its index label *)
Definition iterrows (df : DataFrame) : list (Z * DeviceRecord) :=
  combine (map Z.of_nat (seq 0 (List.length (rows df)))) (rows df).

(** The fitted regressor: [predict] on one feature row.  What the library
    does with a row it rejects (a missing feature) is left to the
    regressor: it may raise. *)
Definition Regressor : Type := option Q -> option Q -> option Z -> result Q.

Definition predict (m : Regressor) (row : DeviceRecord) : result Q :=
  m (Usage_Hours row) (Average_Daily_Usage row) (Device_Year row).

Record Metrics : Type := mkMetrics { r2_score : Q; mae : Q; rmse : Q }.

(** The attributes of a [HotelMaintenanceModel] object.  [__init__] assigns
    the first three; [loaded_file_path] exists only once [load_hotel_data]
    has assigned it ([None]: the object has no such attribute). *)
Record HotelMaintenanceModel : Type := mkModel {
  hotel_model : option Regressor;
  loaded_training_df : DataFrame;
  model_metrics : option Metrics;
  loaded_file_path : option string }.

(** [max(0, p)] *)
Definition clamp (p : Q) : Q :=
  match Qcompare 0 p with
  | Lt => p
  | _ => 0%Q
  end.

(** [round(p, 2)] *)
Definition round2 (p : Q) : Q :=
  (inject_Z (round_half_even (p * 100)) / 100)%Q.

(** [parsed + timedelta(days=p)] *)
Definition add_days (parsed : date) (p : Q) : datetime :=
  dt_add (datetime_of_date parsed) (timedelta_days p).

(** One reported device.  Numbers and dates that the program formats into
    text are kept as the value formatted, with [None] for the text "N/A":
    [device_year] and [warranty_year_till] are [str(int(.))],
    [previous_maintenance_date] and [next_maintenance_date] are
    [strftime('%Y-%m-%d')] of a date, the latter as a day number. *)
Record Entry : Type := mkEntry {
  device_id : Z;
  room_no : Z;
  device_name : string;
  issue_reported : option string;
  device_year : option Z;
  under_warranty : string;
  warranty_year_till : option Z;
  previous_maintenance_date : option date;
  predictedDaysSinceMaintenance : Q;
  next_maintenance_date : option Z }.

(* ===================================================================== *)
(** * Device resolver and [predict_for_room] *)
(* ===================================================================== *)

(** the inner function [parse_date] of [predict_for_room] *)
Definition parse_date (date_str : option string) : option date :=
  match date_str with
  | None => None
  | Some s => try_formats date_formats s
  end.

(** [key_gtb a b]: key [a] comes strictly before key [b] in descending
    order; a missing key ([NaT]) comes after every date. *)
Definition key_gtb (a b : option date) : bool :=
  match a, b with
  | Some x, Some y => toordinal y <? toordinal x
  | Some _, None => true
  | None, _ => false
  end.

Section Resolver.
Context {A : Type}.
Variable key : A -> option date.

Fixpoint insert_desc (x : A) (l : list A) : list A :=
  match l with
  | [] => [x]
  | y :: t => if key_gtb (key y) (key x) then y :: insert_desc x t
              else x :: l
  end.

(** [sort_values(by=key, ascending=False)], missing keys last.  Rows with
    equal keys keep their order here; pandas does not promise an order
    among them, and nothing below depends on it. *)
Definition sort_values_desc (l : list A) : list A :=
  fold_right insert_desc [] l.
End Resolver.

Section DropDuplicates.
Context {A K : Type}.
Variable keq : K -> K -> bool.
Variable name : A -> K.

(** [drop_duplicates(subset=name, keep='first')]: a row stays when no
    earlier row has its key. *)
Fixpoint drop_duplicates_from (seen : list K) (l : list A) : list A :=
  match l with
  | [] => []
  | x :: t =>
      if existsb (keq (name x)) seen then drop_duplicates_from seen t
      else x :: drop_duplicates_from (name x :: seen) t
  end.
Definition drop_duplicates (l : list A) : list A :=
  drop_duplicates_from [] l.
End DropDuplicates.

(** A row of [room_devices_df]: index label, row, [Parsed_Maintenance_Date]. *)
Definition ParsedRow : Type := (Z * DeviceRecord * option date)%type.
Definition pr_index (x : ParsedRow) : Z := fst (fst x).
Definition pr_row (x : ParsedRow) : DeviceRecord := snd (fst x).
Definition pr_parsed (x : ParsedRow) : option date := snd x.
Definition pr_type (x : ParsedRow) : string := Appliance_Type (pr_row x).

(** [df[df['Room Number'] == room_number]] *)
Definition room_devices (df : DataFrame) (room_number : Z)
  : list (Z * DeviceRecord) :=
  filter (fun ir => Room_Number (snd ir) =? room_number) (iterrows df).

(** the rows of a room, parsed, sorted and deduplicated *)
Definition resolve_room (df : DataFrame) (room_number : Z) : list ParsedRow :=
  let parsed :=
    map (fun ir => (ir, parse_date (Last_Maintenance_Date (snd ir))))
        (room_devices df room_number) in
  drop_duplicates String.eqb pr_type (sort_values_desc pr_parsed parsed).

Definition room_entry (m : Regressor) (now : date) (x : ParsedRow)
  : result (list Entry) :=
  let row := pr_row x in
  p <- predict m row ;;
  let predicted_days_since := clamp p in
  let parsed_date_obj := pr_parsed x in
  let next_maint_date :=
    match parsed_date_obj with
    | Some d => Some (dt_ord (add_days d predicted_days_since))
    | None => None
    end in
  let current_year := year now in
  let under_warranty :=
    match Warranty_Year row with
    | Some w => if current_year <=? w then "yes" else "no"
    | None => "no"
    end in
  let issue := match Status row with Some s => s | None => "None" end in
  Ok [ {| device_id := pr_index x + 1;
          room_no := Room_Number row;
          device_name := Appliance_Type row;
          issue_reported := Some issue;
          device_year := Device_Year row;
          under_warranty := under_warranty;
          warranty_year_till := Warranty_Year row;
          previous_maintenance_date := parsed_date_obj;
          predictedDaysSinceMaintenance := round2 predicted_days_since;
          next_maintenance_date := next_maint_date |} ].

Definition predict_for_room (now : date) (self : HotelMaintenanceModel)
  (room_number : Z) : result (list Entry) :=
  match hotel_model self with
  | None => Raise (RuntimeError "Model or training data not loaded.")
  | Some m =>
      if df_empty (loaded_training_df self)
      then Raise (RuntimeError "Model or training data not loaded.")
      else
        match room_devices (loaded_training_df self) room_number with
        | [] => Ok []
        | _ :: _ =>
            for_each (room_entry m now)
                     (resolve_room (loaded_training_df self) room_number)
        end
  end.

(* ===================================================================== *)
(** * [get_device_details] *)
(* ===================================================================== *)

Record DeviceInfo : Type := mkInfo {
  di_room_no : Z;
  di_device_id : Z;
  di_device_name : string;
  di_issue_reported : string;
  di_device_year : option Z;
  di_under_warranty : string;
  di_warranty_year_till : option Z;
  di_previous_maintenance_date : option date;
  di_next_maintenance_date : option Z }.

(** [Ok None] is the empty dict [{}] the method returns for "not found". *)
Definition get_device_details (now : date) (self : HotelMaintenanceModel)
  (room : Z) (appliance_type : string) : result (option DeviceInfo) :=
  if df_empty (loaded_training_df self)
  then Raise (RuntimeError "Training data not loaded.")
  else
    match hotel_model self with
    | None => Raise (RuntimeError "Predictive maintenance model not trained.")
    | Some m =>
        let device_data :=
          filter (fun ir => (Room_Number (snd ir) =? room) &&
                            String.eqb (Appliance_Type (snd ir)) appliance_type)
                 (iterrows (loaded_training_df self)) in
        match device_data with
        | [] => Ok None
        | (index, device) :: _ =>
            p <- predict m device ;;
            let predicted_days_since := clamp p in
            match Last_Maintenance_Date device with
            | None =>
                Raise (TypeError "strptime() argument 1 must be str, not float")
            | Some last_maint_date_str =>
                let parsed_date_obj :=
                  try_formats date_formats last_maint_date_str in
                let next_maint_date :=
                  match parsed_date_obj with
                  | Some d => Some (dt_ord (add_days d predicted_days_since))
                  | None => None
                  end in
                let current_year := year now in
                warranty_year_till <-
                  getitem (columns (loaded_training_df self)) "Warranty Year"
                          (Warranty_Year device) ;;
                let under_warranty :=
                  match warranty_year_till with
                  | Some w => if current_year <=? w then "Yes" else "No"
                  | None => "No"
                  end in
                status <-
                  getitem (columns (loaded_training_df self)) "Status"
                          (Status device) ;;
                let issue :=
                  match status with Some s => s | None => "None" end in
                Ok (Some {| di_room_no := Room_Number device;
                            di_device_id := index + 1;
                            di_device_name := Appliance_Type device;
                            di_issue_reported := issue;
                            di_device_year := Device_Year device;
                            di_under_warranty := under_warranty;
                            di_warranty_year_till := warranty_year_till;
                            di_previous_maintenance_date := parsed_date_obj;
                            di_next_maintenance_date := next_maint_date |})
            end
        end
    end.

(* ===================================================================== *)
(** * Aggregation: dashboard, upcoming view, weekly view *)
(* ===================================================================== *)

(** [str(cell)]: a missing cell prints as [nan] *)
Definition str_cell (c : option string) : string :=
  match c with Some s => s | None => "nan" end.

(** [today]: now, truncated to midnight *)
Definition today_of (now : date) : datetime := midnight (datetime_of_date now).

(** the date loop of the three views: the first format that parses gives
    the next maintenance date, formatted and truncated to midnight *)
Definition next_maintenance (s : string) (predicted_days_since : Q)
  : option (date * Z * datetime) :=
  match try_formats date_formats s with
  | Some parsed_date =>
      let calculated_next_date := add_days parsed_date predicted_days_since in
      Some (parsed_date, dt_ord calculated_next_date,
            midnight calculated_next_date)
  | None => None
  end.

Record PendingEntry : Type := mkPending {
  pe_room_no : Z;
  pe_device_id : Z;
  pe_device_name : string;
  pe_maintenance_date : Z }.

Record DashboardData : Type := mkDashboard {
  total_devices : Z;
  running : Z;
  down : Z;
  due_maintenance : Z;
  under_maintenance : Z;
  Pending_maintenance : list PendingEntry;
  loaded_data_file : string }.

Inductive Dashboard : Type :=
| NotLoaded (message : string)
| Insights (d : DashboardData).

Definition pair_eqb (a b : Z * string) : bool :=
  (fst a =? fst b) && String.eqb (snd a) (snd b).

Definition device_pair (r : DeviceRecord) : Z * string :=
  (Room_Number r, Appliance_Type r).

(** [len(df[['Room Number', 'Appliance Type']].drop_duplicates())] *)
Definition count_unique_devices (df : DataFrame) : Z :=
  Z.of_nat (List.length
              (drop_duplicates pair_eqb (fun p => p) (map device_pair (rows df)))).

(** rows whose status text contains [working], whatever the case *)
Definition is_running (r : DeviceRecord) : bool :=
  contains "working" (lower (str_cell (Status r))).

Definition dashboard_row (m : Regressor) (today : datetime)
  (ir : Z * DeviceRecord) : result (list PendingEntry) :=
  let '(index, row) := ir in
  p <- predict m row ;;
  let predicted_days_since := clamp p in
  let last_maint_date_str := str_cell (Last_Maintenance_Date row) in
  match next_maintenance last_maint_date_str predicted_days_since with
  | Some (_, formatted, next_maint_date_obj) =>
      if dt_leb next_maint_date_obj today
      then Ok [ {| pe_room_no := Room_Number row;
                   pe_device_id := index + 1;
                   pe_device_name := Appliance_Type row;
                   pe_maintenance_date := formatted |} ]
      else Ok []
  | None => Ok []
  end.

Definition get_dashboard_insights (now : date) (self : HotelMaintenanceModel)
  : result Dashboard :=
  let df := loaded_training_df self in
  match hotel_model self with
  | Some m =>
      if df_empty df
      then Ok (NotLoaded "Model or training data not loaded.")
      else
        let total := count_unique_devices df in
        let running_devices :=
          if mem "Status" (columns df)
          then Z.of_nat (List.length (filter is_running (rows df)))
          else 0 in
        let down_devices := Z.of_nat (List.length (rows df)) - running_devices in
        pending <- for_each (dashboard_row m (today_of now)) (iterrows df) ;;
        let due_maintenance_count := Z.of_nat (List.length pending) in
        let under_maintenance_devices :=
          Z.max 0 (down_devices - due_maintenance_count) in
        match loaded_file_path self with
        | None => Raise (AttributeError "loaded_file_path")
        | Some file =>
            Ok (Insights {| total_devices := total;
                            running := running_devices;
                            down := down_devices;
                            due_maintenance := due_maintenance_count;
                            under_maintenance := under_maintenance_devices;
                            Pending_maintenance := pending;
                            loaded_data_file := file |})
        end
  | None => Ok (NotLoaded "Model or training data not loaded.")
  end.

(** the entry the upcoming and weekly views append *)
Definition view_entry (now : date) (index : Z) (row : DeviceRecord)
  (issue : option string) (parsed_date : date) (predicted_days_since : Q)
  (formatted : Z) : Entry :=
  {| device_id := index + 1;
     room_no := Room_Number row;
     device_name := Appliance_Type row;
     issue_reported := issue;
     device_year := Device_Year row;
     under_warranty :=
       match Warranty_Year row with
       | Some w => if year now <=? w then "yes" else "no"
       | None => "no"
       end;
     warranty_year_till := Warranty_Year row;
     previous_maintenance_date := Some parsed_date;
     predictedDaysSinceMaintenance := round2 predicted_days_since;
     next_maintenance_date := Some formatted |}.

Definition upcoming_row (cols : list string) (m : Regressor) (now : date)
  (ir : Z * DeviceRecord) : result (list Entry) :=
  let '(index, row) := ir in
  let today := today_of now in
  let six_months_from_now := dt_add today (timedelta_whole_days 182) in
  p <- predict m row ;;
  let predicted_days_since := clamp p in
  match Last_Maintenance_Date row with
  | None => Raise (TypeError "strptime() argument 1 must be str, not float")
  | Some last_maint_date_str =>
      match next_maintenance last_maint_date_str predicted_days_since with
      | Some (parsed_date, formatted, next_maint_date_obj) =>
          if dt_ltb today next_maint_date_obj &&
             dt_leb next_maint_date_obj six_months_from_now
          then
            warranty_year_till <-
              getitem cols "Warranty Year" (Warranty_Year row) ;;
            status <- getitem cols "Status" (Status row) ;;
            let issue :=
              match status with Some s => s | None => "None" end in
            Ok [ view_entry now index row (Some issue) parsed_date
                            predicted_days_since formatted ]
          else Ok []
      | None => Ok []
      end
  end.

Definition get_upcoming_maintenance_devices (now : date)
  (self : HotelMaintenanceModel) : result (list Entry) :=
  match hotel_model self with
  | None => Raise (RuntimeError "Model or training data not loaded.")
  | Some m =>
      if df_empty (loaded_training_df self)
      then Raise (RuntimeError "Model or training data not loaded.")
      else for_each (upcoming_row (columns (loaded_training_df self)) m now)
                    (iterrows (loaded_training_df self))
  end.

Definition start_of_current_week (today : datetime) : datetime :=
  dt_sub today (timedelta_whole_days (weekday_of_ordinal (dt_ord today))).
Definition end_of_current_week (today : datetime) : datetime :=
  dt_add (start_of_current_week today) (timedelta_whole_days 6).

Definition weekly_row (cols : list string) (m : Regressor) (now : date)
  (ir : Z * DeviceRecord) : result (list Entry) :=
  let '(index, row) := ir in
  let today := today_of now in
  match Usage_Hours row, Average_Daily_Usage row, Device_Year row with
  | Some _, Some _, Some _ =>
      p <- predict m row ;;
      let predicted_days_since := clamp p in
      let last_maint_date_str := str_cell (Last_Maintenance_Date row) in
      match next_maintenance last_maint_date_str predicted_days_since with
      | None => Ok []
      | Some (parsed_date, formatted, next_maint_date_obj) =>
          if dt_leb (start_of_current_week today) next_maint_date_obj &&
             dt_leb next_maint_date_obj (end_of_current_week today)
          then
            let issue_reported :=
              if mem "Status" cols then Status row else Some "None" in
            Ok [ view_entry now index row issue_reported parsed_date
                            predicted_days_since formatted ]
          else Ok []
      end
  | _, _, _ => Ok []
  end.

Definition get_current_week_maintenance_devices (now : date)
  (self : HotelMaintenanceModel) : result (list Entry) :=
  match hotel_model self with
  | None => Raise (RuntimeError "Model or training data not loaded.")
  | Some m =>
      if df_empty (loaded_training_df self)
      then Raise (RuntimeError "Model or training data not loaded.")
      else for_each (weekly_row (columns (loaded_training_df self)) m now)
                    (iterrows (loaded_training_df self))
  end.

(* ===================================================================== *)
(** * Configuration and the files on disk *)
(* ===================================================================== *)

(** [config.HOTEL_CSV_FILES] *)
Definition HOTEL_CSV_FILES : list (string * string) :=
  [ ("fairfield", "FairField.csv");
    ("jwmarriott", "JW Marriott.csv");
    ("westin", "Westin.csv") ].

Fixpoint lookup (k : string) (d : list (string * string)) : option string :=
  match d with
  | [] => None
  | (k', v) :: rest => if String.eqb k k' then Some v else lookup k rest
  end.

(** What a path holds: nothing, something the reader raises [e] on, or a
    value that loads. *)
Inductive FileLoad (A : Type) : Type :=
| Absent
| Unreadable (e : exn)
| Stored (a : A).
Arguments Absent {A}.
Arguments Unreadable {A} e.
Arguments Stored {A} a.

(** What a write to a path does: it stores the value, or it raises [e]
    and leaves the path holding [held] (what it held before, nothing, or a
    file that does not load). *)
Inductive Write (A : Type) : Type :=
| Stores
| Refuses (e : exn) (held : FileLoad A).
Arguments Stores {A}.
Arguments Refuses {A} e held.

(** The files: what the two artifact paths and the csv paths hold, and what
    [joblib.dump(model, MODEL_PATH)] and [df.to_pickle(DATA_PATH)] do. *)
Record Disk : Type := mkDisk {
  MODEL_PATH : FileLoad Regressor;
  DATA_PATH : FileLoad DataFrame;
  csv_file : string -> FileLoad DataFrame;
  joblib_dump : Regressor -> Write Regressor;
  to_pickle : DataFrame -> Write DataFrame }.

(* ===================================================================== *)
(** * Dataset loader and model lifecycle *)
(* ===================================================================== *)

Definition features : list string :=
  ["Usage Hours"; "Average_Daily_Usage"; "Device_Year"].
Definition target : string := "Days Since Maintenance".
Definition required_lookup_cols : list string :=
  ["Room Number"; "Appliance Type"; "Last Maintenance Date"; "Status";
   "Warranty Year"].

(** the schema [train_model] validates, in the order it lists it *)
Definition training_schema : list string :=
  (features ++ [target] ++ required_lookup_cols)%list.

(** [required_cols] of [load_hotel_data] *)
Definition hotel_required_cols : list string :=
  ["Room Number"; "Appliance Type"; "Last Maintenance Date"; "Usage Hours";
   "Days Since Maintenance"; "Average_Daily_Usage"; "Device_Year"; "Status";
   "Warranty Year"].

(** [[col for col in schema if col not in df.columns]] *)
Definition missing_cols (schema : list string) (df : DataFrame) : list string :=
  filter (fun col => negb (mem col (columns df))) schema.

(** [all(col in df.columns for col in schema)] *)
Definition all_present (schema : list string) (df : DataFrame) : bool :=
  forallb (fun col => mem col (columns df)) schema.

(** [df['Status'] = df['Status'].fillna('Unknown')] *)
Definition fill_status (r : DeviceRecord) : DeviceRecord :=
  {| Room_Number := Room_Number r;
     Appliance_Type := Appliance_Type r;
     Last_Maintenance_Date := Last_Maintenance_Date r;
     Usage_Hours := Usage_Hours r;
     Days_Since_Maintenance := Days_Since_Maintenance r;
     Average_Daily_Usage := Average_Daily_Usage r;
     Device_Year := Device_Year r;
     Status := Some (match Status r with Some s => s | None => "Unknown" end);
     Warranty_Year := Warranty_Year r |}.

(** [df['Warranty Year'] = np.nan] *)
Definition clear_warranty (r : DeviceRecord) : DeviceRecord :=
  {| Room_Number := Room_Number r;
     Appliance_Type := Appliance_Type r;
     Last_Maintenance_Date := Last_Maintenance_Date r;
     Usage_Hours := Usage_Hours r;
     Days_Since_Maintenance := Days_Since_Maintenance r;
     Average_Daily_Usage := Average_Daily_Usage r;
     Device_Year := Device_Year r;
     Status := Status r;
     Warranty_Year := None |}.

(** What [GradientBoostingRegressor(random_state=42).fit(X, y)] does: it
    fits the estimator, or it raises [e] and leaves the estimator that was
    created for it as [estimator]; what [predict] does on that one is the
    library's. *)
Inductive Fit : Type :=
| Fitted (m : Regressor)
| FitRaised (e : exn) (estimator : Regressor).

Section Lifecycle.

(** [GradientBoostingRegressor(random_state=42).fit(X, y)] and the three
    in-sample scores: the library's, taken as given. *)
Variable fit : list DeviceRecord -> Fit.
Variable score : Regressor -> list DeviceRecord -> result Metrics.

(** [_load_persisted_data], from the state [__init__] has set up *)
Definition _load_persisted_data (disk : Disk) (self : HotelMaintenanceModel)
  : HotelMaintenanceModel :=
  let model :=
    match MODEL_PATH disk with
    | Stored m => Some m
    | Unreadable _ => None
    | Absent => hotel_model self
    end in
  let '(df, metrics) :=
    match DATA_PATH disk with
    | Stored df =>
        match model with
        | Some m =>
            if negb (df_empty df) && all_present (features ++ [target]) df
            then match score m (rows df) with
                 | Ok mt => (df, Some mt)
                 | Raise _ => (empty_frame, model_metrics self)
                 end
            else (df, model_metrics self)
        | None => (df, model_metrics self)
        end
    | Unreadable _ => (empty_frame, model_metrics self)
    | Absent => (loaded_training_df self, model_metrics self)
    end in
  {| hotel_model := model;
     loaded_training_df := df;
     model_metrics := metrics;
     loaded_file_path := loaded_file_path self |}.

(** [HotelMaintenanceModel()] *)
Definition __init__ (disk : Disk) : HotelMaintenanceModel :=
  _load_persisted_data disk
    {| hotel_model := None;
       loaded_training_df := empty_frame;
       model_metrics := None;
       loaded_file_path := None |}.

(** [train_model(df)]: the object and the disk afterwards, and what the
    call returns or raises.  An exception leaves the assignments made
    before it in place. *)
Definition train_model (df : DataFrame) (disk : Disk)
  (self : HotelMaintenanceModel)
  : HotelMaintenanceModel * Disk * result Metrics :=
  if negb (all_present training_schema df)
  then (self, disk,
        Raise (ValueError ("Missing required columns in CSV: " ++
                           join ", " (missing_cols training_schema df))))
  else
    let df1 := {| columns := columns df; rows := map fill_status (rows df) |} in
    let df2 :=
      if negb (mem "Warranty Year" (columns df1))
      then {| columns := (columns df1 ++ ["Warranty Year"])%list;
              rows := map clear_warranty (rows df1) |}
      else df1 in
    match fit (rows df2) with
    | FitRaised e estimator =>
        ({| hotel_model := Some estimator;
            loaded_training_df := loaded_training_df self;
            model_metrics := model_metrics self;
            loaded_file_path := loaded_file_path self |}, disk, Raise e)
    | Fitted m =>
        match score m (rows df2) with
        | Raise e =>
            ({| hotel_model := Some m;
                loaded_training_df := loaded_training_df self;
                model_metrics := model_metrics self;
                loaded_file_path := loaded_file_path self |}, disk, Raise e)
        | Ok mt =>
            match joblib_dump disk m with
            | Refuses e held =>
                ({| hotel_model := Some m;
                    loaded_training_df := loaded_training_df self;
                    model_metrics := Some mt;
                    loaded_file_path := loaded_file_path self |},
                 {| MODEL_PATH := held;
                    DATA_PATH := DATA_PATH disk;
                    csv_file := csv_file disk;
                    joblib_dump := joblib_dump disk;
                    to_pickle := to_pickle disk |},
                 Raise e)
            | Stores =>
                match to_pickle disk df2 with
                | Refuses e held =>
                    ({| hotel_model := Some m;
                        loaded_training_df := df2;
                        model_metrics := Some mt;
                        loaded_file_path := loaded_file_path self |},
                     {| MODEL_PATH := Stored m;
                        DATA_PATH := held;
                        csv_file := csv_file disk;
                        joblib_dump := joblib_dump disk;
                        to_pickle := to_pickle disk |},
                     Raise e)
                | Stores =>
                    ({| hotel_model := Some m;
                        loaded_training_df := df2;
                        model_metrics := Some mt;
                        loaded_file_path := loaded_file_path self |},
                     {| MODEL_PATH := Stored m;
                        DATA_PATH := Stored df2;
                        csv_file := csv_file disk;
                        joblib_dump := joblib_dump disk;
                        to_pickle := to_pickle disk |},
                     Ok mt)
                end
            end
        end
    end.

End Lifecycle.

(** rows [load_hotel_data] counts as working: status [working] or [none]
    in any case, or a missing status *)
Definition counts_as_working (r : DeviceRecord) : bool :=
  match Status r with
  | None => true
  | Some s => mem (lower s) ["working"; "none"]
  end.

(** [load_hotel_data(hotel_name)]: the object afterwards and what the call
    returns or raises. *)
Definition load_hotel_data (hotel_name : string) (disk : Disk)
  (self : HotelMaintenanceModel)
  : HotelMaintenanceModel * result (Z * Z * string) :=
  match lookup (lower hotel_name) HOTEL_CSV_FILES with
  | None =>
      (self, Raise (ValueError ("Invalid hotel_name: '" ++ hotel_name ++
                                "'. Please choose from: " ++
                                join ", " (map fst HOTEL_CSV_FILES))))
  | Some csv_file_path =>
      let wrap (e : exn) : exn :=
        Exception ("Error loading data for hotel '" ++ hotel_name ++
                   "' from '" ++ csv_file_path ++ "': " ++ str_exn e) in
      match csv_file disk csv_file_path with
      | Absent =>
          (self, Raise (FileNotFoundError
                          ("The CSV file for " ++ hotel_name ++ " ('" ++
                           csv_file_path ++ "') does not exist.")))
      | Unreadable e => (self, Raise (wrap e))
      | Stored df =>
          if negb (all_present hotel_required_cols df)
          then (self,
                Raise (wrap (ValueError
                               ("Missing required columns in '" ++
                                csv_file_path ++ "': " ++
                                join ", " (missing_cols hotel_required_cols df)))))
          else
            let working_devices_count :=
              if mem "Status" (columns df)
              then Z.of_nat (List.length (filter counts_as_working (rows df)))
              else 0 in
            ({| hotel_model := hotel_model self;
                loaded_training_df := df;
                model_metrics := model_metrics self;
                loaded_file_path := Some (basename csv_file_path) |},
             Ok (Z.of_nat (List.length (rows df)), working_devices_count,
                 csv_file_path))
      end
  end.

(* ===================================================================== *)
(** * Status queries *)
(* ===================================================================== *)

Definition get_model_status (self : HotelMaintenanceModel) : string :=
  match hotel_model self with
  | Some _ => "Trained"
  | None => "Not Trained"
  end.

Definition get_data_status (self : HotelMaintenanceModel) : string :=
  if negb (df_empty (loaded_training_df self)) then "Loaded" else "Not Loaded".

(* ===================================================================== *)
(** * Assets outside the rooms: [load_non_room_data] *)
(* ===================================================================== *)

(** [config.NON_ROOM_DATA] *)
Definition NON_ROOM_DATA : string := "non-room-hotel.csv".

(** One row of the non-room file: the cells of the eight columns the
    function reads, and the cells of whatever other columns the file has.
    Cells the function only copies are kept as their text. *)
Record NonRoomRecord : Type := mkNonRoom {
  DeviceID : option string;
  DeviceType : option string;
  Location : option string;
  DeviceYear : option Z;
  WarrantyYear : option Z;
  TotalUsageHours : option Q;
  LastMaintenanceDate : option string;
  NextScheduledMaintenanceDates : option string;
  other_cells : list (option string) }.

Record NonRoomFrame : Type := mkNonRoomFrame {
  nr_columns : list string;
  nr_rows : list NonRoomRecord }.

Definition non_room_required_cols : list string :=
  ["DeviceID"; "DeviceType"; "Location"; "DeviceYear"; "WarrantyYear";
   "TotalUsageHours"; "LastMaintenanceDate"; "NextScheduledMaintenanceDates"].

Definition is_none {A : Type} (c : option A) : bool :=
  match c with None => true | Some _ => false end.

(** every cell of the row is missing: what [dropna(how='all')] drops *)
Definition all_missing (r : NonRoomRecord) : bool :=
  is_none (DeviceID r) && is_none (DeviceType r) && is_none (Location r) &&
  is_none (DeviceYear r) && is_none (WarrantyYear r) &&
  is_none (TotalUsageHours r) && is_none (LastMaintenanceDate r) &&
  is_none (NextScheduledMaintenanceDates r) &&
  forallb is_none (other_cells r).

(** One reported asset; [nre_DeviceYear] and [nre_WarrantyYear] are
    [str(int(.))], with [None] for the text "N/A". *)
Record NonRoomEntry : Type := mkNonRoomEntry {
  nre_DeviceID : option string;
  nre_DeviceType : option string;
  nre_Location : option string;
  nre_DeviceYear : option Z;
  nre_WarrantyYear : option Z;
  nre_TotalUsageHours : option Q;
  nre_LastMaintenanceDate : option string;
  nre_NextScheduledMaintenanceDates : option string }.

Definition non_room_entry (row : NonRoomRecord) : NonRoomEntry :=
  {| nre_DeviceID := DeviceID row;
     nre_DeviceType := DeviceType row;
     nre_Location := Location row;
     nre_DeviceYear := DeviceYear row;
     nre_WarrantyYear := WarrantyYear row;
     nre_TotalUsageHours := TotalUsageHours row;
     nre_LastMaintenanceDate := LastMaintenanceDate row;
     nre_NextScheduledMaintenanceDates := NextScheduledMaintenanceDates row |}.

(** The [except] clauses of [load_non_room_data], in their order: a
    [FileNotFoundError] and a [ValueError] pass; anything else is wrapped.
    pandas' [EmptyDataError] and [ParserError] are [ValueError]s, so the
    second clause takes them and the two clauses written for them are never
    reached. *)
Definition non_room_except (e : exn) : exn :=
  match e with
  | FileNotFoundError _ => e
  | ValueError _ => e
  | _ => Exception ("Error loading data for hotel non-room data from CSV file '"
                    ++ NON_ROOM_DATA ++ "': " ++ str_exn e)
  end.

(** [load_non_room_data()], given what the path holds *)
Definition load_non_room_data (file : FileLoad NonRoomFrame)
  : result (list NonRoomEntry) :=
  match file with
  | Absent =>
      Raise (FileNotFoundError
               ("The CSV file for non-room data does not exist at: " ++
                NON_ROOM_DATA))
  | Unreadable e => Raise (non_room_except e)
  | Stored df =>
      let kept := filter (fun r => negb (all_missing r)) (nr_rows df) in
      let missing :=
        filter (fun col => negb (mem col (nr_columns df)))
               non_room_required_cols in
      if negb (forallb (fun col => mem col (nr_columns df))
                       non_room_required_cols)
      then Raise (non_room_except
                    (ValueError ("Missing required columns in '" ++
                                 NON_ROOM_DATA ++ "': " ++ join ", " missing)))
      else Ok (map non_room_entry kept)
  end.

(* ===================================================================== *)
(** * [strftime('%Y-%m-%d')] *)
(* ===================================================================== *)

Definition digit_char (k : Z) : ascii := ascii_of_nat (48 + Z.to_nat k).

Definition pad2 (n : Z) : string :=
  String (digit_char (n / 10)) (String (digit_char (n mod 10)) EmptyString).

Definition pad4 (n : Z) : string :=
  String (digit_char (n / 1000))
    (String (digit_char (n / 100 mod 10))
       (String (digit_char (n / 10 mod 10))
          (String (digit_char (n mod 10)) EmptyString))).

(** the text [d.strftime('%Y-%m-%d')] of a date with a four-digit year:
    year, month and day, zero-padded, with dashes *)
Definition strftime_iso (d : date) : string :=
  pad4 (year d) ++ "-" ++ pad2 (month d) ++ "-" ++ pad2 (day d).

(* ===================================================================== *)
(** * The routes of [routes.py] *)
(* ===================================================================== *)

(** What a route answers: a status code with the fields of its JSON body,
    or an exception that no [except] of the route takes.  The object
    [hotel_maintenance_manager] the routes share is their [self]. *)
Inductive Response (A : Type) : Type :=
| Reply (status : Z) (body : A)
| Unhandled (e : exn).
Arguments Reply {A} status body.
Arguments Unhandled {A} e.

(** [str(n)] for an integer *)
Definition str_int (n : Z) : string :=
  DecimalString.NilZero.string_of_int (Z.to_int n).

(** [str.title()]: a letter that starts a run of letters is upper case,
    the others of the run are lower case *)
Definition is_letter (a : ascii) : bool :=
  in_range "a" "z" a || in_range "A" "Z" a.
Definition upper_char (a : ascii) : ascii :=
  if in_range "a" "z" a then ascii_of_nat (nat_of_ascii a - 32) else a.
Fixpoint title_from (in_word : bool) (s : string) : string :=
  match s with
  | EmptyString => EmptyString
  | String a rest =>
      String (if in_word then lower_char a else upper_char a)
             (title_from (is_letter a) rest)
  end.
Definition title (s : string) : string := title_from false s.

(** [s.endswith(suffix)] *)
Fixpoint endswith (s suffix : string) : bool :=
  String.eqb s suffix ||
  match s with
  | EmptyString => false
  | String _ rest => endswith rest suffix
  end.

(** [round(x, 4)] *)
Definition round4 (x : Q) : Q :=
  (inject_Z (round_half_even (x * 10000)) / 10000)%Q.

Module Routes.

(** The body of the list routes: [message], the list under the route's
    own key, and [success]. *)
Record ListBody (A : Type) : Type := mkListBody {
  lb_message : string;
  lb_items : list A;
  lb_success : bool }.
Arguments mkListBody {A} _ _ _.
Arguments lb_message {A} _.
Arguments lb_items {A} _.
Arguments lb_success {A} _.

(** The body of [/dashboard]: the statistics with the file name beside
    them, the model's own message, or a message beside an empty
    [smartOperations]. *)
Inductive DashboardBody : Type :=
| DashboardOk (smartOperations : DashboardData) (loaded_data_file : string)
| DashboardMessage (message : string)
| DashboardFailed (message : string).

Definition get_dashboard_data (now : date) (self : HotelMaintenanceModel)
  : Response DashboardBody :=
  match get_dashboard_insights now self with
  | Ok (NotLoaded message) => Reply 400 (DashboardMessage message)
  | Ok (Insights d) => Reply 200 (DashboardOk d (loaded_data_file d))
  | Raise e =>
      Reply 500 (DashboardFailed
                   ("Failed to generate dashboard data: " ++ str_exn e))
  end.

(** the shape the three list routes over the model share *)
Definition list_route {A : Type} (found none failed : string)
  (r : result (list A)) : Response (ListBody A) :=
  match r with
  | Ok [] => Reply 200 (mkListBody none [] true)
  | Ok items => Reply 200 (mkListBody found items true)
  | Raise (RuntimeError msg) => Reply 400 (mkListBody msg [] false)
  | Raise e => Reply 500 (mkListBody (failed ++ str_exn e) [] false)
  end.

Definition get_upcoming_maintenance (now : date) (self : HotelMaintenanceModel)
  : Response (ListBody Entry) :=
  list_route "Successfully retrieved devices with upcoming maintenance."
             "No devices found with upcoming maintenance."
             "Failed to retrieve upcoming maintenance devices: "
             (get_upcoming_maintenance_devices now self).

Definition get_weekly_maintenance (now : date) (self : HotelMaintenanceModel)
  : Response (ListBody Entry) :=
  list_route "Successfully retrieved devices for current week maintenance."
             "No devices found for current week maintenance."
             "Failed to retrieve current week maintenance devices: "
             (get_current_week_maintenance_devices now self).

Definition non_room_data (file : FileLoad NonRoomFrame)
  : Response (ListBody NonRoomEntry) :=
  list_route "Successfully retrieved devices for non room maintenance."
             "No devices found for non room maintenance."
             "Failed to retrieve non room maintenance devices: "
             (load_non_room_data file).

(** The value under ['Room Number'] of the request, once [get_json] has
    returned: nothing (no JSON object, or no such key), something that is
    not a number, a float [int(.)] refuses (NaN or an infinity) with the
    text of the exception, or a number, given as the integer [int(.)]
    makes of it and the text an f-string prints for it. *)
Inductive RoomField : Type :=
| NoRoomField
| RoomNotNumber
| RoomNotFinite (refusal : string)
| RoomNumber (value : Z) (text : string).

(** The body of [/search]: [message], [predictions] and [success], or
    [message] and [success: false] alone where the request is refused. *)
Inductive SearchBody : Type :=
| SearchList (message : string) (predictions : list Entry) (success : bool)
| SearchMessage (message : string).

Definition predict_maintenance (now : date) (self : HotelMaintenanceModel)
  (field : RoomField) : Response SearchBody :=
  match field with
  | NoRoomField =>
      Reply 400 (SearchMessage "Invalid JSON input. 'Room Number' is required.")
  | RoomNotNumber =>
      Reply 400 (SearchMessage "Room Number must be a number.")
  | RoomNotFinite refusal =>
      Reply 500 (SearchList
                   ("Failed to make predictions for hotel maintenance: " ++
                    refusal) [] false)
  | RoomNumber room_number text =>
      match predict_for_room now self room_number with
      | Ok [] =>
          Reply 200 (SearchList ("No devices found for Room Number: " ++ text)
                                [] true)
      | Ok predictions =>
          Reply 200 (SearchList
                       ("Predictions for Room Number " ++ text ++
                        " successful for hotel maintenance!")
                       predictions true)
      | Raise (RuntimeError msg) => Reply 400 (SearchList msg [] false)
      | Raise e =>
          Reply 500 (SearchList
                       ("Failed to make predictions for hotel maintenance: " ++
                        str_exn e) [] false)
      end
  end.

(** The body of [/device/info]: the device, or a message with
    [success: false]. *)
Inductive InfoBody : Type :=
| InfoFound (info : DeviceInfo)
| InfoMessage (message : string).

(** [room_no] is [request.args.get('room_no', type=int)]: [None] when the
    parameter is absent or is not an integer. *)
Definition get_device_info (now : date) (self : HotelMaintenanceModel)
  (room_no : option Z) (appliance_type : option string) : Response InfoBody :=
  match room_no, appliance_type with
  | Some room, Some ty =>
      match get_device_details now self room ty with
      | Ok None =>
          Reply 404 (InfoMessage
                       ("Device with Room Number " ++ str_int room ++
                        " and Appliance Type '" ++ ty ++ "' not found."))
      | Ok (Some info) => Reply 200 (InfoFound info)
      | Raise (RuntimeError msg) => Reply 400 (InfoMessage msg)
      | Raise e =>
          Reply 500 (InfoMessage ("Failed to retrieve device info: " ++ str_exn e))
      end
  | _, _ =>
      Reply 400 (InfoMessage
                   "Missing 'room_no' or 'appliance_type' query parameters.")
  end.

(** The value under ['hotel_name'] of the request: nothing (no JSON
    object, or no such key), a text, or a value without [lower()], on
    which the call made before the [try] raises an [AttributeError]. *)
Inductive HotelField : Type :=
| NoHotelField
| HotelText (hotel_name : string)
| HotelNotText.

(** The body of [/choose-hotel-data]. *)
Inductive HotelBody : Type :=
| HotelLoaded (message loaded_file : string)
              (records_loaded working_devices_in_file : Z)
| HotelMessage (message : string).

Definition choose_hotel_data (field : HotelField) (disk : Disk)
  (self : HotelMaintenanceModel)
  : HotelMaintenanceModel * Response HotelBody :=
  match field with
  | NoHotelField =>
      (self, Reply 400 (HotelMessage
                          "Invalid JSON input. 'hotel_name' is required."))
  | HotelNotText =>
      (self, Unhandled (AttributeError "lower"))
  | HotelText given =>
      let hotel_name := lower given in
      match load_hotel_data hotel_name disk self with
      | (self', Ok (records_loaded, working_devices_count, loaded_file)) =>
          (self',
           Reply 200 (HotelLoaded
                        ("Data for '" ++ title hotel_name ++
                         "' loaded successfully for prediction and device info.")
                        loaded_file records_loaded working_devices_count))
      | (self', Raise (ValueError msg)) => (self', Reply 400 (HotelMessage msg))
      | (self', Raise (FileNotFoundError msg)) =>
          (self', Reply 400 (HotelMessage msg))
      | (self', Raise e) =>
          (self',
           Reply 500 (HotelMessage ("Failed to load data for '" ++
                                    title hotel_name ++ "': " ++ str_exn e)))
      end
  end.

(** What the request of [/train] carries under ['file']: nothing, or a
    file name with what [pd.read_csv] makes of the content. *)
Inductive Upload : Type :=
| NoFilePart
| FilePart (filename : string) (content : result DataFrame).

(** The body of [/train]. *)
Inductive TrainBody : Type :=
| Trained (message : string) (recordsProcessed : Z)
          (r2_score mean_absolute_error root_mean_squared_error : Q)
| TrainMessage (message : string).

Section TrainRoute.
Variable fit : list DeviceRecord -> Fit.
Variable score : Regressor -> list DeviceRecord -> result Metrics.

Definition train_failed (e : exn) : TrainBody :=
  TrainMessage ("Failed to upload data or train hotel maintenance prediction model: "
                ++ str_exn e).

Definition train_model (upload : Upload) (disk : Disk)
  (self : HotelMaintenanceModel)
  : HotelMaintenanceModel * Disk * Response TrainBody :=
  match upload with
  | NoFilePart =>
      (self, disk, Reply 400 (TrainMessage "No file part in the request"))
  | FilePart filename content =>
      if String.eqb filename EmptyString
      then (self, disk, Reply 400 (TrainMessage "No selected file"))
      else if endswith filename ".csv"
      then
        match content with
        | Raise (ValueError msg) =>
            (self, disk, Reply 400 (train_failed (ValueError msg)))
        | Raise e => (self, disk, Reply 500 (train_failed e))
        | Ok df =>
            match train_model fit score df disk self with
            | (self', disk', Ok mt) =>
                (self', disk',
                 Reply 200 (Trained
                              "CSV data uploaded and hotel maintenance prediction model trained successfully!"
                              (Z.of_nat (List.length (rows df)))
                              (round4 (r2_score mt))
                              (round4 (mae mt)) (round4 (rmse mt))))
            | (self', disk', Raise (ValueError msg)) =>
                (self', disk', Reply 400 (train_failed (ValueError msg)))
            | (self', disk', Raise e) =>
                (self', disk', Reply 500 (train_failed e))
            end
        end
      else (self, disk,
            Reply 400 (TrainMessage "Invalid file type. Please upload a CSV file."))
  end.
End TrainRoute.

End Routes.

(* ===================================================================== *)
(** * The single-file application [src/app.py] *)
(* ===================================================================== *)

(** The earlier application keeps model, dataset and metrics in three
    module globals and does its work inside the two route functions.  It
    uses the same two artifact paths as [config.py]. *)
Module Legacy.

(** the three globals *)
Record Globals : Type := mkGlobals {
  hotel_model : option Regressor;
  loaded_training_df : DataFrame;
  model_metrics : option Metrics }.

(** the globals as the module body leaves them before [load_persisted_data] *)
Definition initial : Globals :=
  {| hotel_model := None;
     loaded_training_df := empty_frame;
     model_metrics := None |}.

Definition required_lookup_cols : list string :=
  ["Room Number"; "Appliance Type"; "Last Maintenance Date"].

(** [features + [target] + required_lookup_cols] of the training route *)
Definition training_schema : list string :=
  (features ++ [target] ++ required_lookup_cols)%list.

Section Lifecycle.
Variable fit : list DeviceRecord -> Fit.
Variable score : Regressor -> list DeviceRecord -> result Metrics.

Definition load_persisted_data (disk : Disk) (g : Globals) : Globals :=
  let model :=
    match MODEL_PATH disk with
    | Stored m => Some m
    | Unreadable _ => None
    | Absent => hotel_model g
    end in
  let '(df, metrics) :=
    match DATA_PATH disk with
    | Stored df =>
        match model with
        | Some m =>
            if negb (df_empty df) && all_present (features ++ [target]) df
            then match score m (rows df) with
                 | Ok mt => (df, Some mt)
                 | Raise _ => (empty_frame, model_metrics g)
                 end
            else (df, model_metrics g)
        | None => (df, model_metrics g)
        end
    | Unreadable _ => (empty_frame, model_metrics g)
    | Absent => (loaded_training_df g, model_metrics g)
    end in
  {| hotel_model := model; loaded_training_df := df; model_metrics := metrics |}.

Definition train_failed (e : exn) : Routes.TrainBody :=
  Routes.TrainMessage
    ("Failed to upload data or train hotel maintenance prediction model: "
     ++ str_exn e).

(** [train_model()]: the globals and the disk afterwards, and the answer *)
Definition train_model (upload : Routes.Upload) (disk : Disk) (g : Globals)
  : Globals * Disk * Response Routes.TrainBody :=
  match upload with
  | Routes.NoFilePart =>
      (g, disk, Reply 400 (Routes.TrainMessage "No file part in the request"))
  | Routes.FilePart filename content =>
      if String.eqb filename EmptyString
      then (g, disk, Reply 400 (Routes.TrainMessage "No selected file"))
      else if endswith filename ".csv"
      then
        match content with
        | Raise e => (g, disk, Reply 500 (train_failed e))
        | Ok df =>
            if negb (all_present training_schema df)
            then (g, disk,
                  Reply 400 (Routes.TrainMessage
                               ("Missing required columns in CSV: " ++
                                join ", " (missing_cols training_schema df))))
            else
              match fit (rows df) with
              | FitRaised e estimator =>
                  ({| hotel_model := Some estimator;
                      loaded_training_df := loaded_training_df g;
                      model_metrics := model_metrics g |},
                   disk, Reply 500 (train_failed e))
              | Fitted m =>
                  match score m (rows df) with
                  | Raise e =>
                      ({| hotel_model := Some m;
                          loaded_training_df := loaded_training_df g;
                          model_metrics := model_metrics g |},
                       disk, Reply 500 (train_failed e))
                  | Ok mt =>
                      match joblib_dump disk m with
                      | Refuses e held =>
                          ({| hotel_model := Some m;
                              loaded_training_df := loaded_training_df g;
                              model_metrics := Some mt |},
                           {| MODEL_PATH := held;
                              DATA_PATH := DATA_PATH disk;
                              csv_file := csv_file disk;
                              joblib_dump := joblib_dump disk;
                              to_pickle := to_pickle disk |},
                           Reply 500 (train_failed e))
                      | Stores =>
                          match to_pickle disk df with
                          | Refuses e held =>
                              ({| hotel_model := Some m;
                                  loaded_training_df := df;
                                  model_metrics := Some mt |},
                               {| MODEL_PATH := Stored m;
                                  DATA_PATH := held;
                                  csv_file := csv_file disk;
                                  joblib_dump := joblib_dump disk;
                                  to_pickle := to_pickle disk |},
                               Reply 500 (train_failed e))
                          | Stores =>
                              ({| hotel_model := Some m;
                                  loaded_training_df := df;
                                  model_metrics := Some mt |},
                               {| MODEL_PATH := Stored m;
                                  DATA_PATH := Stored df;
                                  csv_file := csv_file disk;
                                  joblib_dump := joblib_dump disk;
                                  to_pickle := to_pickle disk |},
                               Reply 200
                                 (Routes.Trained
                                    "CSV data uploaded and hotel maintenance prediction model trained successfully!"
                                    (Z.of_nat (List.length (rows df)))
                                    (round4 (r2_score mt))
                                    (round4 (mae mt)) (round4 (rmse mt))))
                          end
                      end
                  end
              end
        end
      else (g, disk,
            Reply 400 (Routes.TrainMessage
                         "Invalid file type. Please upload a CSV file."))
  end.
End Lifecycle.

(** One reported device.  [nextMaintenanceDate] is [strftime('%m/%d/%Y')]
    of a date, kept as its day number, with [None] for the text "N/A";
    [lastMaintenanceDate] is the cell as it is. *)
Record Prediction : Type := mkPrediction {
  roomNumber : Z;
  applianceType : string;
  lastMaintenanceDate : option string;
  predictedDaysSinceMaintenance : Q;
  nextMaintenanceDate : option Z }.

(** The value under ['Room Number'] of the request, once [get_json] has
    returned: nothing, something that is not a number, a float that is
    NaN or an infinity, or a number; each number with the text an
    f-string prints for it. *)
Inductive RoomValue : Type :=
| NoRoomValue
| RoomValueNotNumber
| RoomValueNotFinite (text : string)
| RoomValueFinite (value : Q) (text : string).

(** [df[df['Room Number'] == room_number]] *)
Definition room_devices (df : DataFrame) (room_number : Q)
  : list (Z * DeviceRecord) :=
  filter (fun ir => Qeq_bool (inject_Z (Room_Number (snd ir))) room_number)
         (iterrows df).

(** the two formats the route tries *)
Definition date_formats : list string := ["%m/%d/%Y"; "%m/%d/%y"].

(** the body of the loop over the rows of the room; a cell that is not
    text makes [strptime] raise a [TypeError], which the inner handler
    takes *)
Definition predict_row (m : Regressor) (ir : Z * DeviceRecord)
  : result (list Prediction) :=
  let '(index, row) := ir in
  p <- predict m row ;;
  let predicted_days_since := clamp p in
  let last_maint_date_str := Last_Maintenance_Date row in
  let next_maint_date :=
    match last_maint_date_str with
    | None => None
    | Some s =>
        match try_formats date_formats s with
        | Some parsed_date =>
            Some (dt_ord (add_days parsed_date predicted_days_since))
        | None => None
        end
    end in
  Ok [ {| roomNumber := Room_Number row;
          applianceType := Appliance_Type row;
          lastMaintenanceDate := Last_Maintenance_Date row;
          predictedDaysSinceMaintenance := round2 predicted_days_since;
          nextMaintenanceDate := next_maint_date |} ].

(** The body of [/maintenance/predict]: [message], [predictions] and
    [success], or [message] and [success: false] alone. *)
Inductive PredictBody : Type :=
| PredictList (message : string) (predictions : list Prediction) (success : bool)
| PredictMessage (message : string).

Definition predict_maintenance (g : Globals) (field : RoomValue)
  : Response PredictBody :=
  let not_loaded :=
    Reply 400
      (PredictList
         "Hotel maintenance prediction model or training data not loaded. Please upload a CSV dataset first."
         [] false) in
  match hotel_model g with
  | None => not_loaded
  | Some m =>
      if df_empty (loaded_training_df g) then not_loaded
      else
        match field with
        | NoRoomValue =>
            Reply 400 (PredictMessage
                         "Invalid JSON input. 'Room Number' is required.")
        | RoomValueNotNumber =>
            Reply 400 (PredictMessage "Room Number must be a number.")
        | RoomValueNotFinite text =>
            Reply 200 (PredictList ("No devices found for Room Number: " ++ text)
                                   [] true)
        | RoomValueFinite room_number text =>
            match room_devices (loaded_training_df g) room_number with
            | [] =>
                Reply 200 (PredictList
                             ("No devices found for Room Number: " ++ text)
                             [] true)
            | room_devices_df =>
                match for_each (predict_row m) room_devices_df with
                | Ok results =>
                    Reply 200 (PredictList
                                 ("Predictions for Room Number " ++ text ++
                                  " successful for hotel maintenance!")
                                 results true)
                | Raise e =>
                    Reply 500 (PredictList
                                 ("Failed to make predictions for hotel maintenance: "
                                  ++ str_exn e) [] false)
                end
            end
        end
  end.

End Legacy.

(* ===================================================================== *)
(** * Specification vocabulary and the scenario of the specification *)
(* ===================================================================== *)

(** [l] lists some of the elements of [m], in the order [m] has them. *)
Inductive Subseq {A : Type} : list A -> list A -> Prop :=
| Subseq_nil : Subseq [] []
| Subseq_skip x l m : Subseq l m -> Subseq l (x :: m)
| Subseq_keep x l m : Subseq l m -> Subseq (x :: l) (x :: m).

(** names in sorted (code point) order *)
Definition sorted_names (l : list string) : Prop :=
  StronglySorted (fun a b => String.leb a b = true) l.

(** a frame lacks a column of the schema *)
Definition lacks_column (schema : list string) (df : DataFrame) : Prop :=
  exists col, In col schema /\ ~ In col (columns df).

(** the regressor predicts on every row of the frame *)
Definition accepts (m : Regressor) (df : DataFrame) : Prop :=
  forall r, In r (rows df) -> exists p, predict m r = Ok p.

(** the three features of a row are present *)
Definition complete_features (r : DeviceRecord) : bool :=
  match Usage_Hours r, Average_Daily_Usage r, Device_Year r with
  | Some _, Some _, Some _ => true
  | _, _, _ => false
  end.

(** the regressor predicts on every row whose features are present *)
Definition accepts_complete (m : Regressor) (df : DataFrame) : Prop :=
  forall r, In r (rows df) -> complete_features r = true ->
            exists p, predict m r = Ok p.

(** every row has a text in its date cell *)
Definition dates_present (df : DataFrame) : Prop :=
  forall r, In r (rows df) -> Last_Maintenance_Date r <> None.

(** The scenario of the specification: one television in room 2000. *)
Definition scenario_row : DeviceRecord :=
  {| Room_Number := 2000;
     Appliance_Type := "TV";
     Last_Maintenance_Date := Some "01/01/2023";
     Usage_Hours := Some (500 # 1)%Q;
     Days_Since_Maintenance := Some (300 # 1)%Q;
     Average_Daily_Usage := Some (2 # 1)%Q;
     Device_Year := Some 2020;
     Status := Some "Working";
     Warranty_Year := Some 2025 |}.

Definition scenario_frame : DataFrame :=
  {| columns := hotel_required_cols; rows := [scenario_row] |}.

(** the frame has the two columns that the upcoming view and the device
    details read with [row[...]] and that only the model class's training
    asks for *)
Definition lookup_columns (df : DataFrame) : Prop :=
  In "Warranty Year" (columns df) /\ In "Status" (columns df).

(** a regressor that answers [p] days for every device *)
Definition constant_regressor (p : Q) : Regressor := fun _ _ _ => Ok p.

Definition scenario_state : HotelMaintenanceModel :=
  {| hotel_model := Some (constant_regressor (300 # 1)%Q);
     loaded_training_df := scenario_frame;
     model_metrics := None;
     loaded_file_path := Some "FairField.csv" |}.

(** the scenario with a regressor that answers 299.4 days: the next
    maintenance of the television falls on 2023-10-27 at 09:36 *)
Definition morning_state : HotelMaintenanceModel :=
  {| hotel_model := Some (constant_regressor (1497 # 5)%Q);
     loaded_training_df := scenario_frame;
     model_metrics := None;
     loaded_file_path := Some "FairField.csv" |}.

(** an upload without the two usage columns *)
Definition frame_without_usage : DataFrame :=
  {| columns := ["Device_Year"; "Days Since Maintenance"; "Room Number";
                 "Appliance Type"; "Last Maintenance Date"; "Status";
                 "Warranty Year"];
     rows := [scenario_row] |}.

Definition trivial_fit : list DeviceRecord -> Fit :=
  fun _ => Fitted (constant_regressor (300 # 1)%Q).
Definition trivial_score : Regressor -> list DeviceRecord -> result Metrics :=
  fun _ _ => Ok {| r2_score := 1; mae := 0; rmse := 0 |}.

(** a disk whose hotel files all hold the upload without usage columns *)
Definition westin_disk : Disk :=
  {| MODEL_PATH := Absent; DATA_PATH := Absent;
     csv_file := fun _ => Stored frame_without_usage;
     joblib_dump := fun _ => Stores;
     to_pickle := fun _ => Stores |}.

Definition empty_disk : Disk :=
  {| MODEL_PATH := Absent; DATA_PATH := Absent; csv_file := fun _ => Absent;
     joblib_dump := fun _ => Stores; to_pickle := fun _ => Stores |}.

(** the same object over the same columns with other rows *)
Definition with_rows (self : HotelMaintenanceModel) (rs : list DeviceRecord)
  : HotelMaintenanceModel :=
  {| hotel_model := hotel_model self;
     loaded_training_df :=
       {| columns := columns (loaded_training_df self); rows := rs |};
     model_metrics := model_metrics self;
     loaded_file_path := loaded_file_path self |}.

Section History.
Variable fit : list DeviceRecord -> Fit.
Variable score : Regressor -> list DeviceRecord -> result Metrics.

(** The objects on which no hotel dataset was ever selected: a new
    object, and what training or a refused selection makes of one. *)
Inductive never_selected : HotelMaintenanceModel -> Prop :=
| ns_init (disk : Disk) : never_selected (__init__ score disk)
| ns_train (df : DataFrame) (disk : Disk) (self : HotelMaintenanceModel) :
    never_selected self ->
    never_selected (fst (fst (train_model fit score df disk self)))
| ns_refused (hotel_name : string) (disk : Disk)
             (self : HotelMaintenanceModel) (e : exn) :
    never_selected self ->
    snd (load_hotel_data hotel_name disk self) = Raise e ->
    never_selected (fst (load_hotel_data hotel_name disk self)).
End History.

(** a disk that holds the artifacts of the scenario *)
Definition scenario_disk : Disk :=
  {| MODEL_PATH := Stored (constant_regressor (300 # 1)%Q);
     DATA_PATH := Stored scenario_frame;
     csv_file := fun _ => Absent;
     joblib_dump := fun _ => Stores;
     to_pickle := fun _ => Stores |}.

(** what a reported device must satisfy: a predicted value that is not
    negative, and a next maintenance date not before the previous one *)
Definition entry_ok (e : Entry) : Prop :=
  (0 <= predictedDaysSinceMaintenance e)%Q /\
  forall d n, previous_maintenance_date e = Some d ->
              next_maintenance_date e = Some n -> toordinal d <= n.

(** the Monday of the week of [now], as a day number *)
Definition monday_of (now : date) : Z :=
  toordinal now - weekday_of_ordinal (toordinal now).

(** a device last serviced on Monday 2024-01-01 whose prediction is zero
    days, looked at on the Wednesday of that week *)
Definition monday_row : DeviceRecord :=
  {| Room_Number := 101;
     Appliance_Type := "AC";
     Last_Maintenance_Date := Some "01/01/2024";
     Usage_Hours := Some (10 # 1)%Q;
     Days_Since_Maintenance := Some (0 # 1)%Q;
     Average_Daily_Usage := Some (1 # 1)%Q;
     Device_Year := Some 2022;
     Status := Some "Working";
     Warranty_Year := Some 2026 |}.

Definition monday_state : HotelMaintenanceModel :=
  {| hotel_model := Some (constant_regressor (0 # 1)%Q);
     loaded_training_df :=
       {| columns := hotel_required_cols; rows := [monday_row] |};
     model_metrics := None;
     loaded_file_path := Some "Westin.csv" |}.

(** two rows of one television in room 2000, the older one first, and a
    third whose date does not parse *)
Definition older_row : DeviceRecord :=
  {| Room_Number := 2000;
     Appliance_Type := "TV";
     Last_Maintenance_Date := Some "15/06/2022";
     Usage_Hours := Some (400 # 1)%Q;
     Days_Since_Maintenance := Some (200 # 1)%Q;
     Average_Daily_Usage := Some (2 # 1)%Q;
     Device_Year := Some 2020;
     Status := Some "Working";
     Warranty_Year := Some 2025 |}.

Definition undated_row : DeviceRecord :=
  {| Room_Number := 2000;
     Appliance_Type := "TV";
     Last_Maintenance_Date := Some "last spring";
     Usage_Hours := Some (450 # 1)%Q;
     Days_Since_Maintenance := Some (250 # 1)%Q;
     Average_Daily_Usage := Some (2 # 1)%Q;
     Device_Year := Some 2020;
     Status := None;
     Warranty_Year := None |}.

Definition history_state : HotelMaintenanceModel :=
  {| hotel_model := Some (constant_regressor (300 # 1)%Q);
     loaded_training_df :=
       {| columns := hotel_required_cols;
          rows := [undated_row; older_row; scenario_row] |};
     model_metrics := None;
     loaded_file_path := Some "FairField.csv" |}.

(** a minibar in the television's room, and a television next door *)
Definition minibar_row : DeviceRecord :=
  {| Room_Number := 2000;
     Appliance_Type := "Minibar";
     Last_Maintenance_Date := Some "2024-03-04";
     Usage_Hours := Some (120 # 1)%Q;
     Days_Since_Maintenance := Some (90 # 1)%Q;
     Average_Daily_Usage := Some (1 # 2)%Q;
     Device_Year := Some 2021;
     Status := Some "Not Working";
     Warranty_Year := Some 2024 |}.

Definition neighbour_row : DeviceRecord :=
  {| Room_Number := 2001;
     Appliance_Type := "TV";
     Last_Maintenance_Date := Some "03/04/2024";
     Usage_Hours := Some (300 # 1)%Q;
     Days_Since_Maintenance := Some (150 # 1)%Q;
     Average_Daily_Usage := Some (2 # 1)%Q;
     Device_Year := Some 2022;
     Status := Some "Working";
     Warranty_Year := None |}.

(** four rows for three devices: the television of room 2000 twice, a
    minibar in the same room, a television in the next *)
Definition fleet_state : HotelMaintenanceModel :=
  {| hotel_model := Some (constant_regressor (300 # 1)%Q);
     loaded_training_df :=
       {| columns := hotel_required_cols;
          rows := [older_row; minibar_row; neighbour_row; scenario_row] |};
     model_metrics := None;
     loaded_file_path := Some "FairField.csv" |}.

(** [a] may stand before [b] in a frame sorted by date, newest first:
    [b]'s key is not ahead of [a]'s *)
Definition may_precede {A : Type} (key : A -> option date) (a b : A) : Prop :=
  key_gtb (key b) (key a) = false.

(** how an entry of [predict_for_room] comes from a resolved row *)
Definition room_entry_of (x : ParsedRow) (e : Entry) : Prop :=
  device_id e = pr_index x + 1 /\
  room_no e = Room_Number (pr_row x) /\
  device_name e = pr_type x /\
  previous_maintenance_date e = pr_parsed x /\
  entry_ok e.

(** the window test of the weekly view, on day numbers *)
Definition in_current_week (now : date) (m : Regressor) (row : DeviceRecord)
  : Prop :=
  complete_features row = true /\
  exists p parsed,
    predict m row = Ok p /\
    try_formats date_formats (str_cell (Last_Maintenance_Date row)) = Some parsed /\
    monday_of now <= dt_ord (add_days parsed (clamp p)) <= monday_of now + 6.


(* ===================================================================== *)
(** * Further vocabulary *)
(* ===================================================================== *)

(** the disk lacks the stored model or the stored dataset *)
Definition lacks_artifact (disk : Disk) : Prop :=
  (forall m, MODEL_PATH disk <> Stored m) \/
  (forall df, DATA_PATH disk <> Stored df).

(** the answer of the four guarded queries when model or data is missing *)
Definition not_loaded : exn := RuntimeError "Model or training data not loaded.".

(** a disk with the three hotel files of the scenario *)
Definition hotel_disk : Disk :=
  {| MODEL_PATH := Absent;
     DATA_PATH := Absent;
     csv_file := fun path =>
       if String.eqb path "Westin.csv" then Stored scenario_frame
       else if String.eqb path "FairField.csv" then Stored frame_without_usage
       else Absent;
     joblib_dump := fun _ => Stores;
     to_pickle := fun _ => Stores |}.

(** an object with a model and a dataset on which no hotel was selected *)
Definition trained_state : HotelMaintenanceModel :=
  {| hotel_model := Some (constant_regressor (300 # 1)%Q);
     loaded_training_df := scenario_frame;
     model_metrics := None;
     loaded_file_path := None |}.

(** the test that puts a row on the pending list *)
Definition is_due (now : date) (m : Regressor) (row : DeviceRecord) : Prop :=
  exists p parsed,
    predict m row = Ok p /\
    try_formats date_formats (str_cell (Last_Maintenance_Date row)) = Some parsed /\
    dt_ord (add_days parsed (clamp p)) <= toordinal now.

(** the test that puts a row on the upcoming list *)
Definition is_upcoming (now : date) (m : Regressor) (row : DeviceRecord) : Prop :=
  exists p s parsed,
    predict m row = Ok p /\
    Last_Maintenance_Date row = Some s /\
    try_formats date_formats s = Some parsed /\
    toordinal now < dt_ord (add_days parsed (clamp p)) <= toordinal now + 182.

(** the text of the [TypeError] that [strptime] raises on a missing cell *)
Definition strptime_type_error : exn :=
  TypeError "strptime() argument 1 must be str, not float".

(** the scenario with one more row whose date cell is empty *)
Definition blank_date_row : DeviceRecord :=
  {| Room_Number := 2001;
     Appliance_Type := "Kettle";
     Last_Maintenance_Date := None;
     Usage_Hours := Some (40 # 1)%Q;
     Days_Since_Maintenance := Some (20 # 1)%Q;
     Average_Daily_Usage := Some (1 # 1)%Q;
     Device_Year := Some 2021;
     Status := Some "Working";
     Warranty_Year := None |}.

Definition blank_date_state : HotelMaintenanceModel :=
  {| hotel_model := Some (constant_regressor (300 # 1)%Q);
     loaded_training_df :=
       {| columns := hotel_required_cols;
          rows := [scenario_row; blank_date_row] |};
     model_metrics := None;
     loaded_file_path := Some "FairField.csv" |}.

(** a television that works and is due beside a kettle that is broken and
    is not due *)
Definition broken_row : DeviceRecord :=
  {| Room_Number := 2001;
     Appliance_Type := "Kettle";
     Last_Maintenance_Date := Some "05/01/2025";
     Usage_Hours := Some (40 # 1)%Q;
     Days_Since_Maintenance := Some (20 # 1)%Q;
     Average_Daily_Usage := Some (1 # 1)%Q;
     Device_Year := Some 2021;
     Status := Some "Broken";
     Warranty_Year := None |}.

Definition mixed_state : HotelMaintenanceModel :=
  {| hotel_model := Some (constant_regressor (300 # 1)%Q);
     loaded_training_df :=
       {| columns := hotel_required_cols;
          rows := [scenario_row; broken_row] |};
     model_metrics := None;
     loaded_file_path := Some "FairField.csv" |}.

(** [a] may be listed before [b] in a list sorted newest first: [b]'s
    previous maintenance date is not a later day than [a]'s, and an entry
    without a date is followed only by entries without a date *)
Definition not_older (a b : Entry) : Prop :=
  match previous_maintenance_date a, previous_maintenance_date b with
  | Some da, Some db => toordinal db <= toordinal da
  | Some _, None => True
  | None, Some _ => False
  | None, None => True
  end.

(** a lamp in room 2000 whose date does not parse, and the room's rows in
    an order that is not the order of their dates *)
Definition lamp_row : DeviceRecord :=
  {| Room_Number := 2000;
     Appliance_Type := "Lamp";
     Last_Maintenance_Date := Some "last spring";
     Usage_Hours := Some (50 # 1)%Q;
     Days_Since_Maintenance := Some (30 # 1)%Q;
     Average_Daily_Usage := Some (1 # 1)%Q;
     Device_Year := Some 2019;
     Status := None;
     Warranty_Year := None |}.

Definition suite_state : HotelMaintenanceModel :=
  {| hotel_model := Some (constant_regressor (300 # 1)%Q);
     loaded_training_df :=
       {| columns := hotel_required_cols;
          rows := [lamp_row; older_row; neighbour_row; minibar_row;
                   scenario_row] |};
     model_metrics := None;
     loaded_file_path := Some "FairField.csv" |}.

(** the warranty test of the list views, on a row *)
Definition in_warranty (now : date) (row : DeviceRecord) : Prop :=
  exists w, Warranty_Year row = Some w /\ year now <= w.

(** [row] at [index] is the first row of the dataset with this room and
    appliance type *)
Definition first_match (df : DataFrame) (room : Z) (ty : string)
  (index : Z) (row : DeviceRecord) : Prop :=
  In (index, row) (iterrows df) /\
  Room_Number row = room /\ Appliance_Type row = ty /\
  forall index' row',
    In (index', row') (iterrows df) ->
    Room_Number row' = room -> Appliance_Type row' = ty -> index <= index'.

(** the television of room 2000 once more, first with an older date, then
    with a newer one *)
Definition repeated_state : HotelMaintenanceModel :=
  {| hotel_model := Some (constant_regressor (300 # 1)%Q);
     loaded_training_df :=
       {| columns := hotel_required_cols;
          rows := [older_row; scenario_row] |};
     model_metrics := None;
     loaded_file_path := Some "FairField.csv" |}.

(** the status code of an answer, if the route answered *)
Definition status_of {A : Type} (r : Response A) : option Z :=
  match r with
  | Reply status _ => Some status
  | Unhandled _ => None
  end.

(** a non-room file with one asset and one empty line *)
Definition lift_row : NonRoomRecord :=
  {| DeviceID := Some "L-01";
     DeviceType := Some "Lift";
     Location := Some "Lobby";
     DeviceYear := Some 2019;
     WarrantyYear := None;
     TotalUsageHours := Some (1200 # 1)%Q;
     LastMaintenanceDate := Some "2024-01-15";
     NextScheduledMaintenanceDates := Some "2024-07-15";
     other_cells := [] |}.

Definition blank_row : NonRoomRecord :=
  {| DeviceID := None; DeviceType := None; Location := None;
     DeviceYear := None; WarrantyYear := None; TotalUsageHours := None;
     LastMaintenanceDate := None; NextScheduledMaintenanceDates := None;
     other_cells := [] |}.

Definition non_room_frame : NonRoomFrame :=
  {| nr_columns := non_room_required_cols; nr_rows := [lift_row; blank_row] |}.

Definition non_room_frame_without_id : NonRoomFrame :=
  {| nr_columns := ["DeviceType"; "Location"; "DeviceYear"; "WarrantyYear";
                    "TotalUsageHours"; "LastMaintenanceDate";
                    "NextScheduledMaintenanceDates"];
     nr_rows := [lift_row] |}.

(** the object has no model or no rows: the guard of the queries *)
Definition unloaded (self : HotelMaintenanceModel) : Prop :=
  hotel_model self = None \/ df_empty (loaded_training_df self) = true.

(** the body of a list route that reports a failure *)
Definition failure_body {A : Type} (message : string) : Routes.ListBody A :=
  Routes.mkListBody message [] false.

(** an estimator on which [predict] raises [e] *)
Definition raising (e : exn) : Regressor := fun _ _ _ => Raise e.

(** a fit that the library refuses, leaving an estimator on which
    [predict] raises in its turn *)
Definition refusing_fit : list DeviceRecord -> Fit :=
  fun _ => FitRaised (ValueError "Input y contains NaN.")
                     (raising (AttributeError "n_features_in_")).

(** a disk on which the model can be written and the dataset cannot *)
Definition full_disk : Disk :=
  {| MODEL_PATH := Absent; DATA_PATH := Absent; csv_file := fun _ => Absent;
     joblib_dump := fun _ => Stores;
     to_pickle := fun _ => Refuses (Exception "No space left on device") Absent |}.

(** both writes of a training go through *)
Definition writable (disk : Disk) : Prop :=
  (forall m, joblib_dump disk m = Stores) /\
  (forall df, to_pickle disk df = Stores).

(** the globals of the single-file application that hold the model, the
    dataset and the metrics of an object *)
Definition globals_of (self : HotelMaintenanceModel) : Legacy.Globals :=
  {| Legacy.hotel_model := hotel_model self;
     Legacy.loaded_training_df := loaded_training_df self;
     Legacy.model_metrics := model_metrics self |}.

(** how a prediction of the single-file application comes from a row *)
Definition prediction_of (m : Regressor) (ir : Z * DeviceRecord)
  (p : Legacy.Prediction) : Prop :=
  Legacy.roomNumber p = Room_Number (snd ir) /\
  Legacy.applianceType p = Appliance_Type (snd ir) /\
  Legacy.lastMaintenanceDate p = Last_Maintenance_Date (snd ir) /\
  exists q, predict m (snd ir) = Ok q /\
            Legacy.predictedDaysSinceMaintenance p = round2 (clamp q).

(** an entry of the room search and a prediction of the single-file
    application report the same device with the same number of days *)
Definition same_device (e : Entry) (p : Legacy.Prediction) : Prop :=
  room_no e = Legacy.roomNumber p /\
  device_name e = Legacy.applianceType p /\
  predictedDaysSinceMaintenance e = Legacy.predictedDaysSinceMaintenance p.

(** [int(x)] for a float [x]: the fraction is cut off *)
Definition truncate (x : Q) : Z := Z.quot (Qnum x) (QDen x).

(** a number that is no integer *)
Definition fractional (x : Q) : Prop := forall n : Z, ~ (inject_Z n == x)%Q.

(** the scenario's television with its date in the year-first format *)
Definition iso_row : DeviceRecord :=
  {| Room_Number := 2000;
     Appliance_Type := "TV";
     Last_Maintenance_Date := Some "2023-01-01";
     Usage_Hours := Some (500 # 1)%Q;
     Days_Since_Maintenance := Some (300 # 1)%Q;
     Average_Daily_Usage := Some (2 # 1)%Q;
     Device_Year := Some 2020;
     Status := Some "Working";
     Warranty_Year := Some 2025 |}.

(** an upload with the seven columns the single-file application asks for *)
Definition bare_row : DeviceRecord :=
  {| Room_Number := 2000;
     Appliance_Type := "TV";
     Last_Maintenance_Date := Some "01/01/2023";
     Usage_Hours := Some (500 # 1)%Q;
     Days_Since_Maintenance := Some (300 # 1)%Q;
     Average_Daily_Usage := Some (2 # 1)%Q;
     Device_Year := Some 2020;
     Status := None;
     Warranty_Year := None |}.

Definition seven_column_upload : DataFrame :=
  {| columns := ["Room Number"; "Appliance Type"; "Last Maintenance Date";
                 "Usage Hours"; "Days Since Maintenance";
                 "Average_Daily_Usage"; "Device_Year"];
     rows := [bare_row] |}.

(** the object a new process makes of the artifacts that a training of
    the single-file application left *)
Definition seven_column_state : HotelMaintenanceModel :=
  {| hotel_model := Some (constant_regressor (300 # 1)%Q);
     loaded_training_df := seven_column_upload;
     model_metrics := None;
     loaded_file_path := None |}.

(* ===================================================================== *)
(** * Date normalizer *)
(* ===================================================================== *)

Lemma try_formats_None (fmts : list string) (s : string) :
  try_formats fmts s = None <->
  (forall fmt, In fmt fmts -> strptime s fmt = None).
Proof.
  induction fmts as [|f fs IH]; simpl.
  - split; [intros _ fmt [] | reflexivity].
  - destruct (strptime s f) eqn:E.
    + split; [discriminate|].
      intros H. specialize (H f (or_introl eq_refl)). congruence.
    + rewrite IH. split.
      * intros H fmt [<-|Hin]; auto.
      * intros H fmt Hin. apply H. now right.
Qed.

Lemma try_formats_Some (fmts : list string) (s : string) (d : date) :
  try_formats fmts s = Some d <->
  exists n fmt,
    nth_error fmts n = Some fmt /\ strptime s fmt = Some d /\
    forall k fmt', (k < n)%nat -> nth_error fmts k = Some fmt' ->
                   strptime s fmt' = None.
Proof.
  induction fmts as [|f fs IH]; simpl.
  - split; [discriminate|]. intros (n & fmt & Hn & _). now destruct n.
  - destruct (strptime s f) eqn:E.
    + split.
      * intros [= <-]. exists 0%nat, f. repeat split; auto. intros k ? Hk. lia.
      * intros (n & fmt & Hn & Hd & Hbefore). destruct n as [|n].
        -- simpl in Hn. injection Hn as <-. congruence.
        -- specialize (Hbefore 0%nat f ltac:(lia) eq_refl). congruence.
    + rewrite IH. split.
      * intros (n & fmt & Hn & Hd & Hbefore). exists (S n), fmt.
        repeat split; auto. intros [|k] fmt' Hk Hk'; simpl in Hk'.
        -- now injection Hk' as <-.
        -- apply (Hbefore k); auto. lia.
      * intros (n & fmt & Hn & Hd & Hbefore). destruct n as [|n].
        -- simpl in Hn. injection Hn as <-. congruence.
        -- exists n, fmt. repeat split; auto. intros k fmt' Hk Hk'.
           apply (Hbefore (S k)); auto. lia.
Qed.

Lemma strptime_valid (s fmt : string) (d : date) :
  strptime s fmt = Some d -> valid_date d = true.
Proof.
  unfold strptime. destruct (pattern fmt); [|discriminate].
  destruct (match_tokens _ _ _) as [|[g rest] ?]; [discriminate|].
  destruct rest; [|discriminate].
  destruct (valid_date _) eqn:V; [|discriminate].
  now intros [= <-].
Qed.

Lemma try_formats_valid (fmts : list string) (s : string) (d : date) :
  try_formats fmts s = Some d -> valid_date d = true.
Proof.
  rewrite try_formats_Some. intros (n & fmt & _ & H & _).
  exact (strptime_valid _ _ _ H).
Qed.

(** C2.  The date loop tries, in this order, month/day/4-digit year,
    month/day/2-digit year, year-month-day, day-month-4-digit year with
    dashes, day/month/4-digit year and day/month/2-digit year; it returns
    the parse of the first format that succeeds, so "03/04/2024" is March
    4th; and a text that no format parses yields the "no date" value: the
    function is total and raises nothing. *)
Theorem parse_date_first_format_wins :
  map pattern date_formats =
    [ Some [Field Dm; Lit "/"; Field Dd; Lit "/"; Field DY];
      Some [Field Dm; Lit "/"; Field Dd; Lit "/"; Field Dy];
      Some [Field DY; Lit "-"; Field Dm; Lit "-"; Field Dd];
      Some [Field Dd; Lit "-"; Field Dm; Lit "-"; Field DY];
      Some [Field Dd; Lit "/"; Field Dm; Lit "/"; Field DY];
      Some [Field Dd; Lit "/"; Field Dm; Lit "/"; Field Dy] ] /\
  (forall s d,
      parse_date (Some s) = Some d <->
      exists n fmt,
        nth_error date_formats n = Some fmt /\ strptime s fmt = Some d /\
        forall k fmt', (k < n)%nat -> nth_error date_formats k = Some fmt' ->
                       strptime s fmt' = None) /\
  parse_date (Some "03/04/2024") = Some (mkDate 2024 3 4) /\
  (forall s,
      parse_date (Some s) = None <->
      (forall fmt, In fmt date_formats -> strptime s fmt = None)).
Proof.
  split; [reflexivity|]. split; [|split].
  - intros s d. apply try_formats_Some.
  - reflexivity.
  - intros s. apply try_formats_None.
Qed.

Lemma parse_date_first_format_wins_witness :
  parse_date (Some "13/04/2024") = Some (mkDate 2024 4 13) /\
  parse_date (Some "next week") = None.
Proof.
  destruct parse_date_first_format_wins as (_ & Hsome & _ & Hnone). split.
  - apply Hsome. exists 4%nat, "%d/%m/%Y". split; [reflexivity|].
    split; [reflexivity|].
    intros k fmt' Hk Hnth.
    destruct k as [|[|[|[|k]]]]; try lia;
      simpl in Hnth; injection Hnth as <-; reflexivity.
  - apply Hnone. intros fmt Hin. simpl in Hin.
    repeat (destruct Hin as [<-|Hin]; [reflexivity|]). destruct Hin.
Defined.

(* ===================================================================== *)
(** * Dataset loader *)
(* ===================================================================== *)

Lemma mem_In (x : string) (l : list string) : mem x l = true <-> In x l.
Proof.
  unfold mem. rewrite existsb_exists. split.
  - intros (y & Hy & E). apply String.eqb_eq in E. now subst.
  - intros H. exists x. split; auto. apply String.eqb_refl.
Qed.

Lemma missing_cols_spec (schema : list string) (df : DataFrame) (col : string) :
  In col (missing_cols schema df) <-> In col schema /\ ~ In col (columns df).
Proof.
  unfold missing_cols. rewrite filter_In, negb_true_iff.
  pose proof (mem_In col (columns df)) as M.
  destruct (mem col (columns df)).
  - split; [intros [_ H]; discriminate H | intros [_ H]; elim H; now apply M].
  - split; intros [H _]; (split; [exact H|]); auto.
    intros Hin. apply M in Hin. discriminate Hin.
Qed.

Lemma filter_Subseq {A : Type} (f : A -> bool) (l : list A) :
  Subseq (filter f l) l.
Proof.
  induction l as [|x l IH]; simpl; [constructor|].
  destruct (f x); now constructor.
Qed.

Lemma all_present_false (schema : list string) (df : DataFrame) :
  all_present schema df = false <-> lacks_column schema df.
Proof.
  unfold all_present, lacks_column. split.
  - intros H. induction schema as [|c cs IH]; simpl in H; [discriminate|].
    destruct (mem c (columns df)) eqn:E.
    + destruct (IH H) as (col & Hin & Hn). exists col. split; auto. now right.
    + exists c. split; [now left|]. rewrite <- mem_In. congruence.
  - intros (col & Hin & Hn).
    destruct (forallb _ schema) eqn:E; auto.
    rewrite forallb_forall in E. apply E in Hin. now apply mem_In in Hin.
Qed.

Lemma append_assoc (a b c : string) : (a ++ b) ++ c = a ++ (b ++ c).
Proof. induction a as [|x a IH]; simpl; [reflexivity | now rewrite IH]. Qed.

(** C5, as the code has it.  When the uploaded table lacks required
    columns, training raises a [ValueError] and changes nothing; its
    message lists exactly the missing columns, each once, in the order the
    schema declares them.  Selecting a hotel file that lacks required
    columns fails too, with a message that ends in the list of exactly the
    missing columns in schema order. *)
Theorem missing_columns_named_in_schema_order
  (fit : list DeviceRecord -> Fit)
  (score : Regressor -> list DeviceRecord -> result Metrics)
  (disk : Disk) (self : HotelMaintenanceModel) :
  (forall df,
      lacks_column training_schema df ->
      train_model fit score df disk self =
        (self, disk,
         Raise (ValueError ("Missing required columns in CSV: " ++
                            join ", " (missing_cols training_schema df)))) /\
      (forall col, In col (missing_cols training_schema df) <->
                   In col training_schema /\ ~ In col (columns df)) /\
      Subseq (missing_cols training_schema df) training_schema /\
      NoDup (missing_cols training_schema df)) /\
  (forall hotel_name csv_file_path df,
      lookup (lower hotel_name) HOTEL_CSV_FILES = Some csv_file_path ->
      csv_file disk csv_file_path = Stored df ->
      lacks_column hotel_required_cols df ->
      exists e prefix,
        load_hotel_data hotel_name disk self = (self, Raise e) /\
        str_exn e = prefix ++ join ", " (missing_cols hotel_required_cols df) /\
        (forall col, In col (missing_cols hotel_required_cols df) <->
                     In col hotel_required_cols /\ ~ In col (columns df)) /\
        Subseq (missing_cols hotel_required_cols df) hotel_required_cols /\
        NoDup (missing_cols hotel_required_cols df)).
Proof.
  split.
  - intros df Hlack. apply all_present_false in Hlack.
    split; [|split; [|split]].
    + unfold train_model. now rewrite Hlack.
    + intros col. apply missing_cols_spec.
    + apply filter_Subseq.
    + apply NoDup_filter.
      repeat (constructor; [simpl; intuition discriminate|]). constructor.
  - intros hotel_name csv_file_path df Hname Hfile Hlack.
    apply all_present_false in Hlack.
    unfold load_hotel_data. rewrite Hname, Hfile, Hlack. cbn [negb].
    eexists. exists ("Error loading data for hotel '" ++ hotel_name ++
                     "' from '" ++ csv_file_path ++ "': " ++
                     "Missing required columns in '" ++
                     csv_file_path ++ "': ").
    split; [reflexivity|]. split; [|split; [|split]].
    + cbn [str_exn]. now rewrite !append_assoc.
    + intros col. apply missing_cols_spec.
    + apply filter_Subseq.
    + apply NoDup_filter.
      repeat (constructor; [simpl; intuition discriminate|]). constructor.
Qed.

Lemma missing_columns_named_in_schema_order_witness :
  train_model trivial_fit trivial_score frame_without_usage
              westin_disk scenario_state =
    (scenario_state, westin_disk,
     Raise (ValueError
              "Missing required columns in CSV: Usage Hours, Average_Daily_Usage")) /\
  exists e,
    load_hotel_data "Westin" westin_disk scenario_state =
      (scenario_state, Raise e) /\
    str_exn e =
      "Error loading data for hotel 'Westin' from 'Westin.csv': Missing required columns in 'Westin.csv': Usage Hours, Average_Daily_Usage".
Proof.
  destruct (missing_columns_named_in_schema_order trivial_fit trivial_score
              westin_disk scenario_state) as [Htrain Hhotel].
  assert (Hlack : forall schema, In "Usage Hours" schema ->
                                 lacks_column schema frame_without_usage).
  { intros schema Hin. exists "Usage Hours". split; [exact Hin|].
    simpl. intuition discriminate. }
  split.
  - apply (Htrain frame_without_usage). apply Hlack. simpl. tauto.
  - destruct (Hhotel "Westin" "Westin.csv" frame_without_usage eq_refl eq_refl)
      as (e & prefix & He & Hmsg & _).
    + apply Hlack. simpl. tauto.
    + exists e. split; [exact He|].
      unfold load_hotel_data in He. simpl in He. injection He as <-.
      reflexivity.
Defined.

(** C5 with "in sorted order" does not hold: the message lists the missing
    columns in schema order, and that order is not sorted. *)
Lemma missing_columns_not_sorted :
  lacks_column training_schema frame_without_usage /\
  train_model trivial_fit trivial_score frame_without_usage empty_disk
              scenario_state =
    (scenario_state, empty_disk,
     Raise (ValueError
              "Missing required columns in CSV: Usage Hours, Average_Daily_Usage")) /\
  missing_cols training_schema frame_without_usage =
    ["Usage Hours"; "Average_Daily_Usage"] /\
  ~ sorted_names (missing_cols training_schema frame_without_usage).
Proof.
  split; [|split; [|split]].
  - exists "Usage Hours". split; [simpl; tauto | simpl; intuition discriminate].
  - reflexivity.
  - reflexivity.
  - intros H. inversion H as [|a l _ Hall]; subst.
    inversion Hall as [|b l' Hle _]; subst. discriminate Hle.
Qed.

(* ===================================================================== *)
(** * Loops over rows *)
(* ===================================================================== *)

Lemma for_each_total {A B : Type} (body : A -> result (list B)) (l : list A) :
  (forall x, In x l -> exists ys, body x = Ok ys) ->
  exists r, for_each body l = Ok r.
Proof.
  induction l as [|x t IH]; intros H; simpl.
  - now exists [].
  - destruct (H x (or_introl eq_refl)) as [ys ->].
    destruct IH as [r ->]; [intros y Hy; apply H; now right|].
    simpl. eauto.
Qed.

Lemma for_each_In {A B : Type} (body : A -> result (list B)) (l : list A)
  (r : list B) :
  for_each body l = Ok r ->
  forall y, In y r <-> exists x ys, In x l /\ body x = Ok ys /\ In y ys.
Proof.
  revert r. induction l as [|x t IH]; simpl; intros r H y.
  - injection H as <-. split; [intros [] | intros (? & ? & [] & _)].
  - destruct (body x) as [ys|e] eqn:Ex; simpl in H; [|discriminate].
    destruct (for_each body t) as [rest|e] eqn:Et; simpl in H; [|discriminate].
    injection H as <-. rewrite in_app_iff, (IH rest eq_refl y). split.
    + intros [Hy | (x' & ys' & Hin & Hb & Hy)].
      * exists x, ys. auto.
      * exists x', ys'. auto.
    + intros (x' & ys' & [<-|Hin] & Hb & Hy).
      * left. congruence.
      * right. eauto.
Qed.

Lemma filter_none {A : Type} (f : A -> bool) (l : list A) :
  (forall x, In x l -> f x = false) -> filter f l = [].
Proof.
  induction l as [|x t IH]; intros H; simpl; [reflexivity|].
  rewrite (H x (or_introl eq_refl)). apply IH. intros y Hy. apply H. now right.
Qed.

Lemma iterrows_row (df : DataFrame) (i : Z) (r : DeviceRecord) :
  In (i, r) (iterrows df) -> In r (rows df).
Proof. unfold iterrows. apply in_combine_r. Qed.

Lemma combine_seq_In {A : Type} (l : list A) (start : nat) (x : A) :
  In x l -> exists i, In (Z.of_nat i, x) (combine (map Z.of_nat (seq start (List.length l))) l).
Proof.
  revert start. induction l as [|y t IH]; intros start; simpl; [intros []|].
  intros [->|Hin].
  - exists start. now left.
  - destruct (IH (S start) Hin) as [i Hi]. exists i. now right.
Qed.

Lemma iterrows_index (df : DataFrame) (r : DeviceRecord) :
  In r (rows df) -> exists i, In (i, r) (iterrows df).
Proof.
  intros H. destruct (combine_seq_In _ 0%nat _ H) as [i Hi]. now exists (Z.of_nat i).
Qed.

Lemma combine_seq_functional {A : Type} (l : list A) (start : nat) (i : Z)
  (x y : A) :
  In (i, x) (combine (map Z.of_nat (seq start (List.length l))) l) ->
  In (i, y) (combine (map Z.of_nat (seq start (List.length l))) l) ->
  x = y.
Proof.
  assert (Hlow : forall (t : list A) s j z,
             In (j, z) (combine (map Z.of_nat (seq s (List.length t))) t) ->
             Z.of_nat s <= j).
  { induction t as [|a t IH]; simpl; intros s j z; [intros []|].
    intros [[= <- _]|H]; [lia|]. apply IH in H. lia. }
  revert start. induction l as [|a t IH]; intros start; simpl; [intros []|].
  intros [[= Hi <-]|Hx] [[= Hj <-]|Hy]; auto.
  - apply Hlow in Hy. lia.
  - apply Hlow in Hx. lia.
  - eapply IH; eauto.
Qed.

(** index labels name rows: one row per label *)
Lemma iterrows_functional (df : DataFrame) (i : Z) (r r' : DeviceRecord) :
  In (i, r) (iterrows df) -> In (i, r') (iterrows df) -> r = r'.
Proof. apply combine_seq_functional. Qed.

Lemma df_nonempty_rows (df : DataFrame) :
  df_empty df = false -> rows df <> [].
Proof.
  unfold df_empty. destruct (columns df), (rows df); congruence.
Qed.

(* ===================================================================== *)
(** * Lookups that find nothing *)
(* ===================================================================== *)

(** C7.  With a model and a dataset in place, a lookup that matches no row
    succeeds with an empty result: [predict_for_room] returns the empty
    list for a room without rows, and [get_device_details] returns the
    empty record when no row has the room and the appliance type. *)
Theorem empty_lookup_is_success
  (now : date) (self : HotelMaintenanceModel) (m : Regressor)
  (room : Z) (appliance_type : string) :
  hotel_model self = Some m ->
  df_empty (loaded_training_df self) = false ->
  ((forall r, In r (rows (loaded_training_df self)) -> Room_Number r <> room) ->
   predict_for_room now self room = Ok []) /\
  ((forall r, In r (rows (loaded_training_df self)) ->
              Room_Number r = room -> Appliance_Type r <> appliance_type) ->
   get_device_details now self room appliance_type = Ok None).
Proof.
  intros Hm Hne. split; intros Hnone.
  - unfold predict_for_room, room_devices. rewrite Hm, Hne.
    rewrite filter_none; [reflexivity|].
    intros [i r] Hin. apply iterrows_row in Hin. simpl.
    apply Z.eqb_neq. now apply Hnone.
  - unfold get_device_details. rewrite Hm, Hne.
    rewrite filter_none; [reflexivity|].
    intros [i r] Hin. apply iterrows_row in Hin. simpl.
    destruct (Z.eqb_spec (Room_Number r) room) as [E|]; [|reflexivity].
    simpl. apply String.eqb_neq. now apply Hnone.
Qed.

Lemma empty_lookup_is_success_witness :
  predict_for_room (mkDate 2025 6 1) scenario_state 999 = Ok [] /\
  get_device_details (mkDate 2025 6 1) scenario_state 2000 "Minibar" = Ok None.
Proof.
  destruct (empty_lookup_is_success (mkDate 2025 6 1) scenario_state
              (constant_regressor (300 # 1)%Q) 999 "Minibar" eq_refl eq_refl)
    as [Hroom _].
  destruct (empty_lookup_is_success (mkDate 2025 6 1) scenario_state
              (constant_regressor (300 # 1)%Q) 2000 "Minibar" eq_refl eq_refl)
    as [_ Hdev].
  split.
  - apply Hroom. intros r [<-|[]]. simpl. lia.
  - apply Hdev. intros r [<-|[]] _. simpl. discriminate.
Defined.

(* ===================================================================== *)
(** * Warranty flag *)
(* ===================================================================== *)

(** the flag [predict_for_room] reports for a row *)
Lemma room_entry_warranty (m : Regressor) (now : date) (x : ParsedRow)
  (es : list Entry) (e : Entry) :
  room_entry m now x = Ok es -> In e es ->
  (under_warranty e = "yes" <->
   exists w, Warranty_Year (pr_row x) = Some w /\ year now <= w) /\
  (under_warranty e = "yes" \/ under_warranty e = "no").
Proof.
  unfold room_entry. destruct (predict m (pr_row x)); simpl; [|discriminate].
  intros [= <-] [<-|[]]. simpl.
  destruct (Warranty_Year (pr_row x)) as [w|].
  - destruct (Z.leb_spec (year now) w); split; auto.
    + split; eauto.
    + split; [discriminate|]. intros (w' & [= <-] & H'). lia.
  - split; auto. split; [discriminate|]. intros (w' & E & _). discriminate.
Qed.

(** the flag [get_device_details] reports: the same test, other text *)
Lemma device_details_warranty (now : date) (self : HotelMaintenanceModel)
  (room : Z) (appliance_type : string) (info : DeviceInfo) :
  get_device_details now self room appliance_type = Ok (Some info) ->
  (di_under_warranty info = "Yes" <->
   exists w, di_warranty_year_till info = Some w /\ year now <= w) /\
  (di_under_warranty info = "Yes" \/ di_under_warranty info = "No").
Proof.
  unfold get_device_details.
  destruct (df_empty _); [discriminate|].
  destruct (hotel_model self) as [m|]; [|discriminate].
  destruct (filter _ _) as [|[index device] rest]; [discriminate|].
  destruct (predict m device); cbn [bind]; [|discriminate].
  destruct (Last_Maintenance_Date device); [|discriminate].
  unfold getitem.
  destruct (mem "Warranty Year" _); cbn [bind]; [|discriminate].
  destruct (mem "Status" _); cbn [bind]; [|discriminate].
  intros [= <-]. cbn [di_under_warranty di_warranty_year_till].
  destruct (Warranty_Year device) as [w|].
  - destruct (Z.leb_spec (year now) w); split; auto.
    + split; eauto.
    + split; [discriminate|]. intros (w' & [= <-] & H'). lia.
  - split; auto. split; [discriminate|]. intros (w' & E & _). discriminate.
Qed.

(** C6 at the scenario of the specification, in 2025: the device is under
    warranty; [predict_for_room] reports the flag as "yes", and
    [get_device_details] reports it as "Yes", which is not the text "yes". *)
Theorem device_details_capitalises_warranty_flag :
  (exists e, predict_for_room (mkDate 2025 6 1) scenario_state 2000 = Ok [e] /\
             device_name e = "TV" /\ under_warranty e = "yes") /\
  (exists info,
      get_device_details (mkDate 2025 6 1) scenario_state 2000 "TV" =
        Ok (Some info) /\
      di_warranty_year_till info = Some 2025 /\
      di_under_warranty info = "Yes" /\
      di_under_warranty info <> "yes").
Proof.
  split.
  - eexists. split; [vm_compute; reflexivity|]. split; reflexivity.
  - eexists. split; [vm_compute; reflexivity|].
    split; [reflexivity|]. split; [reflexivity|discriminate].
Qed.

(* ===================================================================== *)
(** * Dashboard *)
(* ===================================================================== *)

Lemma dashboard_row_total (m : Regressor) (today : datetime)
  (ir : Z * DeviceRecord) :
  (exists p, predict m (snd ir) = Ok p) ->
  exists ys, dashboard_row m today ir = Ok ys.
Proof.
  destruct ir as [index row]. intros [p Hp]. unfold dashboard_row.
  simpl in Hp. rewrite Hp. simpl.
  destruct (next_maintenance _ _) as [[[? ?] next]|]; [|eauto].
  destruct (dt_leb next today); eauto.
Qed.

Lemma dashboard_loop_total (m : Regressor) (today : datetime) (df : DataFrame) :
  accepts m df ->
  exists pending, for_each (dashboard_row m today) (iterrows df) = Ok pending.
Proof.
  intros Hacc. apply for_each_total. intros [i r] Hin.
  apply dashboard_row_total. apply Hacc. simpl. now apply iterrows_row in Hin.
Qed.

Lemma load_persisted_path (score : Regressor -> list DeviceRecord -> result Metrics)
  (disk : Disk) (self : HotelMaintenanceModel) :
  loaded_file_path (_load_persisted_data score disk self) = loaded_file_path self.
Proof.
  unfold _load_persisted_data.
  destruct (match DATA_PATH disk with Stored _ => _ | _ => _ end). reflexivity.
Qed.

Lemma train_model_path
  (fit : list DeviceRecord -> Fit)
  (score : Regressor -> list DeviceRecord -> result Metrics)
  (df : DataFrame) (disk : Disk) (self : HotelMaintenanceModel) :
  loaded_file_path (fst (fst (train_model fit score df disk self))) =
  loaded_file_path self.
Proof.
  unfold train_model.
  destruct (negb (all_present training_schema df)); [reflexivity|].
  destruct (fit _) as [m|e estimator]; [|reflexivity].
  destruct (score m _); [|reflexivity].
  destruct (joblib_dump disk m); [|reflexivity].
  destruct (to_pickle disk _); reflexivity.
Qed.

Lemma load_hotel_data_refused (hotel_name : string) (disk : Disk)
  (self : HotelMaintenanceModel) (e : exn) :
  snd (load_hotel_data hotel_name disk self) = Raise e ->
  fst (load_hotel_data hotel_name disk self) = self.
Proof.
  unfold load_hotel_data.
  destruct (lookup _ _); [|reflexivity].
  destruct (csv_file disk s); try reflexivity.
  destruct (negb (all_present hotel_required_cols a)); [reflexivity|].
  discriminate.
Qed.

(** Without a selection the object has no [loaded_file_path]. *)
Lemma never_selected_no_path
  (fit : list DeviceRecord -> Fit)
  (score : Regressor -> list DeviceRecord -> result Metrics)
  (self : HotelMaintenanceModel) :
  never_selected fit score self -> loaded_file_path self = None.
Proof.
  induction 1 as [disk | df disk self _ IH | name disk self e _ IH Hr].
  - unfold __init__. now rewrite load_persisted_path.
  - now rewrite train_model_path.
  - now rewrite (load_hotel_data_refused _ _ _ _ Hr).
Qed.

(** C10.  On an object with a model and a non-empty dataset on which no
    hotel dataset was ever selected, [get_dashboard_insights] never returns
    statistics; once the loop over the rows is through (the regressor
    predicts on every row), what it raises is the [AttributeError] for
    [loaded_file_path]. *)
Theorem dashboard_raises_before_any_selection
  (fit : list DeviceRecord -> Fit)
  (score : Regressor -> list DeviceRecord -> result Metrics)
  (now : date) (self : HotelMaintenanceModel) (m : Regressor) :
  never_selected fit score self ->
  hotel_model self = Some m ->
  df_empty (loaded_training_df self) = false ->
  (forall d, get_dashboard_insights now self <> Ok d) /\
  (accepts m (loaded_training_df self) ->
   get_dashboard_insights now self = Raise (AttributeError "loaded_file_path")).
Proof.
  intros Hns Hm Hne. apply never_selected_no_path in Hns.
  unfold get_dashboard_insights. rewrite Hm, Hne, Hns. split.
  - intros d. destruct (for_each _ _); simpl; discriminate.
  - intros Hacc.
    destruct (dashboard_loop_total m (today_of now) _ Hacc) as [pending ->].
    reflexivity.
Qed.

Lemma dashboard_raises_before_any_selection_witness :
  get_dashboard_insights (mkDate 2025 6 1) (__init__ trivial_score scenario_disk) =
  Raise (AttributeError "loaded_file_path").
Proof.
  refine (proj2 (dashboard_raises_before_any_selection trivial_fit trivial_score
                   (mkDate 2025 6 1) (__init__ trivial_score scenario_disk)
                   (constant_regressor (300 # 1)%Q)
                   (ns_init trivial_fit trivial_score scenario_disk)
                   eq_refl eq_refl) _).
  intros r _. exists (300 # 1)%Q. reflexivity.
Defined.

(** ** Counting distinct devices *)

Section DropDuplicatesFacts.
Context {A K : Type}.
Variable keq : K -> K -> bool.
Hypothesis keq_spec : forall a b, keq a b = true <-> a = b.
Variable name : A -> K.

Lemma seen_In (k : K) (seen : list K) :
  existsb (keq k) seen = true <-> In k seen.
Proof.
  rewrite existsb_exists. split.
  - intros (y & Hy & E). apply keq_spec in E. now subst.
  - intros H. exists k. split; auto. now apply keq_spec.
Qed.

Lemma drop_duplicates_from_names (seen : list K) (l : list A) (k : K) :
  In k (map name (drop_duplicates_from keq name seen l)) <->
  In k (map name l) /\ ~ In k seen.
Proof.
  revert seen. induction l as [|x t IH]; intros seen; simpl.
  - tauto.
  - pose proof (seen_In (name x) seen) as S.
    destruct (existsb (keq (name x)) seen).
    + rewrite IH. split; [tauto|].
      intros [[<-|H] Hn]; [elim Hn; now apply S | tauto].
    + simpl. rewrite IH. simpl.
      assert (~ In (name x) seen) by (intros H; apply S in H; discriminate).
      split.
      * intros [<-|[H1 H2]]; [tauto|]. split; [tauto|]. intros H3. apply H2. now right.
      * intros [[<-|H1] H2]; [tauto|].
        destruct (keq (name x) k) eqn:E.
        -- left. now apply keq_spec.
        -- right. split; auto. intros [<-|H3]; [|tauto].
           assert (keq (name x) (name x) = true) by now apply keq_spec.
           congruence.
Qed.

Lemma drop_duplicates_from_NoDup (seen : list K) (l : list A) :
  NoDup (map name (drop_duplicates_from keq name seen l)).
Proof.
  revert seen. induction l as [|x t IH]; intros seen; simpl; [constructor|].
  destruct (existsb (keq (name x)) seen); [apply IH|].
  simpl. constructor; [|apply IH].
  rewrite drop_duplicates_from_names. intros [_ H]. apply H. now left.
Qed.

Lemma drop_duplicates_from_incl (seen : list K) (l : list A) (x : A) :
  In x (drop_duplicates_from keq name seen l) -> In x l.
Proof.
  revert seen. induction l as [|y t IH]; intros seen; simpl; [tauto|].
  destruct (existsb (keq (name y)) seen).
  - intros H. right. eapply IH; eauto.
  - intros [<-|H]; [now left|]. right. eapply IH; eauto.
Qed.

(** a kept row is the first of the list with its key *)
Lemma drop_duplicates_from_first (seen : list K) (l : list A) (y : A) :
  In y (drop_duplicates_from keq name seen l) ->
  exists l1 l2, l = (l1 ++ y :: l2)%list /\
                forall z, In z l1 -> name z <> name y.
Proof.
  revert seen. induction l as [|x t IH]; intros seen; simpl; [tauto|].
  pose proof (seen_In (name x) seen) as S.
  destruct (existsb (keq (name x)) seen) eqn:E.
  - intros H. pose proof H as H'.
    apply (in_map name) in H'. apply drop_duplicates_from_names in H'.
    destruct (IH _ H) as (l1 & l2 & -> & Hfirst).
    exists (x :: l1), l2. split; [reflexivity|].
    intros z [<-|Hz]; [|now apply Hfirst].
    intros Eq. apply (proj2 H'). rewrite <- Eq. now apply S.
  - intros [<-|H].
    + exists [], t. split; [reflexivity|]. intros z [].
    + pose proof H as H'.
      apply (in_map name) in H'. apply drop_duplicates_from_names in H'.
      destruct (IH _ H) as (l1 & l2 & -> & Hfirst).
      exists (x :: l1), l2. split; [reflexivity|].
      intros z [<-|Hz]; [|now apply Hfirst].
      intros Eq. apply (proj2 H'). left. exact Eq.
Qed.

(** the number of rows kept depends on the set of keys only *)
Lemma drop_duplicates_length (l l' : list A) :
  (forall k, In k (map name l) <-> In k (map name l')) ->
  List.length (drop_duplicates keq name l) =
  List.length (drop_duplicates keq name l').
Proof.
  intros Hsame. unfold drop_duplicates.
  rewrite <- (length_map name (drop_duplicates_from keq name [] l)).
  rewrite <- (length_map name (drop_duplicates_from keq name [] l')).
  apply Permutation_length, NoDup_Permutation;
    try apply drop_duplicates_from_NoDup.
  intros k. rewrite !drop_duplicates_from_names. simpl.
  specialize (Hsame k). tauto.
Qed.
End DropDuplicatesFacts.

Lemma pair_eqb_spec (a b : Z * string) : pair_eqb a b = true <-> a = b.
Proof.
  destruct a as [x s], b as [y t]. unfold pair_eqb. simpl.
  rewrite andb_true_iff, Z.eqb_eq, String.eqb_eq. split.
  - intros [-> ->]. reflexivity.
  - intros [= -> ->]. auto.
Qed.

(** what a dashboard that returns statistics has gone through *)
Lemma dashboard_insights_inv (now : date) (self : HotelMaintenanceModel)
  (d : DashboardData) :
  get_dashboard_insights now self = Ok (Insights d) ->
  exists m pending file,
    hotel_model self = Some m /\
    df_empty (loaded_training_df self) = false /\
    for_each (dashboard_row m (today_of now))
             (iterrows (loaded_training_df self)) = Ok pending /\
    loaded_file_path self = Some file /\
    total_devices d = count_unique_devices (loaded_training_df self) /\
    Pending_maintenance d = pending /\
    due_maintenance d = Z.of_nat (List.length pending).
Proof.
  unfold get_dashboard_insights.
  destruct (hotel_model self) as [m|]; [|discriminate].
  destruct (df_empty (loaded_training_df self)); [discriminate|].
  destruct (for_each _ _) as [pending|] eqn:Hloop; cbn [bind]; [|discriminate].
  destruct (loaded_file_path self) as [file|]; [|discriminate].
  intros [= <-]. exists m, pending, file. repeat split; assumption || reflexivity.
Qed.

Lemma dashboard_total_devices (now : date) (self : HotelMaintenanceModel)
  (m : Regressor) (file : string) :
  hotel_model self = Some m ->
  df_empty (loaded_training_df self) = false ->
  loaded_file_path self = Some file ->
  accepts m (loaded_training_df self) ->
  exists d, get_dashboard_insights now self = Ok (Insights d) /\
            total_devices d = count_unique_devices (loaded_training_df self) /\
            loaded_data_file d = file.
Proof.
  intros Hm Hne Hfile Hacc. unfold get_dashboard_insights.
  rewrite Hm, Hne, Hfile.
  destruct (dashboard_loop_total m (today_of now) _ Hacc) as [pending ->].
  simpl. eexists. split; [reflexivity|]. split; reflexivity.
Qed.

(** C9.  Whenever the dashboard returns statistics, its [total_devices] is
    the number of distinct pairs of a room number and an appliance type
    among the rows of the dataset: the length of a list without
    repetition that holds exactly the pairs (room number, appliance type)
    of the rows.  A dataset with one more row whose room number and
    appliance type are those of a row it already has gives the same
    number.  It returns statistics once a file has been selected and the
    regressor predicts on every row. *)
Theorem total_devices_counts_distinct_pairs
  (now : date) (self : HotelMaintenanceModel) :
  (forall d,
      get_dashboard_insights now self = Ok (Insights d) ->
      (exists pairs,
          NoDup pairs /\
          (forall room type,
              In (room, type) pairs <->
              exists r, In r (rows (loaded_training_df self)) /\
                        Room_Number r = room /\ Appliance_Type r = type) /\
          total_devices d = Z.of_nat (List.length pairs)) /\
      (forall before after extra d',
          rows (loaded_training_df self) = (before ++ after)%list ->
          (exists r, In r (rows (loaded_training_df self)) /\
                     Room_Number r = Room_Number extra /\
                     Appliance_Type r = Appliance_Type extra) ->
          get_dashboard_insights now
            (with_rows self (before ++ extra :: after)%list) = Ok (Insights d') ->
          total_devices d' = total_devices d)) /\
  (forall m file,
      hotel_model self = Some m ->
      df_empty (loaded_training_df self) = false ->
      loaded_file_path self = Some file ->
      accepts m (loaded_training_df self) ->
      exists d, get_dashboard_insights now self = Ok (Insights d)).
Proof.
  split.
  - intros d Hd.
    apply dashboard_insights_inv in Hd.
    destruct Hd as (m & pending & file & _ & _ & _ & _ & Htot & _).
    split.
    + exists (drop_duplicates pair_eqb (fun p => p)
                (map device_pair (rows (loaded_training_df self)))).
      split; [|split].
      * pose proof (drop_duplicates_from_NoDup pair_eqb pair_eqb_spec
                      (fun p : Z * string => p) []
                      (map device_pair (rows (loaded_training_df self)))) as N.
        now rewrite map_id in N.
      * intros room type.
        pose proof (drop_duplicates_from_names pair_eqb pair_eqb_spec
                      (fun p : Z * string => p) []
                      (map device_pair (rows (loaded_training_df self)))
                      (room, type)) as N.
        rewrite !map_id in N. unfold drop_duplicates. rewrite N, in_map_iff.
        simpl. unfold device_pair. split.
        -- intros [(r & [= <- <-] & Hin) _]. eauto.
        -- intros (r & Hin & <- & <-). split; [eauto|tauto].
      * exact Htot.
    + intros before after extra d' Hrows (r & Hr & Hroom & Htype) Hd'.
      assert (Hpair : device_pair r = device_pair extra).
      { unfold device_pair. now rewrite Hroom, Htype. }
      apply dashboard_insights_inv in Hd'.
      destruct Hd' as (m' & pending' & file' & _ & _ & _ & _ & Htot' & _).
      rewrite Htot', Htot. unfold count_unique_devices. f_equal.
      apply (drop_duplicates_length pair_eqb pair_eqb_spec).
      intros k. rewrite !map_id. simpl. rewrite Hrows, !map_app. simpl.
      rewrite !in_app_iff. simpl. split.
      * intros [H|[<-|H]]; auto.
        rewrite <- Hpair. apply (in_map device_pair) in Hr.
        rewrite Hrows, map_app, in_app_iff in Hr. exact Hr.
      * intros [H|H]; auto.
  - intros m file Hm Hne Hfile Hacc.
    destruct (dashboard_total_devices now self m file Hm Hne Hfile Hacc)
      as (d & Hd & _).
    now exists d.
Qed.

Lemma total_devices_counts_distinct_pairs_witness :
  exists d d',
    get_dashboard_insights (mkDate 2025 6 1) fleet_state = Ok (Insights d) /\
    get_dashboard_insights (mkDate 2025 6 1)
      (with_rows fleet_state
         [older_row; minibar_row; minibar_row; neighbour_row; scenario_row]) =
      Ok (Insights d') /\
    total_devices d = 3 /\ total_devices d' = total_devices d.
Proof.
  destruct (total_devices_counts_distinct_pairs (mkDate 2025 6 1) fleet_state)
    as [Hcount Hret].
  destruct (total_devices_counts_distinct_pairs (mkDate 2025 6 1)
              (with_rows fleet_state
                 [older_row; minibar_row; minibar_row; neighbour_row;
                  scenario_row]))
    as [_ Hret'].
  destruct (Hret (constant_regressor (300 # 1)%Q) "FairField.csv"
              eq_refl eq_refl eq_refl) as [d Hd].
  { intros r _. exists (300 # 1)%Q. reflexivity. }
  destruct (Hret' (constant_regressor (300 # 1)%Q) "FairField.csv"
              eq_refl eq_refl eq_refl) as [d' Hd'].
  { intros r _. exists (300 # 1)%Q. reflexivity. }
  destruct (Hcount d Hd) as [(pairs & Hnodup & Hpairs & Htot) Hdup].
  exists d, d'. split; [exact Hd|]. split; [exact Hd'|]. split.
  - pose proof Hd as Hv. vm_compute in Hv. injection Hv as <-. reflexivity.
  - apply (Hdup [older_row; minibar_row] [neighbour_row; scenario_row]
                minibar_row d' eq_refl); [|exact Hd'].
    exists minibar_row. split; [right; now left | split; reflexivity].
Defined.

(* ===================================================================== *)
(** * Arithmetic of predictions and dates *)
(* ===================================================================== *)

Lemma clamp_nonneg (p : Q) : (0 <= clamp p)%Q.
Proof.
  unfold clamp. destruct (Qcompare 0 p) eqn:E; try apply Qle_refl.
  apply Qlt_le_weak. now apply Qlt_alt.
Qed.


Lemma round_half_even_nonneg (q : Q) : (0 <= q)%Q -> 0 <= round_half_even q.
Proof.
  intros H. unfold round_half_even.
  assert (0 <= Qfloor q) by (apply (Qfloor_resp_le 0 q) in H; exact H).
  destruct (Qcompare _ _); [destruct (Z.even _)| |]; lia.
Qed.

Lemma round2_nonneg (q : Q) : (0 <= q)%Q -> (0 <= round2 q)%Q.
Proof.
  intros H. unfold round2.
  assert (Hm : (0 <= q * 100)%Q) by (apply Qmult_le_0_compat; [exact H | discriminate]).
  apply round_half_even_nonneg in Hm. revert Hm.
  generalize (round_half_even (q * 100)). intros z Hz.
  unfold Qle, Qdiv, Qmult, Qinv, inject_Z. simpl. lia.
Qed.

Lemma timedelta_days_nonneg (p : Q) : (0 <= p)%Q -> 0 <= timedelta_days p.
Proof.
  intros H. unfold timedelta_days. apply round_half_even_nonneg.
  apply Qmult_le_0_compat; [exact H | discriminate].
Qed.

Lemma add_days_ord (parsed : date) (p : Q) :
  dt_ord (add_days parsed p) = toordinal parsed + timedelta_days p / day_us.
Proof. reflexivity. Qed.

(** a clamped prediction never moves the date back *)
Lemma add_days_not_before (parsed : date) (p : Q) :
  toordinal parsed <= dt_ord (add_days parsed (clamp p)).
Proof.
  rewrite add_days_ord.
  pose proof (timedelta_days_nonneg _ (clamp_nonneg p)) as H.
  assert (0 <= timedelta_days (clamp p) / day_us)
    by (apply Z.div_pos; [exact H | reflexivity]).
  lia.
Qed.

Lemma dt_leb_midnight (a b : datetime) :
  dt_leb (midnight a) (midnight b) = (dt_ord a <=? dt_ord b).
Proof.
  unfold dt_leb, midnight. simpl.
  destruct (Z.ltb_spec (dt_ord a) (dt_ord b)), (Z.eqb_spec (dt_ord a) (dt_ord b)),
    (Z.leb_spec (dt_ord a) (dt_ord b)); simpl; auto; lia.
Qed.

Lemma dt_ltb_midnight (a b : datetime) :
  dt_ltb (midnight a) (midnight b) = (dt_ord a <? dt_ord b).
Proof.
  unfold dt_ltb, midnight. simpl.
  destruct (Z.ltb_spec (dt_ord a) (dt_ord b)), (Z.eqb_spec (dt_ord a) (dt_ord b));
    simpl; auto.
Qed.

Lemma dt_leb_refl (t : datetime) : dt_leb t t = true.
Proof.
  unfold dt_leb. now rewrite Z.eqb_refl, Z.leb_refl, orb_true_r.
Qed.

Lemma next_maintenance_spec (s : string) (p : Q) (parsed : date) (f : Z)
  (t : datetime) :
  next_maintenance s p = Some (parsed, f, t) <->
  try_formats date_formats s = Some parsed /\
  f = dt_ord (add_days parsed p) /\ t = midnight (add_days parsed p).
Proof.
  unfold next_maintenance. destruct (try_formats date_formats s) as [d|].
  - split.
    + intros [= <- <- <-]. auto.
    + intros ([= ->] & -> & ->). reflexivity.
  - split; [discriminate | intros [H _]; discriminate].
Qed.

Lemma start_of_week_ord (now : date) :
  start_of_current_week (today_of now) =
  midnight {| dt_ord := monday_of now; dt_usec := 0 |}.
Proof.
  unfold start_of_current_week, dt_sub, dt_add, today_of, midnight,
    timedelta_whole_days, monday_of, datetime_of_date. simpl dt_ord. simpl dt_usec.
  rewrite Z.add_0_l, <- Z.mul_opp_l.
  rewrite Z.div_mul, Z.mod_mul by discriminate. f_equal; lia.
Qed.

Lemma end_of_week_ord (now : date) :
  end_of_current_week (today_of now) =
  midnight {| dt_ord := monday_of now + 6; dt_usec := 0 |}.
Proof.
  unfold end_of_current_week. rewrite start_of_week_ord.
  unfold dt_add, midnight, timedelta_whole_days. simpl dt_ord. simpl dt_usec.
  rewrite Z.add_0_l, Z.div_mul, Z.mod_mul by discriminate. reflexivity.
Qed.

Lemma monday_of_spec (now : date) :
  weekday_of_ordinal (monday_of now) = 0 /\
  monday_of now <= toordinal now <= monday_of now + 6.
Proof.
  unfold monday_of, weekday_of_ordinal.
  generalize (toordinal now). intros n.
  pose proof (Z.mod_pos_bound (n + 6) 7 ltac:(lia)) as B.
  split; [|lia].
  replace (n - (n + 6) mod 7 + 6) with ((n + 6) - (n + 6) mod 7) by lia.
  rewrite Zminus_mod_idemp_r, Z.sub_diag. reflexivity.
Qed.

(* ===================================================================== *)
(** * Day numbers follow the calendar *)
(* ===================================================================== *)

Lemma valid_date_bounds (d : date) :
  valid_date d = true ->
  1 <= year d <= 9999 /\ 1 <= month d <= 12 /\
  1 <= day d <= days_in_month (year d) (month d).
Proof.
  unfold valid_date. rewrite !andb_true_iff, !Z.leb_le. tauto.
Qed.

Ltac month_cases m :=
  let H := fresh in
  assert (H : m = 1 \/ m = 2 \/ m = 3 \/ m = 4 \/ m = 5 \/ m = 6 \/
              m = 7 \/ m = 8 \/ m = 9 \/ m = 10 \/ m = 11 \/ m = 12) by lia;
  repeat (destruct H as [H|H]; [subst m|]); [..|subst m].

Lemma days_before_next_month (y m : Z) :
  1 <= m < 12 ->
  days_before_month y (m + 1) = days_before_month y m + days_in_month y m.
Proof.
  intros H. unfold days_before_month, days_in_month.
  month_cases m; try lia; destruct (is_leap y); reflexivity.
Qed.

Lemma days_before_month_mono (y m m' : Z) :
  1 <= m -> m <= m' -> m' <= 12 ->
  days_before_month y m <= days_before_month y m'.
Proof.
  intros H1 H2 H3.
  assert (Hn : exists n, m' = m + Z.of_nat n) by (exists (Z.to_nat (m' - m)); lia).
  destruct Hn as [n ->]. clear H2. induction n as [|n IH].
  - rewrite Z.add_0_r. lia.
  - rewrite Nat2Z.inj_succ in *.
    replace (m + Z.succ (Z.of_nat n)) with ((m + Z.of_nat n) + 1) by lia.
    rewrite days_before_next_month by lia.
    assert (0 <= days_in_month y (m + Z.of_nat n)).
    { unfold days_in_month.
      repeat match goal with |- context [if ?b then _ else _] => destruct b end; lia. }
    specialize (IH ltac:(lia)). lia.
Qed.

Lemma day_of_year_bound (d : date) :
  valid_date d = true ->
  1 <= days_before_month (year d) (month d) + day d <=
       (if is_leap (year d) then 366 else 365).
Proof.
  intros V. apply valid_date_bounds in V. destruct V as (_ & Hm & Hd).
  destruct d as [y m dd]. cbn [year month day] in *.
  month_cases m;
    cbv [days_before_month days_in_month DAYS_BEFORE_MONTH Z.eqb Z.ltb
         Z.compare Pos.compare Pos.compare_cont Pos.eqb orb andb] in *;
    destruct (is_leap y); lia.
Qed.

Lemma days_before_next_year (y : Z) :
  days_before_year (y + 1) =
  days_before_year y + (if is_leap y then 366 else 365).
Proof.
  unfold days_before_year, is_leap. cbv zeta.
  replace (y + 1 - 1) with y by lia.
  destruct (Z.eqb_spec (y mod 4) 0), (Z.eqb_spec (y mod 100) 0),
    (Z.eqb_spec (y mod 400) 0); simpl;
    Z.div_mod_to_equations; lia.
Qed.

Lemma days_before_year_mono (y y' : Z) :
  y <= y' -> days_before_year y <= days_before_year y'.
Proof.
  intros H.
  assert (Hn : exists n, y' = y + Z.of_nat n) by (exists (Z.to_nat (y' - y)); lia).
  destruct Hn as [n ->]. clear H. induction n as [|n IH].
  - rewrite Z.add_0_r. lia.
  - rewrite Nat2Z.inj_succ.
    replace (y + Z.succ (Z.of_nat n)) with ((y + Z.of_nat n) + 1) by lia.
    rewrite days_before_next_year. destruct (is_leap _); lia.
Qed.

(** On dates the library accepts, a later calendar date has a larger day
    number. *)
Lemma toordinal_lt (a b : date) :
  valid_date a = true -> valid_date b = true ->
  date_lt a b -> toordinal a < toordinal b.
Proof.
  intros Va Vb Hlt.
  pose proof (day_of_year_bound a Va) as Ba.
  pose proof (day_of_year_bound b Vb) as Bb.
  apply valid_date_bounds in Va, Vb.
  destruct Va as (_ & Hma & Hda), Vb as (_ & Hmb & Hdb).
  unfold toordinal. destruct Hlt as [Hy | (Hy & [Hm | (Hm & Hd)])].
  - pose proof (days_before_next_year (year a)) as N.
    pose proof (days_before_year_mono (year a + 1) (year b) ltac:(lia)) as M.
    lia.
  - rewrite <- Hy in *.
    pose proof (days_before_month_mono (year a) (month a + 1) (month b)
                  ltac:(lia) ltac:(lia) ltac:(lia)) as M.
    rewrite days_before_next_month in M by lia. lia.
  - rewrite <- Hy, <- Hm in *. lia.
Qed.

(* ===================================================================== *)
(** * Device resolver *)
(* ===================================================================== *)

Lemma key_gtb_irrefl (a : option date) : key_gtb a a = false.
Proof. destruct a; simpl; [apply Z.ltb_irrefl | reflexivity]. Qed.

Lemma key_gtb_asym (a b : option date) :
  key_gtb a b = true -> key_gtb b a = false.
Proof.
  destruct a, b; simpl; try congruence.
  rewrite Z.ltb_lt, Z.ltb_ge. lia.
Qed.

Lemma key_gtb_chain (a b c : option date) :
  key_gtb a b = false -> key_gtb b c = false -> key_gtb a c = false.
Proof.
  destruct a, b, c; simpl; try congruence.
  rewrite !Z.ltb_ge. lia.
Qed.

Section ResolverFacts.
Context {A : Type}.
Variable key : A -> option date.

Lemma insert_desc_perm (x : A) (l : list A) :
  Permutation (insert_desc key x l) (x :: l).
Proof.
  induction l as [|y t IH]; simpl; [reflexivity|].
  destruct (key_gtb (key y) (key x)); [|reflexivity].
  rewrite IH. apply perm_swap.
Qed.

Lemma sort_values_desc_perm (l : list A) :
  Permutation (sort_values_desc key l) l.
Proof.
  induction l as [|x t IH]; simpl; [reflexivity|].
  rewrite insert_desc_perm. now constructor.
Qed.

Lemma insert_desc_sorted (x : A) (l : list A) :
  StronglySorted (may_precede key) l ->
  StronglySorted (may_precede key) (insert_desc key x l).
Proof.
  induction 1 as [|y t Hs IH Hy]; simpl.
  - repeat constructor.
  - destruct (key_gtb (key y) (key x)) eqn:E.
    + constructor; [exact IH|].
      apply (Permutation_Forall (Permutation_sym (insert_desc_perm x t))).
      constructor; [|exact Hy].
      unfold may_precede. now apply key_gtb_asym.
    + constructor; [now constructor|].
      constructor; [exact E|].
      apply (Forall_impl _ (P := may_precede key y)); [|exact Hy].
      intros z Hz. unfold may_precede in *.
      now apply key_gtb_chain with (key y).
Qed.

Lemma sort_values_desc_sorted (l : list A) :
  StronglySorted (may_precede key) (sort_values_desc key l).
Proof.
  induction l as [|x t IH]; simpl; [constructor|].
  now apply insert_desc_sorted.
Qed.

Lemma sorted_suffix (l1 l2 : list A) :
  StronglySorted (may_precede key) (l1 ++ l2)%list -> StronglySorted (may_precede key) l2.
Proof.
  induction l1 as [|x t IH]; simpl; [auto|].
  intros H. inversion H; auto.
Qed.

Variable name : A -> string.

(** Sort by date, newest first, then keep the first row of each name:
    every name is kept once, and no row of a kept row's name has a key
    ahead of the kept row's key. *)
Lemma newest_per_name (l : list A) :
  let kept := drop_duplicates String.eqb name (sort_values_desc key l) in
  NoDup (map name kept) /\
  (forall k, In k (map name kept) <-> In k (map name l)) /\
  (forall y, In y kept -> In y l) /\
  (forall y x, In y kept -> In x l -> name x = name y ->
               key_gtb (key x) (key y) = false).
Proof.
  cbv zeta. unfold drop_duplicates.
  pose proof (sort_values_desc_perm l) as P.
  split; [|split; [|split]].
  - apply (drop_duplicates_from_NoDup String.eqb String.eqb_eq).
  - intros k.
    rewrite (drop_duplicates_from_names String.eqb String.eqb_eq). simpl.
    split.
    + intros [H _]. apply in_map_iff in H. destruct H as (z & <- & Hz).
      apply in_map. now apply (Permutation_in _ P).
    + intros H. split; [|tauto]. apply in_map_iff in H.
      destruct H as (z & <- & Hz). apply in_map.
      now apply (Permutation_in _ (Permutation_sym P)).
  - intros y Hy. apply drop_duplicates_from_incl in Hy.
    now apply (Permutation_in _ P).
  - intros y x Hy Hx Hname.
    apply (drop_duplicates_from_first String.eqb String.eqb_eq) in Hy.
    destruct Hy as (l1 & l2 & Hsplit & Hfirst).
    pose proof (sort_values_desc_sorted l) as S. rewrite Hsplit in S.
    apply (Permutation_in _ (Permutation_sym P)) in Hx.
    rewrite Hsplit in Hx. apply in_app_iff in Hx.
    destruct Hx as [Hx|[<-|Hx]].
    + elim (Hfirst x Hx Hname).
    + apply key_gtb_irrefl.
    + apply sorted_suffix in S. inversion S as [|? ? _ Hall]; subst.
      rewrite Forall_forall in Hall. exact (Hall x Hx).
Qed.
End ResolverFacts.

(* ===================================================================== *)
(** * What each row contributes *)
(* ===================================================================== *)

Lemma for_each_each {A B : Type} (body : A -> result (list B)) (l : list A)
  (r : list B) :
  for_each body l = Ok r -> forall x, In x l -> exists ys, body x = Ok ys.
Proof.
  revert r. induction l as [|a t IH]; simpl; intros r H x; [intros []|].
  destruct (body a) as [ys|e] eqn:Ea; simpl in H; [|discriminate].
  destruct (for_each body t) as [rest|e] eqn:Et; simpl in H; [|discriminate].
  intros [<-|Hx]; eauto.
Qed.


Lemma for_each_singletons {A B : Type} (body : A -> result (list B))
  (R : A -> B -> Prop) (l : list A) (r : list B) :
  (forall x ys, body x = Ok ys -> exists y, ys = [y] /\ R x y) ->
  for_each body l = Ok r -> Forall2 R l r.
Proof.
  intros Hone. revert r. induction l as [|a t IH]; simpl; intros r H.
  - injection H as <-. constructor.
  - destruct (body a) as [ys|e] eqn:Ea; simpl in H; [|discriminate].
    destruct (for_each body t) as [rest|e] eqn:Et; simpl in H; [|discriminate].
    injection H as <-. destruct (Hone a ys Ea) as (y & -> & Hy).
    simpl. constructor; auto.
Qed.

Lemma Forall2_In_r {A B : Type} (R : A -> B -> Prop) (l : list A) (r : list B)
  (y : B) :
  Forall2 R l r -> In y r -> exists x, In x l /\ R x y.
Proof.
  induction 1 as [|a b l r Hab _ IH]; simpl; [intros []|].
  intros [<-|Hy]; [eauto|]. destruct (IH Hy) as (x & Hx & Hr). eauto.
Qed.

Lemma Forall2_map_eq {A B C : Type} (f : A -> C) (g : B -> C) (l : list A)
  (r : list B) :
  Forall2 (fun x y => f x = g y) l r -> map f l = map g r.
Proof. induction 1; simpl; congruence. Qed.

Lemma room_entry_shape (m : Regressor) (now : date) (x : ParsedRow)
  (es : list Entry) :
  room_entry m now x = Ok es -> exists e, es = [e] /\ room_entry_of x e.
Proof.
  unfold room_entry. destruct (predict m (pr_row x)) as [p|]; simpl; [|discriminate].
  intros [= <-]. eexists. split; [reflexivity|].
  unfold room_entry_of, entry_ok. simpl. repeat split.
  - apply round2_nonneg, clamp_nonneg.
  - intros d n Hd. rewrite Hd. intros [= <-]. apply add_days_not_before.
Qed.

Lemma view_entry_ok (now : date) (index : Z) (row : DeviceRecord)
  (issue : option string) (parsed : date) (p : Q) :
  entry_ok (view_entry now index row issue parsed (clamp p)
                       (dt_ord (add_days parsed (clamp p)))).
Proof.
  unfold entry_ok. simpl. split.
  - apply round2_nonneg, clamp_nonneg.
  - intros d n [= <-] [= <-]. apply add_days_not_before.
Qed.

Lemma six_months_ord (now : date) :
  dt_add (today_of now) (timedelta_whole_days 182) =
  midnight {| dt_ord := toordinal now + 182; dt_usec := 0 |}.
Proof.
  unfold dt_add, today_of, midnight, timedelta_whole_days, datetime_of_date.
  simpl dt_ord. simpl dt_usec.
  rewrite Z.add_0_l, Z.div_mul, Z.mod_mul by discriminate. reflexivity.
Qed.

(** what the upcoming view appends for a row *)
Lemma upcoming_row_entry {cols : list string} (m : Regressor) (now : date) (index : Z)
  (row : DeviceRecord) (es : list Entry) (e : Entry) :
  upcoming_row cols m now (index, row) = Ok es -> In e es ->
  device_id e = index + 1 /\ entry_ok e /\
  exists p s parsed,
    predict m row = Ok p /\ Last_Maintenance_Date row = Some s /\
    try_formats date_formats s = Some parsed /\
    toordinal now < dt_ord (add_days parsed (clamp p)) <= toordinal now + 182.
Proof.
  unfold upcoming_row. destruct (predict m row) as [p|]; simpl; [|discriminate].
  destruct (Last_Maintenance_Date row) as [s|]; [|discriminate].
  destruct (next_maintenance s (clamp p)) as [[[parsed f] t]|] eqn:N;
    [|intros [= <-] []].
  apply next_maintenance_spec in N. destruct N as (Hp & -> & ->).
  rewrite six_months_ord. unfold today_of.
  rewrite dt_ltb_midnight, dt_leb_midnight. cbn [dt_ord datetime_of_date].
  destruct (Z.ltb_spec (toordinal now) (dt_ord (add_days parsed (clamp p))));
    [|cbn [andb]; intros [= <-] []].
  destruct (Z.leb_spec (dt_ord (add_days parsed (clamp p))) (toordinal now + 182));
    cbn [andb]; [|intros [= <-] []].
  unfold getitem.
  destruct (mem "Warranty Year" cols); cbn [bind]; [|discriminate].
  destruct (mem "Status" cols); cbn [bind]; [|discriminate].
  intros [= <-] [<-|[]]. split; [reflexivity|]. split; [apply view_entry_ok|].
  exists p, s, parsed. auto.
Qed.

Lemma upcoming_row_total {cols : list string} (m : Regressor) (now : date)
  (index : Z) (row : DeviceRecord) :
  mem "Warranty Year" cols = true -> mem "Status" cols = true ->
  (exists p, predict m row = Ok p) -> Last_Maintenance_Date row <> None ->
  exists es, upcoming_row cols m now (index, row) = Ok es.
Proof.
  intros Hw Hs [p Hp] Hd. unfold upcoming_row, getitem. rewrite Hp, Hw, Hs.
  cbn [bind].
  destruct (Last_Maintenance_Date row) as [s|]; [|congruence].
  destruct (next_maintenance s (clamp p)) as [[[parsed f] t]|]; [|eauto].
  destruct (_ && _); eauto.
Qed.

Lemma weekly_row_spec {cols : list string} (m : Regressor) (now : date) (index : Z)
  (row : DeviceRecord) (es : list Entry) :
  weekly_row cols m now (index, row) = Ok es ->
  ((exists e, In e es) <-> in_current_week now m row) /\
  (forall e, In e es -> device_id e = index + 1 /\ entry_ok e).
Proof.
  unfold weekly_row, in_current_week, complete_features.
  destruct (Usage_Hours row), (Average_Daily_Usage row), (Device_Year row);
    try (intros [= <-]; split;
         [split; [intros [? []] | intros [? _]; discriminate] | intros ? []]).
  destruct (predict m row) as [p|] eqn:Hp; cbn [bind]; [|discriminate].
  destruct (next_maintenance _ (clamp p)) as [[[parsed f] t]|] eqn:N.
  - apply next_maintenance_spec in N. destruct N as (Hd & -> & ->).
    rewrite start_of_week_ord, end_of_week_ord, !dt_leb_midnight. cbn [dt_ord].
    destruct (Z.leb_spec (monday_of now) (dt_ord (add_days parsed (clamp p))));
      destruct (Z.leb_spec (dt_ord (add_days parsed (clamp p))) (monday_of now + 6));
      cbn [andb]; intros [= <-].
    1: { split; [split|].
         - intros _. split; [reflexivity|]. exists p, parsed. auto.
         - intros _. eexists. now left.
         - intros e [<-|[]]. split; [reflexivity | apply view_entry_ok]. }
    all: (split; [split|]; [intros [? []] | | intros ? []]);
      intros (_ & p' & parsed' & [= <-] & Hd' & Hw); rewrite Hd in Hd';
      injection Hd' as <-; lia.
  - intros [= <-]. split; [split|].
    + intros [? []].
    + intros (_ & p' & parsed' & [= <-] & Hd' & _).
      unfold next_maintenance in N. rewrite Hd' in N. discriminate.
    + intros ? [].
Qed.

Lemma weekly_row_total {cols : list string} (m : Regressor) (now : date) (index : Z)
  (row : DeviceRecord) :
  (complete_features row = true -> exists p, predict m row = Ok p) ->
  exists es, weekly_row cols m now (index, row) = Ok es.
Proof.
  unfold weekly_row, complete_features.
  destruct (Usage_Hours row), (Average_Daily_Usage row), (Device_Year row);
    eauto.
  intros H. destruct (H eq_refl) as [p ->]. simpl.
  destruct (next_maintenance _ _) as [[[parsed f] t]|]; [|eauto].
  destruct (_ && _); eauto.
Qed.

(* ===================================================================== *)
(** * Predictions are never negative *)
(* ===================================================================== *)

Lemma predict_for_room_inv (now : date) (self : HotelMaintenanceModel)
  (room : Z) (l : list Entry) :
  predict_for_room now self room = Ok l ->
  Forall2 room_entry_of (resolve_room (loaded_training_df self) room) l.
Proof.
  unfold predict_for_room.
  destruct (hotel_model self) as [m|]; [|discriminate].
  destruct (df_empty (loaded_training_df self)); [discriminate|].
  destruct (room_devices (loaded_training_df self) room) as [|ir rest] eqn:Hroom.
  - intros [= <-]. unfold resolve_room. rewrite Hroom. constructor.
  - apply (for_each_singletons _ _ _ _ (room_entry_shape m now)).
Qed.

Lemma predict_for_room_total (now : date) (self : HotelMaintenanceModel)
  (m : Regressor) (room : Z) :
  hotel_model self = Some m ->
  df_empty (loaded_training_df self) = false ->
  accepts m (loaded_training_df self) ->
  exists l, predict_for_room now self room = Ok l.
Proof.
  intros Hm Hne Hacc. unfold predict_for_room. rewrite Hm, Hne.
  destruct (room_devices (loaded_training_df self) room) as [|ir rest] eqn:Hroom;
    [eauto|].
  apply for_each_total.
  intros x Hx. unfold resolve_room in Hx.
  apply drop_duplicates_from_incl in Hx.
  apply (Permutation_in _ (sort_values_desc_perm _ _)) in Hx.
  apply in_map_iff in Hx. destruct Hx as ([i r] & <- & Hir).
  apply filter_In in Hir. destruct Hir as [Hir _]. apply iterrows_row in Hir.
  destruct (Hacc r Hir) as [p Hp].
  unfold room_entry, pr_row. simpl. rewrite Hp. simpl. eauto.
Qed.



(* ===================================================================== *)
(** * Due today *)
(* ===================================================================== *)

Lemma dashboard_insights_spec (now : date) (self : HotelMaintenanceModel)
  (m : Regressor) (file : string) :
  hotel_model self = Some m ->
  df_empty (loaded_training_df self) = false ->
  loaded_file_path self = Some file ->
  accepts m (loaded_training_df self) ->
  exists d pending,
    get_dashboard_insights now self = Ok (Insights d) /\
    for_each (dashboard_row m (today_of now))
             (iterrows (loaded_training_df self)) = Ok pending /\
    Pending_maintenance d = pending /\
    due_maintenance d = Z.of_nat (List.length pending).
Proof.
  intros Hm Hne Hfile Hacc. unfold get_dashboard_insights.
  rewrite Hm, Hne, Hfile.
  destruct (dashboard_loop_total m (today_of now) _ Hacc) as [pending Hp].
  rewrite Hp. cbn [bind]. eexists. exists pending.
  split; [reflexivity|]. split; [reflexivity|]. split; reflexivity.
Qed.

(** C3.  A record whose computed next maintenance date falls on today, at
    whatever time of the day, is due: whenever the dashboard returns
    statistics, the record is on the pending list and counted; and
    whenever the 6-month upcoming view returns its list, the record is not
    on it.  Both return once a file has been selected, the regressor
    predicts on every row and, for the upcoming view, the dataset has the
    [Warranty Year] and [Status] columns and every date cell holds a
    text. *)
Theorem due_today_is_due_not_upcoming
  (now : date) (self : HotelMaintenanceModel) (m : Regressor)
  (index : Z) (row : DeviceRecord) (s : string) (parsed : date) (p : Q) :
  hotel_model self = Some m ->
  In (index, row) (iterrows (loaded_training_df self)) ->
  Last_Maintenance_Date row = Some s ->
  try_formats date_formats s = Some parsed ->
  predict m row = Ok p ->
  dt_ord (add_days parsed (clamp p)) = toordinal now ->
  (forall d,
      get_dashboard_insights now self = Ok (Insights d) ->
      In {| pe_room_no := Room_Number row;
            pe_device_id := index + 1;
            pe_device_name := Appliance_Type row;
            pe_maintenance_date := toordinal now |} (Pending_maintenance d) /\
      due_maintenance d = Z.of_nat (List.length (Pending_maintenance d)) /\
      1 <= due_maintenance d) /\
  (forall l, get_upcoming_maintenance_devices now self = Ok l ->
             forall e, In e l -> device_id e <> index + 1) /\
  (df_empty (loaded_training_df self) = false ->
   accepts m (loaded_training_df self) ->
   (forall file, loaded_file_path self = Some file ->
                 exists d, get_dashboard_insights now self = Ok (Insights d)) /\
   (lookup_columns (loaded_training_df self) ->
    dates_present (loaded_training_df self) ->
    exists l, get_upcoming_maintenance_devices now self = Ok l)).
Proof.
  intros Hm Hin Hs Hparsed Hp Hord.
  split; [|split].
  - intros d Hd. apply dashboard_insights_inv in Hd.
    destruct Hd as (m' & pending & file & Hm' & _ & Hloop & _ & _ & Hpend & Hdue).
    rewrite Hm in Hm'. injection Hm' as <-.
    assert (Hentry : In {| pe_room_no := Room_Number row;
                           pe_device_id := index + 1;
                           pe_device_name := Appliance_Type row;
                           pe_maintenance_date := toordinal now |} pending).
    { apply (for_each_In _ _ _ Hloop). exists (index, row). eexists.
      split; [exact Hin|]. split.
      - unfold dashboard_row. rewrite Hp, Hs. cbn [bind str_cell].
        unfold next_maintenance. rewrite Hparsed. unfold today_of.
        rewrite dt_leb_midnight. cbn [dt_ord datetime_of_date].
        rewrite Hord, Z.leb_refl. reflexivity.
      - now left. }
    rewrite Hpend. split; [exact Hentry|]. split; [exact Hdue|].
    rewrite Hdue. destruct pending; [exfalso; exact Hentry|].
    cbn [List.length]. lia.
  - unfold get_upcoming_maintenance_devices. rewrite Hm.
    destruct (df_empty (loaded_training_df self)); [discriminate|].
    intros l Hl e He Hid.
    apply (for_each_In _ _ _ Hl) in He.
    destruct He as ([i r] & es & Hir & Hb & Hes).
    destruct (upcoming_row_entry _ _ _ _ _ _ Hb Hes)
      as (Hid' & _ & p' & s' & parsed' & Hp' & Hs' & Hparsed' & Hwin).
    assert (i = index) by lia. subst i.
    pose proof (iterrows_functional _ _ _ _ Hir Hin). subst r.
    rewrite Hp in Hp'. injection Hp' as <-.
    rewrite Hs in Hs'. injection Hs' as <-.
    rewrite Hparsed in Hparsed'. injection Hparsed' as <-.
    lia.
  - intros Hne Hacc. split.
    + intros file Hfile.
      destruct (dashboard_insights_spec now self m file Hm Hne Hfile Hacc)
        as (d & _ & Hd & _).
      now exists d.
    + intros [Hw Hst] Hd. unfold get_upcoming_maintenance_devices.
      rewrite Hm, Hne.
      apply for_each_total. intros [i r] Hir. apply iterrows_row in Hir.
      apply upcoming_row_total; auto; now apply mem_In.
Qed.

Lemma due_today_is_due_not_upcoming_witness :
  dt_usec (add_days (mkDate 2023 1 1) (clamp (1497 # 5)%Q)) = 34560000000 /\
  (exists d,
      get_dashboard_insights (mkDate 2023 10 27) morning_state = Ok (Insights d) /\
      In {| pe_room_no := 2000; pe_device_id := 1; pe_device_name := "TV";
            pe_maintenance_date := toordinal (mkDate 2023 10 27) |}
         (Pending_maintenance d) /\
      due_maintenance d = 1) /\
  (exists l,
      get_upcoming_maintenance_devices (mkDate 2023 10 27) morning_state = Ok l /\
      forall e, In e l -> device_id e <> 1).
Proof.
  destruct (due_today_is_due_not_upcoming (mkDate 2023 10 27) morning_state
              (constant_regressor (1497 # 5)%Q) 0 scenario_row
              "01/01/2023" (mkDate 2023 1 1) (1497 # 5)%Q
              eq_refl (or_introl eq_refl) eq_refl eq_refl eq_refl eq_refl)
    as (Hdue & Hnot & Hret).
  destruct (Hret eq_refl) as [Hdash Hup].
  { intros r _. exists (1497 # 5)%Q. reflexivity. }
  destruct (Hdash "FairField.csv" eq_refl) as [d Hd].
  destruct Hup as [l Hl].
  { split; simpl; tauto. }
  { intros r [<-|[]]. discriminate. }
  split; [reflexivity|]. split.
  - exists d. split; [exact Hd|]. split; [apply (Hdue d Hd)|].
    pose proof Hd as Hv. vm_compute in Hv. injection Hv as <-. reflexivity.
  - exists l. split; [exact Hl | exact (Hnot l Hl)].
Defined.

(* ===================================================================== *)
(** * Weekly view *)
(* ===================================================================== *)

(** X30.  What the weekly view tests.  A list that it returns holds a row
    exactly when the row's features are present, its date parses and its
    computed next maintenance date lies in the current week, Monday to
    Sunday inclusive: the test never compares the date with today.  The
    list is returned once a model and a dataset are in place and the
    regressor predicts on every row whose features are present. *)
Theorem weekly_view_is_monday_to_sunday
  (now : date) (self : HotelMaintenanceModel) (m : Regressor) :
  hotel_model self = Some m ->
  weekday_of_ordinal (monday_of now) = 0 /\
  monday_of now <= toordinal now <= monday_of now + 6 /\
  (forall l,
      get_current_week_maintenance_devices now self = Ok l ->
      forall index row,
        In (index, row) (iterrows (loaded_training_df self)) ->
        ((exists e, In e l /\ device_id e = index + 1) <->
         (complete_features row = true /\
          exists p parsed,
            predict m row = Ok p /\
            try_formats date_formats (str_cell (Last_Maintenance_Date row)) =
              Some parsed /\
            monday_of now <= dt_ord (add_days parsed (clamp p)) <=
              monday_of now + 6))) /\
  (df_empty (loaded_training_df self) = false ->
   accepts_complete m (loaded_training_df self) ->
   exists l, get_current_week_maintenance_devices now self = Ok l).
Proof.
  intros Hm.
  destruct (monday_of_spec now) as [Hmon Hweek].
  split; [exact Hmon|]. split; [exact Hweek|].
  unfold get_current_week_maintenance_devices. rewrite Hm. split.
  - destruct (df_empty (loaded_training_df self)); [discriminate|].
    intros l Hl index row Hin.
    fold (in_current_week now m row). split.
    + intros (e & He & Hid). apply (for_each_In _ _ _ Hl) in He.
      destruct He as ([i r] & es & Hir & Hb & Hes).
      pose proof (weekly_row_spec _ _ _ _ _ Hb) as [Hiff Hids].
      destruct (Hids e Hes) as [Hid' _].
      assert (i = index) by lia. subst i.
      pose proof (iterrows_functional _ _ _ _ Hir Hin). subst r.
      apply Hiff. eauto.
    + intros Hwin.
      destruct (for_each_each _ _ _ Hl _ Hin) as [es Hb].
      pose proof (weekly_row_spec _ _ _ _ _ Hb) as [Hiff Hids].
      apply Hiff in Hwin. destruct Hwin as [e He].
      exists e. split; [|apply (Hids e He)].
      apply (for_each_In _ _ _ Hl). exists (index, row), es. auto.
  - intros Hne Hacc. rewrite Hne.
    apply for_each_total. intros [i r] Hir. apply weekly_row_total.
    apply Hacc. now apply iterrows_row in Hir.
Qed.

Lemma weekly_view_is_monday_to_sunday_witness :
  exists l,
    get_current_week_maintenance_devices (mkDate 2024 1 3) monday_state = Ok l /\
    exists e, In e l /\ device_id e = 1.
Proof.
  destruct (weekly_view_is_monday_to_sunday (mkDate 2024 1 3) monday_state
              (constant_regressor (0 # 1)%Q) eq_refl)
    as (_ & _ & Hiff & Hret).
  destruct (Hret eq_refl) as [l Hl].
  { intros r _ _. exists (0 # 1)%Q. reflexivity. }
  exists l. split; [exact Hl|].
  apply (Hiff l Hl 0 monday_row); [left; reflexivity|].
  split; [reflexivity|].
  exists (0 # 1)%Q, (mkDate 2024 1 1).
  split; [reflexivity|]. split; [reflexivity|]. vm_compute.
  split; discriminate.
Defined.

(** C4 at a device that was due on Monday, looked at on Wednesday.  The
    docstring of the weekly view promises devices with upcoming
    maintenance within the current week, and the upcoming view tests
    [today < next]; the weekly view tests Monday to Sunday only.  On
    Wednesday 2024-01-03 it lists a device whose next maintenance date is
    Monday 2024-01-01, a date before today, which the upcoming view on the
    same object does not list. *)
Theorem weekly_view_lists_day_before_today :
  weekday_of_ordinal (toordinal (mkDate 2024 1 3)) = 2 /\
  (exists e,
      get_current_week_maintenance_devices (mkDate 2024 1 3) monday_state =
        Ok [e] /\
      device_id e = 1 /\
      next_maintenance_date e = Some (toordinal (mkDate 2024 1 1)) /\
      toordinal (mkDate 2024 1 1) < toordinal (mkDate 2024 1 3)) /\
  get_upcoming_maintenance_devices (mkDate 2024 1 3) monday_state = Ok [].
Proof.
  split; [reflexivity|]. split; [|vm_compute; reflexivity].
  eexists. split; [vm_compute; reflexivity|].
  split; [reflexivity|]. split; reflexivity.
Qed.

(* ===================================================================== *)
(** * One entry per appliance type *)
(* ===================================================================== *)

(** the rows [predict_for_room] sorts: those of the room, with their
    parsed dates *)
Lemma room_candidates (df : DataFrame) (room : Z) (x : ParsedRow) :
  In x (map (fun ir => (ir, parse_date (Last_Maintenance_Date (snd ir))))
            (room_devices df room)) <->
  In (pr_index x, pr_row x) (iterrows df) /\
  Room_Number (pr_row x) = room /\
  pr_parsed x = parse_date (Last_Maintenance_Date (pr_row x)).
Proof.
  destruct x as [[i r] d]. unfold pr_index, pr_row, pr_parsed. simpl.
  rewrite in_map_iff. split.
  - intros ([i' r'] & [= -> -> <-] & Hin). apply filter_In in Hin.
    simpl in Hin. rewrite Z.eqb_eq in Hin. tauto.
  - intros (Hin & Hroom & ->). exists (i, r). split; [reflexivity|].
    apply filter_In. simpl. rewrite Z.eqb_eq. tauto.
Qed.

Lemma parse_date_valid (c : option string) (d : date) :
  parse_date c = Some d -> valid_date d = true.
Proof.
  destruct c as [s|]; cbn [parse_date]; [apply try_formats_valid | discriminate].
Qed.

(** C1.  For every room, a list that [predict_for_room] returns has one
    entry per appliance type found among the room's rows, no type twice.
    Each entry comes from a row of that room and type, and no row of the
    room with the same type has a parsed date later than the entry's: if
    any such row has a date that parses, so has the entry's row, and its
    date is the latest.  The list is returned once a model and a dataset
    are in place and the regressor predicts on every row. *)
Theorem one_entry_per_appliance_latest_date
  (now : date) (self : HotelMaintenanceModel) (room : Z) :
  (forall l,
      predict_for_room now self room = Ok l ->
      NoDup (map device_name l) /\
      (forall ty, In ty (map device_name l) <->
                  exists r, In r (rows (loaded_training_df self)) /\
                            Room_Number r = room /\ Appliance_Type r = ty) /\
      (forall e, In e l ->
         exists row,
           In (device_id e - 1, row) (iterrows (loaded_training_df self)) /\
           Room_Number row = room /\
           Appliance_Type row = device_name e /\
           previous_maintenance_date e = parse_date (Last_Maintenance_Date row) /\
           forall row' d',
             In row' (rows (loaded_training_df self)) ->
             Room_Number row' = room ->
             Appliance_Type row' = device_name e ->
             parse_date (Last_Maintenance_Date row') = Some d' ->
             exists d, previous_maintenance_date e = Some d /\
                       toordinal d' <= toordinal d /\ ~ date_lt d d')) /\
  (forall m,
      hotel_model self = Some m ->
      df_empty (loaded_training_df self) = false ->
      accepts m (loaded_training_df self) ->
      exists l, predict_for_room now self room = Ok l).
Proof.
  split; [|intros m; apply predict_for_room_total].
  intros l Hl. pose proof (predict_for_room_inv _ _ _ _ Hl) as F.
  set (df := loaded_training_df self) in *.
  set (cands := map (fun ir => (ir, parse_date (Last_Maintenance_Date (snd ir))))
                    (room_devices df room)).
  destruct (newest_per_name pr_parsed pr_type cands)
    as (Hnodup & Hnames & Hincl & Hmax).
  change (drop_duplicates String.eqb pr_type (sort_values_desc pr_parsed cands))
    with (resolve_room df room) in *.
  assert (Hmap : map device_name l = map pr_type (resolve_room df room)).
  { symmetry. apply Forall2_map_eq.
    apply (Forall2_impl (R1 := room_entry_of)); [|exact F].
    intros x e Hx. symmetry. apply Hx. }
  split; [now rewrite Hmap|]. split.
  - intros ty. rewrite Hmap, Hnames, in_map_iff. split.
    + intros (x & <- & Hx). apply room_candidates in Hx.
      destruct Hx as (Hir & Hroom & _). apply iterrows_row in Hir.
      exists (pr_row x). auto.
    + intros (r & Hr & Hroom & <-). destruct (iterrows_index _ _ Hr) as [i Hi].
      exists ((i, r), parse_date (Last_Maintenance_Date r)).
      split; [reflexivity|]. apply room_candidates. auto.
  - intros e He. destruct (Forall2_In_r _ _ _ _ F He) as (x & Hx & Hxe).
    destruct Hxe as (Hid & _ & Hname & Hprev & _).
    pose proof (Hincl x Hx) as Hcand. apply room_candidates in Hcand.
    destruct Hcand as (Hir & Hroom & Hparsed).
    exists (pr_row x). replace (device_id e - 1) with (pr_index x) by lia.
    split; [exact Hir|]. split; [exact Hroom|].
    split; [now rewrite Hname|]. split; [now rewrite Hprev|].
    intros row' d' Hr' Hroom' Htype' Hd'.
    destruct (iterrows_index _ _ Hr') as [i' Hi'].
    assert (Hcand' : In ((i', row'), parse_date (Last_Maintenance_Date row')) cands)
      by (apply room_candidates; auto).
    specialize (Hmax x _ Hx Hcand').
    unfold pr_type at 1, pr_parsed at 1, pr_row in Hmax. simpl in Hmax.
    rewrite Htype', Hname in Hmax. specialize (Hmax eq_refl).
    rewrite Hd' in Hmax. rewrite Hprev.
    destruct (pr_parsed x) as [d|] eqn:Ed; [|discriminate Hmax].
    exists d. split; [reflexivity|]. simpl in Hmax. apply Z.ltb_ge in Hmax.
    split; [exact Hmax|]. intros Hlt.
    apply toordinal_lt in Hlt; [lia| |].
    + apply (parse_date_valid (Last_Maintenance_Date (pr_row x))). congruence.
    + apply (parse_date_valid _ _ Hd').
Qed.

Lemma one_entry_per_appliance_latest_date_witness :
  exists l,
    predict_for_room (mkDate 2025 6 1) history_state 2000 = Ok l /\
    NoDup (map device_name l) /\
    (forall e, In e l ->
               exists d, previous_maintenance_date e = Some d /\
                         ~ date_lt d (mkDate 2022 6 15)).
Proof.
  destruct (one_entry_per_appliance_latest_date (mkDate 2025 6 1) history_state
              2000) as [Hres Hret].
  destruct (Hret (constant_regressor (300 # 1)%Q) eq_refl eq_refl) as [l Hl].
  { intros r _. exists (300 # 1)%Q. reflexivity. }
  destruct (Hres l Hl) as (Hnodup & Htypes & Hlatest).
  exists l. split; [exact Hl|]. split; [exact Hnodup|].
  intros e He.
  assert (Hty : device_name e = "TV").
  { assert (Hin : In (device_name e) (map device_name l)) by now apply in_map.
    apply Htypes in Hin. destruct Hin as (r & Hr & _ & <-).
    simpl in Hr. destruct Hr as [<-|[<-|[<-|[]]]]; reflexivity. }
  destruct (Hlatest e He) as (row & _ & _ & _ & _ & Hmax).
  destruct (Hmax older_row (mkDate 2022 6 15)) as (d & Hd & _ & Hnot).
  - simpl. tauto.
  - reflexivity.
  - now rewrite Hty.
  - reflexivity.
  - exists d. auto.
Defined.

Example history_keeps_latest :
  exists e, predict_for_room (mkDate 2025 6 1) history_state 2000 = Ok [e] /\
            device_id e = 3 /\
            previous_maintenance_date e = Some (mkDate 2023 1 1).
Proof. eexists. split; [vm_compute; reflexivity|]. split; reflexivity. Qed.

(* ===================================================================== *)
(** * Model lifecycle *)
(* ===================================================================== *)

Lemma init_without_artifacts
  (score : Regressor -> list DeviceRecord -> result Metrics) (disk : Disk) :
  lacks_artifact disk ->
  hotel_model (__init__ score disk) = None \/
  df_empty (loaded_training_df (__init__ score disk)) = true.
Proof.
  intros [Hm | Hd]; unfold __init__, _load_persisted_data.
  - left. destruct (MODEL_PATH disk) as [| e | m] eqn:E.
    + destruct (DATA_PATH disk); reflexivity.
    + destruct (DATA_PATH disk); reflexivity.
    + elim (Hm m). reflexivity.
  - right. destruct (DATA_PATH disk) as [| e | df] eqn:E.
    + destruct (MODEL_PATH disk); reflexivity.
    + destruct (MODEL_PATH disk); reflexivity.
    + elim (Hd df). reflexivity.
Qed.

(** X1.  An object created while the stored model or the stored dataset is
    missing or unreadable answers no query: [predict_for_room], the
    upcoming view and the weekly view raise the "not loaded"
    [RuntimeError], [get_device_details] raises a [RuntimeError], the
    dashboard returns its "not loaded" message, and one of the two status
    queries says so. *)
Theorem object_without_artifacts_refuses
  (score : Regressor -> list DeviceRecord -> result Metrics)
  (disk : Disk) (now : date) :
  lacks_artifact disk ->
  (forall room, predict_for_room now (__init__ score disk) room = Raise not_loaded) /\
  get_upcoming_maintenance_devices now (__init__ score disk) = Raise not_loaded /\
  get_current_week_maintenance_devices now (__init__ score disk) = Raise not_loaded /\
  (forall room ty, exists msg,
      get_device_details now (__init__ score disk) room ty =
        Raise (RuntimeError msg)) /\
  get_dashboard_insights now (__init__ score disk) =
    Ok (NotLoaded "Model or training data not loaded.") /\
  (get_model_status (__init__ score disk) = "Not Trained" \/
   get_data_status (__init__ score disk) = "Not Loaded").
Proof.
  intros H. apply (init_without_artifacts score) in H.
  unfold predict_for_room, get_upcoming_maintenance_devices,
    get_current_week_maintenance_devices, get_device_details,
    get_dashboard_insights, get_model_status, get_data_status.
  destruct H as [-> | ->].
  - repeat split; try reflexivity.
    + intros room ty. destruct (df_empty _); eauto.
    + now left.
  - repeat split; try (destruct (hotel_model _); reflexivity).
    + intros room ty. eauto.
    + now right.
Qed.

Lemma object_without_artifacts_refuses_witness :
  predict_for_room (mkDate 2025 6 1) (__init__ trivial_score empty_disk) 2000 =
  Raise not_loaded.
Proof.
  refine (proj1 (object_without_artifacts_refuses trivial_score empty_disk
                   (mkDate 2025 6 1) _) 2000).
  left. intros m. discriminate.
Defined.

Lemma forallb_incl (f : string -> bool) (l l' : list string) :
  incl l l' -> forallb f l' = true -> forallb f l = true.
Proof.
  intros Hincl H. rewrite forallb_forall in *. auto.
Qed.

(** [train_model] on an upload that has every column, step by step: the
    upload has the [Warranty Year] column, so no column is added *)
Lemma train_model_steps
  (fit : list DeviceRecord -> Fit)
  (score : Regressor -> list DeviceRecord -> result Metrics)
  (df : DataFrame) (disk : Disk) (self : HotelMaintenanceModel) :
  all_present training_schema df = true ->
  train_model fit score df disk self =
  let df' := {| columns := columns df; rows := map fill_status (rows df) |} in
  let keep m metrics :=
    {| hotel_model := Some m;
       loaded_training_df := loaded_training_df self;
       model_metrics := metrics;
       loaded_file_path := loaded_file_path self |} in
  let fresh m mt :=
    {| hotel_model := Some m;
       loaded_training_df := df';
       model_metrics := Some mt;
       loaded_file_path := loaded_file_path self |} in
  match fit (rows df') with
  | FitRaised e estimator => (keep estimator (model_metrics self), disk, Raise e)
  | Fitted m =>
      match score m (rows df') with
      | Raise e => (keep m (model_metrics self), disk, Raise e)
      | Ok mt =>
          match joblib_dump disk m with
          | Refuses e held =>
              (keep m (Some mt),
               {| MODEL_PATH := held; DATA_PATH := DATA_PATH disk;
                  csv_file := csv_file disk;
                  joblib_dump := joblib_dump disk;
                  to_pickle := to_pickle disk |}, Raise e)
          | Stores =>
              match to_pickle disk df' with
              | Refuses e held =>
                  (fresh m mt,
                   {| MODEL_PATH := Stored m; DATA_PATH := held;
                      csv_file := csv_file disk;
                      joblib_dump := joblib_dump disk;
                      to_pickle := to_pickle disk |}, Raise e)
              | Stores =>
                  (fresh m mt,
                   {| MODEL_PATH := Stored m; DATA_PATH := Stored df';
                      csv_file := csv_file disk;
                      joblib_dump := joblib_dump disk;
                      to_pickle := to_pickle disk |}, Ok mt)
              end
          end
      end
  end.
Proof.
  intros Hall. unfold train_model. rewrite Hall. cbn [negb].
  assert (Hw : mem "Warranty Year" (columns df) = true).
  { unfold all_present in Hall. rewrite forallb_forall in Hall.
    apply Hall. unfold training_schema. simpl. tauto. }
  cbn [columns rows]. rewrite Hw. cbn [negb rows]. reflexivity.
Qed.

Lemma train_model_success
  (fit : list DeviceRecord -> Fit)
  (score : Regressor -> list DeviceRecord -> result Metrics)
  (df : DataFrame) (disk disk' : Disk) (self self' : HotelMaintenanceModel)
  (mt : Metrics) :
  train_model fit score df disk self = (self', disk', Ok mt) ->
  all_present training_schema df = true /\
  exists m,
    fit (map fill_status (rows df)) = Fitted m /\
    score m (map fill_status (rows df)) = Ok mt /\
    self' = {| hotel_model := Some m;
               loaded_training_df :=
                 {| columns := columns df; rows := map fill_status (rows df) |};
               model_metrics := Some mt;
               loaded_file_path := loaded_file_path self |} /\
    disk' = {| MODEL_PATH := Stored m;
               DATA_PATH :=
                 Stored {| columns := columns df;
                           rows := map fill_status (rows df) |};
               csv_file := csv_file disk;
               joblib_dump := joblib_dump disk;
               to_pickle := to_pickle disk |}.
Proof.
  destruct (all_present training_schema df) eqn:Hall.
  - rewrite (train_model_steps fit score df disk self Hall). cbn [rows].
    destruct (fit _) as [m|e estimator] eqn:Hfit; [|discriminate].
    destruct (score m _) as [mt'|e] eqn:Hscore; [|discriminate].
    destruct (joblib_dump disk m); [|discriminate].
    destruct (to_pickle disk _); [|discriminate].
    intros [= <- <- <-]. split; [reflexivity|]. exists m. auto.
  - unfold train_model. rewrite Hall. discriminate.
Qed.

(** X2.  Persist and reload.  An object created from the disk that a
    successful training left has the model and the dataset of the object
    that trained, and its metrics whenever the dataset is not empty; so
    the room, device, upcoming and weekly queries give the same answers on
    both. *)
Theorem reload_after_training_restores
  (fit : list DeviceRecord -> Fit)
  (score : Regressor -> list DeviceRecord -> result Metrics)
  (df : DataFrame) (disk disk' : Disk) (self self' : HotelMaintenanceModel)
  (mt : Metrics) :
  train_model fit score df disk self = (self', disk', Ok mt) ->
  hotel_model (__init__ score disk') = hotel_model self' /\
  loaded_training_df (__init__ score disk') = loaded_training_df self' /\
  (df_empty (loaded_training_df self') = false ->
   model_metrics (__init__ score disk') = Some mt) /\
  (forall now room,
      predict_for_room now (__init__ score disk') room =
      predict_for_room now self' room) /\
  (forall now room ty,
      get_device_details now (__init__ score disk') room ty =
      get_device_details now self' room ty) /\
  (forall now,
      get_upcoming_maintenance_devices now (__init__ score disk') =
      get_upcoming_maintenance_devices now self') /\
  (forall now,
      get_current_week_maintenance_devices now (__init__ score disk') =
      get_current_week_maintenance_devices now self').
Proof.
  intros H. apply train_model_success in H.
  destruct H as (Hall & m & Hfit & Hscore & -> & ->).
  set (df' := {| columns := columns df; rows := map fill_status (rows df) |}).
  assert (Hcols : all_present (features ++ [target]) df' = true).
  { unfold all_present in *. cbn [columns df'].
    apply (forallb_incl _ _ training_schema); [|exact Hall].
    unfold training_schema. intros c Hc. apply in_app_iff in Hc.
    apply in_app_iff. destruct Hc as [Hc|Hc]; [now left|].
    right. apply in_app_iff. now left. }
  assert (Hm : hotel_model (__init__ score
                 {| MODEL_PATH := Stored m; DATA_PATH := Stored df';
                    csv_file := csv_file disk;
                    joblib_dump := joblib_dump disk;
                    to_pickle := to_pickle disk |}) = Some m).
  { unfold __init__, _load_persisted_data. cbn [MODEL_PATH DATA_PATH].
    destruct (negb (df_empty df') && all_present (features ++ [target]) df');
      [destruct (score m (rows df'))|]; reflexivity. }
  assert (Hd : loaded_training_df (__init__ score
                 {| MODEL_PATH := Stored m; DATA_PATH := Stored df';
                    csv_file := csv_file disk;
                    joblib_dump := joblib_dump disk;
                    to_pickle := to_pickle disk |}) = df').
  { unfold __init__, _load_persisted_data. cbn [MODEL_PATH DATA_PATH].
    rewrite Hcols. cbn [rows df']. rewrite Hscore.
    destruct (negb (df_empty df') && true); reflexivity. }
  split; [exact Hm|]. split; [exact Hd|]. split; [|repeat split].
  - cbn [loaded_training_df]. fold df'. intros Hne.
    unfold __init__, _load_persisted_data. cbn [MODEL_PATH DATA_PATH].
    rewrite Hcols, Hne. cbn [negb andb rows df']. rewrite Hscore. reflexivity.
  - intros now room. unfold predict_for_room. now rewrite Hm, Hd.
  - intros now room ty. unfold get_device_details. now rewrite Hm, Hd.
  - intros now. unfold get_upcoming_maintenance_devices. now rewrite Hm, Hd.
  - intros now. unfold get_current_week_maintenance_devices. now rewrite Hm, Hd.
Qed.

Lemma reload_after_training_restores_witness :
  exists self' disk' mt,
    train_model trivial_fit trivial_score scenario_frame empty_disk
                trained_state = (self', disk', Ok mt) /\
    loaded_training_df (__init__ trivial_score disk') = loaded_training_df self' /\
    model_metrics (__init__ trivial_score disk') = Some mt.
Proof.
  eexists. eexists. eexists.
  assert (H : train_model trivial_fit trivial_score scenario_frame empty_disk
                trained_state =
              (fst (fst (train_model trivial_fit trivial_score scenario_frame
                                     empty_disk trained_state)),
               snd (fst (train_model trivial_fit trivial_score scenario_frame
                                     empty_disk trained_state)),
               Ok {| r2_score := 1; mae := 0; rmse := 0 |})) by reflexivity.
  split; [exact H|].
  destruct (reload_after_training_restores _ _ _ _ _ _ _ _ H)
    as (_ & Hd & Hm & _).
  split; [exact Hd | apply Hm; reflexivity].
Defined.

(** X3.  Training, memory and disk.  The selected file name and the hotel
    files are never touched.  When training returns, the object holds the
    new model, dataset and metrics and the disk stores that model and that
    dataset.  When it raises, one of three holds: nothing was written and
    dataset and metrics are what they were (the upload lacks a column, or
    the fit or the scoring raised); or [joblib.dump] raised, and the
    object already has the new model and metrics beside the old dataset;
    or [to_pickle] raised, and the object has the new model, dataset and
    metrics while the disk stores the new model without that dataset.
    Both last cases occur whenever the write concerned is refused. *)
Theorem training_memory_and_disk
  (fit : list DeviceRecord -> Fit)
  (score : Regressor -> list DeviceRecord -> result Metrics)
  (df : DataFrame) (disk : Disk) (self : HotelMaintenanceModel) :
  let df' := {| columns := columns df; rows := map fill_status (rows df) |} in
  let '(self', disk', outcome) := train_model fit score df disk self in
  loaded_file_path self' = loaded_file_path self /\
  csv_file disk' = csv_file disk /\
  match outcome with
  | Ok mt =>
      model_metrics self' = Some mt /\
      (exists m, hotel_model self' = Some m /\ MODEL_PATH disk' = Stored m) /\
      DATA_PATH disk' = Stored (loaded_training_df self') /\
      List.length (rows (loaded_training_df self')) = List.length (rows df) /\
      (forall r, In r (rows (loaded_training_df self')) -> Status r <> None)
  | Raise e =>
      (disk' = disk /\
       loaded_training_df self' = loaded_training_df self /\
       model_metrics self' = model_metrics self) \/
      (exists m mt held,
          joblib_dump disk m = Refuses e held /\
          hotel_model self' = Some m /\ model_metrics self' = Some mt /\
          loaded_training_df self' = loaded_training_df self /\
          MODEL_PATH disk' = held /\ DATA_PATH disk' = DATA_PATH disk) \/
      (exists m mt held,
          to_pickle disk df' = Refuses e held /\
          hotel_model self' = Some m /\ model_metrics self' = Some mt /\
          loaded_training_df self' = df' /\
          MODEL_PATH disk' = Stored m /\ DATA_PATH disk' = held)
  end /\
  (forall m mt,
      all_present training_schema df = true ->
      fit (rows df') = Fitted m -> score m (rows df') = Ok mt ->
      (forall e held,
          joblib_dump disk m = Refuses e held ->
          outcome = Raise e /\ model_metrics self' = Some mt /\
          loaded_training_df self' = loaded_training_df self /\
          MODEL_PATH disk' = held) /\
      (forall e held,
          joblib_dump disk m = Stores -> to_pickle disk df' = Refuses e held ->
          outcome = Raise e /\ loaded_training_df self' = df' /\
          MODEL_PATH disk' = Stored m /\ DATA_PATH disk' = held)).
Proof.
  cbv zeta.
  destruct (all_present training_schema df) eqn:Hall.
  2:{ unfold train_model. rewrite Hall. cbn [negb].
      split; [reflexivity|]. split; [reflexivity|]. split; [now left|].
      intros m mt Habs. discriminate. }
  rewrite (train_model_steps fit score df disk self Hall). cbv zeta.
  cbn [rows].
  destruct (fit _) as [m|e estimator] eqn:Hfit.
  2:{ split; [reflexivity|]. split; [reflexivity|]. split; [now left|].
      intros m mt _ Hm. discriminate. }
  destruct (score m _) as [mt|e] eqn:Hscore.
  2:{ split; [reflexivity|]. split; [reflexivity|]. split; [now left|].
      intros m0 mt0 _ [= <-] Hs. congruence. }
  destruct (joblib_dump disk m) as [|e held] eqn:Hdump.
  2:{ split; [reflexivity|]. split; [reflexivity|]. split.
      - right. left. exists m, mt, held. repeat split; assumption || reflexivity.
      - intros m0 mt0 _ [= <-] Hs. rewrite Hscore in Hs. injection Hs as <-.
        split.
        + intros e0 held0 Hr. rewrite Hdump in Hr. injection Hr as <- <-.
          repeat split; reflexivity.
        + intros e0 held0 Hr. congruence. }
  destruct (to_pickle disk _) as [|e held] eqn:Hpickle.
  - split; [reflexivity|]. split; [reflexivity|]. split.
    + cbn. split; [reflexivity|]. split; [eauto|]. split; [reflexivity|].
      split; [apply length_map|].
      intros r Hr. apply in_map_iff in Hr. destruct Hr as (r0 & <- & _).
      discriminate.
    + intros m0 mt0 _ [= <-] Hs. split.
      * intros e0 held0 Hr. congruence.
      * intros e0 held0 _ Hr. congruence.
  - split; [reflexivity|]. split; [reflexivity|]. split.
    + right. right. exists m, mt, held. repeat split; assumption || reflexivity.
    + intros m0 mt0 _ [= <-] Hs. rewrite Hscore in Hs. injection Hs as <-.
      split.
      * intros e0 held0 Hr. congruence.
      * intros e0 held0 _ Hr. injection Hr as <- <-.
        repeat split; reflexivity.
Qed.

Lemma training_memory_and_disk_witness :
  let '(self', disk', outcome) :=
    train_model trivial_fit trivial_score scenario_frame full_disk
                (__init__ trivial_score full_disk) in
  outcome = Raise (Exception "No space left on device") /\
  loaded_training_df self' = scenario_frame /\
  MODEL_PATH disk' = Stored (constant_regressor (300 # 1)%Q) /\
  DATA_PATH disk' = Absent.
Proof.
  pose proof (training_memory_and_disk trivial_fit trivial_score scenario_frame
                full_disk (__init__ trivial_score full_disk)) as H.
  cbv zeta in H.
  destruct (train_model trivial_fit trivial_score scenario_frame full_disk
                        (__init__ trivial_score full_disk))
    as [[self' disk'] outcome].
  destruct H as (_ & _ & _ & Hreach).
  destruct (Hreach (constant_regressor (300 # 1)%Q)
                   {| r2_score := 1; mae := 0; rmse := 0 |}
                   eq_refl eq_refl eq_refl) as [_ Hpickle].
  destruct (Hpickle (Exception "No space left on device") Absent
                    eq_refl eq_refl) as (Ho & Hd & Hm & Hp).
  auto.
Defined.

(* ===================================================================== *)
(** * Selecting a hotel dataset *)
(* ===================================================================== *)

Lemma load_hotel_data_success (hotel_name : string) (disk : Disk)
  (self self' : HotelMaintenanceModel) (n w : Z) (path : string) :
  load_hotel_data hotel_name disk self = (self', Ok (n, w, path)) ->
  lookup (lower hotel_name) HOTEL_CSV_FILES = Some path /\
  exists df,
    csv_file disk path = Stored df /\
    all_present hotel_required_cols df = true /\
    self' = {| hotel_model := hotel_model self;
               loaded_training_df := df;
               model_metrics := model_metrics self;
               loaded_file_path := Some (basename path) |} /\
    n = Z.of_nat (List.length (rows df)) /\
    w = Z.of_nat (List.length (filter counts_as_working (rows df))).
Proof.
  unfold load_hotel_data.
  destruct (lookup _ _) as [p|]; [|discriminate].
  destruct (csv_file disk p) as [| e | df] eqn:Hfile; try discriminate.
  destruct (all_present hotel_required_cols df) eqn:Hall; cbn [negb];
    [|discriminate].
  assert (Hs : mem "Status" (columns df) = true).
  { unfold all_present in Hall. rewrite forallb_forall in Hall.
    apply Hall. simpl. tauto. }
  rewrite Hs. intros [= <- <- <- <-]. split; [reflexivity|].
  exists df. auto.
Qed.

Lemma filter_length_le {A : Type} (f : A -> bool) (l : list A) :
  (List.length (filter f l) <= List.length l)%nat.
Proof.
  induction l as [|x t IH]; simpl; [lia|]. destruct (f x); simpl; lia.
Qed.

(** X4.  A selection that succeeds replaces the dataset by the hotel's
    file and records the file's base name, and touches neither the model
    nor the metrics: it does not retrain.  It returns the number of rows
    of the file, a working count between zero and that number, and the
    path; the file has all nine required columns. *)
Theorem selection_swaps_dataset_only (hotel_name : string) (disk : Disk)
  (self self' : HotelMaintenanceModel) (n w : Z) (path : string) :
  load_hotel_data hotel_name disk self = (self', Ok (n, w, path)) ->
  lookup (lower hotel_name) HOTEL_CSV_FILES = Some path /\
  csv_file disk path = Stored (loaded_training_df self') /\
  hotel_model self' = hotel_model self /\
  model_metrics self' = model_metrics self /\
  loaded_file_path self' = Some (basename path) /\
  n = Z.of_nat (List.length (rows (loaded_training_df self'))) /\
  0 <= w <= n /\
  (forall col, In col hotel_required_cols ->
               In col (columns (loaded_training_df self'))).
Proof.
  intros H. apply load_hotel_data_success in H.
  destruct H as (Hname & df & Hfile & Hall & -> & -> & ->). cbn.
  repeat split; auto; try lia.
  - pose proof (filter_length_le counts_as_working (rows df)). lia.
  - intros col Hcol. unfold all_present in Hall.
    rewrite forallb_forall in Hall. apply mem_In. auto.
Qed.

Lemma selection_swaps_dataset_only_witness :
  exists self',
    load_hotel_data "WESTIN" hotel_disk trained_state =
      (self', Ok (1, 1, "Westin.csv")) /\
    hotel_model self' = hotel_model trained_state /\
    loaded_file_path self' = Some "Westin.csv".
Proof.
  eexists. split; [reflexivity|].
  destruct (selection_swaps_dataset_only "WESTIN" hotel_disk trained_state _
              1 1 "Westin.csv" eq_refl) as (_ & _ & Hm & _ & Hp & _).
  split; [exact Hm | exact Hp].
Defined.

(** X5.  Selecting a hotel is what makes the dashboard work: after a
    selection that succeeded, on an object whose model predicts on every
    row of the file, the dashboard returns statistics that name the
    selected file; if the file has no rows it returns its "not loaded"
    message.  It raises no [AttributeError] any more. *)
Theorem dashboard_works_after_selection (now : date) (hotel_name : string)
  (disk : Disk) (self self' : HotelMaintenanceModel) (m : Regressor)
  (n w : Z) (path : string) :
  load_hotel_data hotel_name disk self = (self', Ok (n, w, path)) ->
  hotel_model self = Some m ->
  accepts m (loaded_training_df self') ->
  (0 < n ->
   exists d, get_dashboard_insights now self' = Ok (Insights d) /\
             loaded_data_file d = basename path /\
             running d + down d = n) /\
  (n = 0 ->
   get_dashboard_insights now self' =
     Ok (NotLoaded "Model or training data not loaded.")).
Proof.
  intros H Hm Hacc. apply load_hotel_data_success in H.
  destruct H as (Hname & df & Hfile & Hall & -> & -> & ->).
  cbn [loaded_training_df] in Hacc.
  assert (Hcols : columns df <> []).
  { unfold all_present in Hall. rewrite forallb_forall in Hall.
    specialize (Hall "Status" ltac:(simpl; tauto)). apply mem_In in Hall.
    intros E. rewrite E in Hall. exact Hall. }
  split.
  - intros Hn.
    assert (Hne : df_empty df = false).
    { unfold df_empty. destruct (columns df); [congruence|].
      destruct (rows df); [simpl in Hn; lia | reflexivity]. }
    unfold get_dashboard_insights. cbn [hotel_model loaded_training_df
                                          loaded_file_path].
    rewrite Hm, Hne.
    destruct (dashboard_loop_total m (today_of now) df Hacc) as [pending ->].
    cbn [bind]. eexists. split; [reflexivity|]. cbn. split; [reflexivity|].
    lia.
  - intros Hn. unfold get_dashboard_insights. cbn [hotel_model loaded_training_df].
    rewrite Hm.
    assert (He : df_empty df = true).
    { unfold df_empty. destruct (rows df); [now destruct (columns df)|].
      simpl in Hn. lia. }
    now rewrite He.
Qed.

Lemma dashboard_works_after_selection_witness :
  exists self' d,
    load_hotel_data "westin" hotel_disk trained_state =
      (self', Ok (1, 1, "Westin.csv")) /\
    get_dashboard_insights (mkDate 2025 6 1) self' = Ok (Insights d) /\
    loaded_data_file d = "Westin.csv".
Proof.
  eexists.
  destruct (dashboard_works_after_selection (mkDate 2025 6 1) "westin"
              hotel_disk trained_state _ (constant_regressor (300 # 1)%Q)
              1 1 "Westin.csv" eq_refl eq_refl) as [Hpos _].
  - intros r _. exists (300 # 1)%Q. reflexivity.
  - destruct (Hpos ltac:(lia)) as (d & Hd & Hfile & _).
    exists d. split; [reflexivity|]. split; [exact Hd | exact Hfile].
Defined.

Lemma lower_char_idem (a : ascii) : lower_char (lower_char a) = lower_char a.
Proof.
  destruct a as [[] [] [] [] [] [] [] []]; reflexivity.
Qed.

Lemma lower_idem (s : string) : lower (lower s) = lower s.
Proof.
  induction s as [|a s IH]; simpl; [reflexivity|].
  now rewrite lower_char_idem, IH.
Qed.

(** X6.  A selection that fails changes nothing, and names are matched
    whatever their case.  An unregistered name raises a [ValueError] that
    lists the registered names, a registered name whose file is absent
    raises a [FileNotFoundError]; in every failing case the object is what
    it was; and two names that differ in case only lead to the same object
    and succeed together. *)
Theorem selection_fails_cleanly_and_ignores_case
  (hotel_name : string) (disk : Disk) (self : HotelMaintenanceModel) :
  (forall e, snd (load_hotel_data hotel_name disk self) = Raise e ->
             fst (load_hotel_data hotel_name disk self) = self) /\
  (lookup (lower hotel_name) HOTEL_CSV_FILES = None ->
   snd (load_hotel_data hotel_name disk self) =
     Raise (ValueError ("Invalid hotel_name: '" ++ hotel_name ++
                        "'. Please choose from: fairfield, jwmarriott, westin"))) /\
  (forall path, lookup (lower hotel_name) HOTEL_CSV_FILES = Some path ->
                csv_file disk path = Absent ->
                exists msg, snd (load_hotel_data hotel_name disk self) =
                            Raise (FileNotFoundError msg)) /\
  (forall other, lower other = lower hotel_name ->
      fst (load_hotel_data other disk self) =
      fst (load_hotel_data hotel_name disk self) /\
      (forall r, snd (load_hotel_data other disk self) = Ok r <->
                 snd (load_hotel_data hotel_name disk self) = Ok r)).
Proof.
  split; [|split; [|split]].
  - intros e. apply load_hotel_data_refused.
  - intros Hnone. unfold load_hotel_data. rewrite Hnone. reflexivity.
  - intros path Hsome Habs. unfold load_hotel_data. rewrite Hsome, Habs.
    eexists. reflexivity.
  - intros other Heq. unfold load_hotel_data. rewrite Heq.
    destruct (lookup (lower hotel_name) HOTEL_CSV_FILES) as [path|];
      [|split; [reflexivity | split; discriminate]].
    destruct (csv_file disk path) as [| e | df];
      try (split; [reflexivity | split; discriminate]).
    destruct (negb (all_present hotel_required_cols df));
      [split; [reflexivity | split; discriminate]|].
    split; [reflexivity | split; auto].
Qed.

(* ===================================================================== *)
(** * Row order and row loops *)
(* ===================================================================== *)

Lemma combine_seq_sorted {A : Type} (l : list A) (start : nat) :
  StronglySorted (fun a b : Z * A => fst a < fst b)
                 (combine (map Z.of_nat (seq start (List.length l))) l).
Proof.
  revert start. induction l as [|x t IH]; intros start; simpl; constructor.
  - apply IH.
  - apply Forall_forall. intros [j y] Hin. simpl.
    assert (Hlow : forall (u : list A) s k z,
               In (k, z) (combine (map Z.of_nat (seq s (List.length u))) u) ->
               Z.of_nat s <= k).
    { induction u as [|a u IHu]; simpl; intros s k z; [intros []|].
      intros [[= <- _]|H]; [lia|]. apply IHu in H. lia. }
    apply Hlow in Hin. lia.
Qed.

(** rows come with increasing index labels *)
Lemma iterrows_sorted (df : DataFrame) :
  StronglySorted (fun a b : Z * DeviceRecord => fst a < fst b) (iterrows df).
Proof. apply combine_seq_sorted. Qed.

Lemma iterrows_length (df : DataFrame) :
  List.length (iterrows df) = List.length (rows df).
Proof.
  unfold iterrows. rewrite length_combine, length_map, length_seq. lia.
Qed.

Lemma for_each_length_le {A B : Type} (body : A -> result (list B))
  (l : list A) (r : list B) :
  (forall x ys, body x = Ok ys -> (List.length ys <= 1)%nat) ->
  for_each body l = Ok r -> (List.length r <= List.length l)%nat.
Proof.
  intros Hone. revert r. induction l as [|a t IH]; simpl; intros r H.
  - injection H as <-. simpl. lia.
  - destruct (body a) as [ys|e] eqn:Ea; simpl in H; [|discriminate].
    destruct (for_each body t) as [rest|e] eqn:Et; simpl in H; [|discriminate].
    injection H as <-. rewrite length_app.
    specialize (Hone a ys Ea). specialize (IH rest eq_refl). lia.
Qed.

(** a loop that appends at most one item per row, labelled by the row's
    index, yields its items in row order *)
Lemma for_each_ids_sorted {A B : Type} (body : Z * A -> result (list B))
  (id : B -> Z) (l : list (Z * A)) (r : list B) :
  (forall x ys y, body x = Ok ys -> In y ys -> id y = fst x + 1) ->
  (forall x ys, body x = Ok ys -> (List.length ys <= 1)%nat) ->
  StronglySorted (fun a b : Z * A => fst a < fst b) l ->
  for_each body l = Ok r ->
  StronglySorted Z.lt (map id r).
Proof.
  intros Hid Hone Hs. revert r.
  induction Hs as [|a t Hs IH Ha]; simpl; intros r H.
  - injection H as <-. constructor.
  - destruct (body a) as [ys|e] eqn:Ea; simpl in H; [|discriminate].
    destruct (for_each body t) as [rest|e] eqn:Et; simpl in H; [|discriminate].
    injection H as <-. specialize (IH rest eq_refl).
    pose proof (Hone a ys Ea) as Hlen.
    destruct ys as [|y [|y' ys]]; simpl in *; [exact IH | | lia].
    constructor; [exact IH|].
    apply Forall_forall. intros k Hk. apply in_map_iff in Hk.
    destruct Hk as (z & <- & Hz).
    apply (for_each_In _ _ _ Et) in Hz.
    destruct Hz as (x & zs & Hx & Hb & Hzs).
    rewrite Forall_forall in Ha. specialize (Ha x Hx).
    rewrite (Hid a [y] y Ea (or_introl eq_refl)), (Hid x zs z Hb Hzs). lia.
Qed.

Lemma for_each_first_raise {A B : Type} (body : A -> result (list B))
  (e : exn) (l : list A) :
  (forall x, In x l -> (exists ys, body x = Ok ys) \/ body x = Raise e) ->
  (exists x, In x l /\ body x = Raise e) ->
  for_each body l = Raise e.
Proof.
  induction l as [|a t IH]; intros Hall (x & Hx & Hr); [destruct Hx|].
  simpl. destruct (Hall a (or_introl eq_refl)) as [[ys Ha] | Ha];
    rewrite Ha; [|reflexivity].
  simpl. destruct Hx as [<-|Hx]; [congruence|].
  rewrite IH; [reflexivity | | eauto].
  intros y Hy. apply Hall. now right.
Qed.

Lemma for_each_some_raise {A B : Type} (body : A -> result (list B))
  (l : list A) :
  (exists x e, In x l /\ body x = Raise e) ->
  exists e, for_each body l = Raise e.
Proof.
  induction l as [|a t IH]; intros (x & e & Hx & Hb); [destruct Hx|].
  cbn [for_each]. destruct (body a) as [ys|e'] eqn:Ea; cbn [bind]; [|eauto].
  destruct Hx as [<-|Hx]; [congruence|].
  destruct IH as [e'' He'']; [exists x, e; auto|].
  rewrite He''. cbn [bind]. eauto.
Qed.

Lemma nan_is_no_date : try_formats date_formats "nan" = None.
Proof. reflexivity. Qed.

Lemma str_cell_parsed (c : option string) (d : date) :
  try_formats date_formats (str_cell c) = Some d ->
  exists s, c = Some s /\ try_formats date_formats s = Some d.
Proof.
  destruct c as [s|]; cbn [str_cell]; [eauto|].
  rewrite nan_is_no_date. discriminate.
Qed.

(* ===================================================================== *)
(** * The dashboard's numbers *)
(* ===================================================================== *)

Lemma dashboard_row_spec (m : Regressor) (now : date) (index : Z)
  (row : DeviceRecord) (ys : list PendingEntry) :
  dashboard_row m (today_of now) (index, row) = Ok ys ->
  (List.length ys <= 1)%nat /\
  ((exists pe, In pe ys) <-> is_due now m row) /\
  (forall pe, In pe ys ->
     pe_device_id pe = index + 1 /\
     pe_room_no pe = Room_Number row /\
     pe_device_name pe = Appliance_Type row /\
     pe_maintenance_date pe <= toordinal now /\
     exists p parsed,
       predict m row = Ok p /\
       try_formats date_formats (str_cell (Last_Maintenance_Date row)) =
         Some parsed /\
       pe_maintenance_date pe = dt_ord (add_days parsed (clamp p))).
Proof.
  unfold dashboard_row, is_due.
  destruct (predict m row) as [p|] eqn:Hp; cbn [bind]; [|discriminate].
  destruct (next_maintenance _ (clamp p)) as [[[parsed f] t]|] eqn:N.
  - apply next_maintenance_spec in N. destruct N as (Hd & -> & ->).
    unfold today_of. rewrite dt_leb_midnight. cbn [dt_ord datetime_of_date].
    destruct (Z.leb_spec (dt_ord (add_days parsed (clamp p))) (toordinal now));
      intros [= <-].
    + split; [simpl; lia|]. split; [split|].
      * intros _. exists p, parsed. auto.
      * intros _. eexists. now left.
      * intros pe [<-|[]]. cbn. repeat split; auto. exists p, parsed. auto.
    + split; [simpl; lia|]. split; [split|].
      * intros [? []].
      * intros (p' & parsed' & [= <-] & Hd' & Hle). rewrite Hd in Hd'.
        injection Hd' as <-. lia.
      * intros ? [].
  - intros [= <-]. split; [simpl; lia|]. split; [split|].
    + intros [? []].
    + intros (p' & parsed' & [= <-] & Hd' & _).
      unfold next_maintenance in N. rewrite Hd' in N. discriminate.
    + intros ? [].
Qed.

Lemma upcoming_row_spec {cols : list string} (m : Regressor) (now : date) (index : Z)
  (row : DeviceRecord) (es : list Entry) :
  upcoming_row cols m now (index, row) = Ok es ->
  (List.length es <= 1)%nat /\
  ((exists e, In e es) <-> is_upcoming now m row) /\
  (forall e, In e es ->
     exists issue parsed p,
       predict m row = Ok p /\
       e = view_entry now index row issue parsed (clamp p)
                      (dt_ord (add_days parsed (clamp p))) /\
       toordinal now < dt_ord (add_days parsed (clamp p)) <= toordinal now + 182).
Proof.
  unfold upcoming_row, is_upcoming.
  destruct (predict m row) as [p|] eqn:Hp; cbn [bind]; [|discriminate].
  destruct (Last_Maintenance_Date row) as [s|]; [|discriminate].
  destruct (next_maintenance s (clamp p)) as [[[parsed f] t]|] eqn:N.
  - apply next_maintenance_spec in N. destruct N as (Hd & -> & ->).
    rewrite six_months_ord. unfold today_of.
    rewrite dt_ltb_midnight, dt_leb_midnight. cbn [dt_ord datetime_of_date].
    destruct (Z.ltb_spec (toordinal now) (dt_ord (add_days parsed (clamp p))));
      destruct (Z.leb_spec (dt_ord (add_days parsed (clamp p)))
                           (toordinal now + 182));
      cbn [andb].
    1: { unfold getitem.
         destruct (mem "Warranty Year" cols); cbn [bind]; [|discriminate].
         destruct (mem "Status" cols); cbn [bind]; [|discriminate].
         intros [= <-]. split; [simpl; lia|]. split; [split|].
         - intros _. exists p, s, parsed. auto.
         - intros _. eexists. now left.
         - intros e [<-|[]]. eexists. exists parsed, p. auto. }
    all: intros [= <-];
      (split; [simpl; lia|]; split; [split|];
       [intros [? []] | | intros ? []]);
      intros (p' & s' & parsed' & [= <-] & [= <-] & Hd' & Hw);
      rewrite Hd in Hd'; injection Hd' as <-; lia.
  - intros [= <-]. split; [simpl; lia|]. split; [split|].
    + intros [? []].
    + intros (p' & s' & parsed' & [= <-] & [= <-] & Hd' & _).
      unfold next_maintenance in N. rewrite Hd' in N. discriminate.
    + intros ? [].
Qed.

Lemma weekly_row_shape {cols : list string} (m : Regressor) (now : date) (index : Z)
  (row : DeviceRecord) (es : list Entry) :
  weekly_row cols m now (index, row) = Ok es ->
  (List.length es <= 1)%nat /\
  (forall e, In e es ->
     exists issue parsed p,
       predict m row = Ok p /\
       e = view_entry now index row issue parsed (clamp p)
                      (dt_ord (add_days parsed (clamp p)))).
Proof.
  unfold weekly_row.
  destruct (Usage_Hours row), (Average_Daily_Usage row), (Device_Year row);
    try (intros [= <-]; split; [simpl; lia | intros ? []]).
  destruct (predict m row) as [p|] eqn:Hp; cbn [bind]; [|discriminate].
  destruct (next_maintenance _ (clamp p)) as [[[parsed f] t]|] eqn:N;
    [|intros [= <-]; split; [simpl; lia | intros ? []]].
  apply next_maintenance_spec in N. destruct N as (Hd & -> & ->).
  destruct (_ && _); intros [= <-]; (split; [simpl; lia|]).
  - intros e [<-|[]]. eexists. exists parsed, p. auto.
  - intros ? [].
Qed.

(** every field of a dashboard that returns statistics *)
Lemma dashboard_insights_fields (now : date) (self : HotelMaintenanceModel)
  (d : DashboardData) :
  get_dashboard_insights now self = Ok (Insights d) ->
  exists m,
    hotel_model self = Some m /\
    df_empty (loaded_training_df self) = false /\
    for_each (dashboard_row m (today_of now))
             (iterrows (loaded_training_df self)) = Ok (Pending_maintenance d) /\
    total_devices d = count_unique_devices (loaded_training_df self) /\
    running d =
      (if mem "Status" (columns (loaded_training_df self))
       then Z.of_nat (List.length (filter is_running
                                          (rows (loaded_training_df self))))
       else 0) /\
    down d = Z.of_nat (List.length (rows (loaded_training_df self))) - running d /\
    due_maintenance d = Z.of_nat (List.length (Pending_maintenance d)) /\
    under_maintenance d = Z.max 0 (down d - due_maintenance d) /\
    loaded_file_path self = Some (loaded_data_file d).
Proof.
  unfold get_dashboard_insights.
  destruct (hotel_model self) as [m|]; [|discriminate].
  destruct (df_empty (loaded_training_df self)); [discriminate|].
  destruct (for_each _ _) as [pending|] eqn:Hloop; cbn [bind]; [|discriminate].
  destruct (loaded_file_path self) as [file|]; [|discriminate].
  intros [= <-]. exists m. cbn. repeat split; assumption || reflexivity.
Qed.

Lemma drop_duplicates_from_length_le {A K : Type} (keq : K -> K -> bool)
  (name : A -> K) (seen : list K) (l : list A) :
  (List.length (drop_duplicates_from keq name seen l) <= List.length l)%nat.
Proof.
  revert seen. induction l as [|x t IH]; intros seen; simpl; [lia|].
  destruct (existsb _ _); simpl; [specialize (IH seen) | specialize (IH (name x :: seen))]; lia.
Qed.

(** X7.  The numbers of a dashboard that returns statistics fit together:
    running and down add up to the number of rows; the due count is the
    length of the pending list and no more than the number of rows;
    [under_maintenance] is the down count minus the due count, or zero
    when that is negative, so it lies between zero and the down count: a
    difference of two counts, which does not look at which rows are down
    and which are due; and the distinct devices are at least one and at
    most the number of rows. *)
Theorem dashboard_numbers_fit_together (now : date)
  (self : HotelMaintenanceModel) (d : DashboardData) :
  get_dashboard_insights now self = Ok (Insights d) ->
  let n := Z.of_nat (List.length (rows (loaded_training_df self))) in
  running d + down d = n /\
  0 <= running d <= n /\
  0 <= down d <= n /\
  due_maintenance d = Z.of_nat (List.length (Pending_maintenance d)) /\
  0 <= due_maintenance d <= n /\
  under_maintenance d = Z.max 0 (down d - due_maintenance d) /\
  0 <= under_maintenance d <= down d /\
  1 <= total_devices d <= n.
Proof.
  intros H. apply dashboard_insights_fields in H.
  destruct H as (m & _ & Hne & Hloop & Htot & Hrun & Hdown & Hdue & Hunder & _).
  cbv zeta.
  assert (Hr : 0 <= running d <=
               Z.of_nat (List.length (rows (loaded_training_df self)))).
  { rewrite Hrun. destruct (mem _ _); [|lia].
    pose proof (filter_length_le is_running (rows (loaded_training_df self))).
    lia. }
  assert (Hp : (List.length (Pending_maintenance d) <=
                List.length (rows (loaded_training_df self)))%nat).
  { rewrite <- iterrows_length.
    eapply for_each_length_le; [|exact Hloop].
    intros [i r] ys Hb. apply (dashboard_row_spec _ _ _ _ _ Hb). }
  assert (Ht : 1 <= total_devices d <=
               Z.of_nat (List.length (rows (loaded_training_df self)))).
  { rewrite Htot. unfold count_unique_devices, drop_duplicates.
    pose proof (drop_duplicates_from_length_le pair_eqb (fun p => p) []
                  (map device_pair (rows (loaded_training_df self)))) as Hle.
    rewrite length_map in Hle.
    apply df_nonempty_rows in Hne.
    destruct (rows (loaded_training_df self)) as [|r t]; [congruence|].
    cbn [map drop_duplicates_from existsb List.length] in *. lia. }
  repeat split; lia || assumption.
Qed.

Lemma dashboard_numbers_fit_together_witness :
  exists d,
    get_dashboard_insights (mkDate 2025 6 1) mixed_state = Ok (Insights d) /\
    running d + down d = 2 /\
    under_maintenance d = Z.max 0 (down d - due_maintenance d) /\
    map pe_device_id (Pending_maintenance d) = [1] /\
    running d = 1 /\ down d = 1 /\ under_maintenance d = 0.
Proof.
  eexists.
  assert (H : get_dashboard_insights (mkDate 2025 6 1) mixed_state =
              Ok (Insights
                    (match get_dashboard_insights (mkDate 2025 6 1) mixed_state with
                     | Ok (Insights d) => d
                     | _ => mkDashboard 0 0 0 0 0 [] EmptyString
                     end))) by (vm_compute; reflexivity).
  split; [exact H|].
  destruct (dashboard_numbers_fit_together _ _ _ H)
    as (Hsum & _ & _ & _ & _ & Hunder & _ & _).
  split; [exact Hsum|]. split; [exact Hunder|].
  repeat split; vm_compute; reflexivity.
Defined.

(* ===================================================================== *)
(** * Who is on which list *)
(* ===================================================================== *)

Lemma pending_membership (now : date) (m : Regressor) (df : DataFrame)
  (pending : list PendingEntry) (index : Z) (row : DeviceRecord) :
  for_each (dashboard_row m (today_of now)) (iterrows df) = Ok pending ->
  In (index, row) (iterrows df) ->
  ((exists pe, In pe pending /\ pe_device_id pe = index + 1) <->
   is_due now m row).
Proof.
  intros Hl Hin. split.
  - intros (pe & Hpe & Hid). apply (for_each_In _ _ _ Hl) in Hpe.
    destruct Hpe as ([i r] & ys & Hir & Hb & Hys).
    pose proof (dashboard_row_spec _ _ _ _ _ Hb) as (_ & Hiff & Hf).
    destruct (Hf pe Hys) as (Hid' & _).
    assert (i = index) by lia. subst i.
    pose proof (iterrows_functional _ _ _ _ Hir Hin). subst r.
    apply Hiff. eauto.
  - intros Hdue. destruct (for_each_each _ _ _ Hl _ Hin) as [ys Hb].
    pose proof (dashboard_row_spec _ _ _ _ _ Hb) as (_ & Hiff & Hf).
    apply Hiff in Hdue. destruct Hdue as [pe Hpe].
    exists pe. split; [|apply (Hf pe Hpe)].
    apply (for_each_In _ _ _ Hl). exists (index, row), ys. auto.
Qed.

Lemma upcoming_membership {cols : list string} (now : date) (m : Regressor) (df : DataFrame)
  (l : list Entry) (index : Z) (row : DeviceRecord) :
  for_each (upcoming_row cols m now) (iterrows df) = Ok l ->
  In (index, row) (iterrows df) ->
  ((exists e, In e l /\ device_id e = index + 1) <-> is_upcoming now m row).
Proof.
  intros Hl Hin. split.
  - intros (e & He & Hid). apply (for_each_In _ _ _ Hl) in He.
    destruct He as ([i r] & es & Hir & Hb & Hes).
    pose proof (upcoming_row_spec _ _ _ _ _ Hb) as (_ & Hiff & Hf).
    destruct (Hf e Hes) as (issue & parsed & p & _ & -> & _). cbn in Hid.
    assert (i = index) by lia. subst i.
    pose proof (iterrows_functional _ _ _ _ Hir Hin). subst r.
    apply Hiff. eauto.
  - intros Hup. destruct (for_each_each _ _ _ Hl _ Hin) as [es Hb].
    pose proof (upcoming_row_spec _ _ _ _ _ Hb) as (_ & Hiff & Hf).
    apply Hiff in Hup. destruct Hup as [e He].
    exists e. split.
    + apply (for_each_In _ _ _ Hl). exists (index, row), es. auto.
    + destruct (Hf e He) as (issue & parsed & p & _ & -> & _). reflexivity.
Qed.

(** X8.  The pending list of a dashboard that returns statistics holds a
    row exactly when the row's date parses and its computed next
    maintenance date is today or earlier.  Its entries stand in row order,
    no device id twice, each with the room and the appliance type of its
    row and, as its maintenance date, the day on which the row's parsed
    date plus its clamped prediction falls, which is today or earlier. *)
Theorem pending_list_is_the_due_rows (now : date)
  (self : HotelMaintenanceModel) (m : Regressor) (d : DashboardData) :
  get_dashboard_insights now self = Ok (Insights d) ->
  hotel_model self = Some m ->
  (forall index row,
      In (index, row) (iterrows (loaded_training_df self)) ->
      ((exists pe, In pe (Pending_maintenance d) /\ pe_device_id pe = index + 1)
       <-> is_due now m row)) /\
  StronglySorted Z.lt (map pe_device_id (Pending_maintenance d)) /\
  (forall pe, In pe (Pending_maintenance d) ->
     exists row,
       In (pe_device_id pe - 1, row) (iterrows (loaded_training_df self)) /\
       pe_room_no pe = Room_Number row /\
       pe_device_name pe = Appliance_Type row /\
       pe_maintenance_date pe <= toordinal now /\
       exists p parsed,
         predict m row = Ok p /\
         try_formats date_formats (str_cell (Last_Maintenance_Date row)) =
           Some parsed /\
         pe_maintenance_date pe = dt_ord (add_days parsed (clamp p))).
Proof.
  intros H Hm. apply dashboard_insights_fields in H.
  destruct H as (m' & Hm' & _ & Hloop & _).
  rewrite Hm in Hm'. injection Hm' as <-.
  split; [|split].
  - intros index row Hin.
    apply (pending_membership now m _ _ index row Hloop Hin).
  - eapply for_each_ids_sorted; [| |apply iterrows_sorted|exact Hloop].
    + intros [i r] ys y Hb Hy.
      destruct (dashboard_row_spec _ _ _ _ _ Hb) as (_ & _ & Hf).
      apply (Hf y Hy).
    + intros [i r] ys Hb. apply (dashboard_row_spec _ _ _ _ _ Hb).
  - intros pe Hpe. apply (for_each_In _ _ _ Hloop) in Hpe.
    destruct Hpe as ([i r] & ys & Hir & Hb & Hys).
    destruct (dashboard_row_spec _ _ _ _ _ Hb) as (_ & _ & Hf).
    destruct (Hf pe Hys) as (Hid & Hroom & Hname & Hdate & Hcomputed).
    exists r. replace (pe_device_id pe - 1) with i by lia.
    repeat split; assumption.
Qed.

Lemma pending_list_is_the_due_rows_witness :
  exists d,
    get_dashboard_insights (mkDate 2025 6 1) history_state = Ok (Insights d) /\
    StronglySorted Z.lt (map pe_device_id (Pending_maintenance d)) /\
    map pe_device_id (Pending_maintenance d) = [2; 3] /\
    map pe_maintenance_date (Pending_maintenance d) =
      [toordinal (mkDate 2023 4 11); toordinal (mkDate 2023 10 28)].
Proof.
  eexists.
  assert (H : get_dashboard_insights (mkDate 2025 6 1) history_state =
              Ok (Insights
                    (match get_dashboard_insights (mkDate 2025 6 1) history_state with
                     | Ok (Insights d) => d
                     | _ => mkDashboard 0 0 0 0 0 [] EmptyString
                     end))) by (vm_compute; reflexivity).
  split; [exact H|].
  split; [exact (proj1 (proj2 (pending_list_is_the_due_rows _ _ _ _ H eq_refl)))|].
  split; vm_compute; reflexivity.
Defined.

(** X9.  A list that the upcoming view returns holds a row exactly when
    the row's date parses and its computed next maintenance date is after
    today and at most 182 days ahead.  Its entries stand in row order, no
    device id twice. *)
Theorem upcoming_list_is_the_next_182_days (now : date)
  (self : HotelMaintenanceModel) (m : Regressor) (l : list Entry) :
  get_upcoming_maintenance_devices now self = Ok l ->
  hotel_model self = Some m ->
  (forall index row,
      In (index, row) (iterrows (loaded_training_df self)) ->
      ((exists e, In e l /\ device_id e = index + 1) <->
       is_upcoming now m row)) /\
  StronglySorted Z.lt (map device_id l) /\
  (forall e n, In e l -> next_maintenance_date e = Some n ->
               toordinal now < n <= toordinal now + 182).
Proof.
  unfold get_upcoming_maintenance_devices. intros H Hm. rewrite Hm in H.
  destruct (df_empty (loaded_training_df self)); [discriminate|].
  split; [|split].
  - intros index row Hin.
    apply (upcoming_membership now m _ _ index row H Hin).
  - eapply for_each_ids_sorted; [| |apply iterrows_sorted|exact H].
    + intros [i r] es e Hb He.
      destruct (upcoming_row_spec _ _ _ _ _ Hb) as (_ & _ & Hf).
      destruct (Hf e He) as (issue & parsed & p & _ & -> & _). reflexivity.
    + intros [i r] es Hb. apply (upcoming_row_spec _ _ _ _ _ Hb).
  - intros e n He Hn. apply (for_each_In _ _ _ H) in He.
    destruct He as ([i r] & es & Hir & Hb & Hes).
    destruct (upcoming_row_spec _ _ _ _ _ Hb) as (_ & _ & Hf).
    destruct (Hf e Hes) as (issue & parsed & p & _ & -> & Hwin).
    cbn in Hn. injection Hn as <-. exact Hwin.
Qed.

Lemma upcoming_list_is_the_next_182_days_witness :
  exists l,
    get_upcoming_maintenance_devices (mkDate 2023 6 1) scenario_state = Ok l /\
    StronglySorted Z.lt (map device_id l).
Proof.
  eexists.
  assert (H : get_upcoming_maintenance_devices (mkDate 2023 6 1) scenario_state =
              Ok (match get_upcoming_maintenance_devices (mkDate 2023 6 1)
                          scenario_state with
                  | Ok l => l
                  | Raise _ => []
                  end)) by (vm_compute; reflexivity).
  split; [exact H|].
  exact (proj1 (proj2 (upcoming_list_is_the_next_182_days _ _ _ _ H eq_refl))).
Defined.

Lemma weekly_origin {cols : list string} (now : date) (m : Regressor) (df : DataFrame)
  (l : list Entry) (e : Entry) :
  for_each (weekly_row cols m now) (iterrows df) = Ok l -> In e l ->
  exists index row,
    In (index, row) (iterrows df) /\ device_id e = index + 1 /\
    in_current_week now m row.
Proof.
  intros Hl He. apply (for_each_In _ _ _ Hl) in He.
  destruct He as ([i r] & es & Hir & Hb & Hes).
  destruct (weekly_row_spec _ _ _ _ _ Hb) as (Hiff & Hf).
  exists i, r. split; [exact Hir|]. split; [apply (Hf e Hes)|].
  apply Hiff. eauto.
Qed.

Lemma pending_origin (now : date) (m : Regressor) (df : DataFrame)
  (pending : list PendingEntry) (pe : PendingEntry) :
  for_each (dashboard_row m (today_of now)) (iterrows df) = Ok pending ->
  In pe pending ->
  exists index row,
    In (index, row) (iterrows df) /\ pe_device_id pe = index + 1 /\
    is_due now m row.
Proof.
  intros Hl He. apply (for_each_In _ _ _ Hl) in He.
  destruct He as ([i r] & ys & Hir & Hb & Hys).
  destruct (dashboard_row_spec _ _ _ _ _ Hb) as (_ & Hiff & Hf).
  exists i, r. split; [exact Hir|]. split; [apply (Hf pe Hys)|].
  apply Hiff. eauto.
Qed.

Lemma upcoming_origin {cols : list string} (now : date) (m : Regressor) (df : DataFrame)
  (l : list Entry) (e : Entry) :
  for_each (upcoming_row cols m now) (iterrows df) = Ok l -> In e l ->
  exists index row,
    In (index, row) (iterrows df) /\ device_id e = index + 1 /\
    is_upcoming now m row.
Proof.
  intros Hl He. apply (for_each_In _ _ _ Hl) in He.
  destruct He as ([i r] & es & Hir & Hb & Hes).
  destruct (upcoming_row_spec _ _ _ _ _ Hb) as (_ & Hiff & Hf).
  exists i, r. split; [exact Hir|]. split.
  - destruct (Hf e Hes) as (issue & parsed & p & _ & -> & _). reflexivity.
  - apply Hiff. eauto.
Qed.

(** X10.  Due and upcoming do not overlap, and together they cover the
    week: when the dashboard returns statistics and the upcoming view
    returns its list, no device id is on both the pending list and the
    upcoming list, and every device that the weekly view lists is on one
    of the two. *)
Theorem due_and_upcoming_split_the_week (now : date)
  (self : HotelMaintenanceModel) (d : DashboardData) (lu : list Entry) :
  get_dashboard_insights now self = Ok (Insights d) ->
  get_upcoming_maintenance_devices now self = Ok lu ->
  (forall pe e, In pe (Pending_maintenance d) -> In e lu ->
                pe_device_id pe <> device_id e) /\
  (forall lw e,
      get_current_week_maintenance_devices now self = Ok lw -> In e lw ->
      (exists pe, In pe (Pending_maintenance d) /\
                  pe_device_id pe = device_id e) \/
      (exists e', In e' lu /\ device_id e' = device_id e)).
Proof.
  intros Hd Hu. apply dashboard_insights_fields in Hd.
  destruct Hd as (m & Hm & Hne & Hloop & _).
  unfold get_upcoming_maintenance_devices in Hu. rewrite Hm, Hne in Hu.
  split.
  - intros pe e Hpe He Hid.
    destruct (pending_origin _ _ _ _ _ Hloop Hpe) as (i & r & Hir & Hi & Hdue).
    destruct (upcoming_origin _ _ _ _ _ Hu He) as (i' & r' & Hir' & Hi' & Hup).
    assert (i' = i) by lia. subst i'.
    pose proof (iterrows_functional _ _ _ _ Hir Hir'). subst r'.
    destruct Hdue as (p & parsed & Hp & Hd & Hle).
    destruct Hup as (p' & s & parsed' & Hp' & Hs & Hd' & Hwin).
    rewrite Hs in Hd. cbn [str_cell] in Hd.
    rewrite Hp in Hp'. injection Hp' as <-.
    rewrite Hd in Hd'. injection Hd' as <-. lia.
  - intros lw e Hw He.
    unfold get_current_week_maintenance_devices in Hw. rewrite Hm, Hne in Hw.
    destruct (weekly_origin _ _ _ _ _ Hw He) as (i & r & Hir & Hi & Hweek).
    destruct Hweek as (_ & p & parsed & Hp & Hparsed & Hwin).
    destruct (monday_of_spec now) as [_ Hmon].
    destruct (Z.le_gt_cases (dt_ord (add_days parsed (clamp p))) (toordinal now))
      as [Hle | Hgt].
    + left. rewrite Hi.
      apply (pending_membership now m _ _ i r Hloop Hir).
      exists p, parsed. auto.
    + right. rewrite Hi.
      apply (upcoming_membership now m _ _ i r Hu Hir).
      destruct (str_cell_parsed _ _ Hparsed) as (s & Hs & Hd).
      exists p, s, parsed. repeat split; auto; lia.
Qed.

Lemma due_and_upcoming_split_the_week_witness :
  exists d lu,
    get_dashboard_insights (mkDate 2023 6 1) history_state = Ok (Insights d) /\
    get_upcoming_maintenance_devices (mkDate 2023 6 1) history_state = Ok lu /\
    forall pe e, In pe (Pending_maintenance d) -> In e lu ->
                 pe_device_id pe <> device_id e.
Proof.
  eexists. eexists.
  assert (Hd : get_dashboard_insights (mkDate 2023 6 1) history_state =
               Ok (Insights
                     (match get_dashboard_insights (mkDate 2023 6 1) history_state with
                      | Ok (Insights d) => d
                      | _ => mkDashboard 0 0 0 0 0 [] EmptyString
                      end))) by (vm_compute; reflexivity).
  assert (Hu : get_upcoming_maintenance_devices (mkDate 2023 6 1) history_state =
               Ok (match get_upcoming_maintenance_devices (mkDate 2023 6 1)
                           history_state with
                   | Ok l => l
                   | Raise _ => []
                   end)) by (vm_compute; reflexivity).
  split; [exact Hd|]. split; [exact Hu|].
  exact (proj1 (due_and_upcoming_split_the_week _ _ _ _ Hd Hu)).
Defined.

(** X11.  One empty date cell breaks the upcoming view and nothing else.
    With a model that predicts on every row, a dataset in which some row
    has no text in its date cell makes [get_upcoming_maintenance_devices]
    raise: the [TypeError] of [strptime] when the dataset has the
    [Warranty Year] and [Status] columns, and an exception in any case.
    The weekly view returns its list and the dashboard, once a file is
    selected, returns its statistics: both skip such a row, listing
    nothing under its device id. *)
Theorem empty_date_cell_breaks_upcoming_only (now : date)
  (self : HotelMaintenanceModel) (m : Regressor) :
  hotel_model self = Some m ->
  df_empty (loaded_training_df self) = false ->
  accepts m (loaded_training_df self) ->
  (exists row, In row (rows (loaded_training_df self)) /\
               Last_Maintenance_Date row = None) ->
  (exists e, get_upcoming_maintenance_devices now self = Raise e) /\
  (lookup_columns (loaded_training_df self) ->
   get_upcoming_maintenance_devices now self = Raise strptime_type_error) /\
  (exists lw, get_current_week_maintenance_devices now self = Ok lw /\
              (forall e, In e lw -> previous_maintenance_date e <> None) /\
              (forall index row e,
                  In (index, row) (iterrows (loaded_training_df self)) ->
                  Last_Maintenance_Date row = None ->
                  In e lw -> device_id e <> index + 1)) /\
  (forall file, loaded_file_path self = Some file ->
                exists d, get_dashboard_insights now self = Ok (Insights d) /\
                          forall index row pe,
                            In (index, row) (iterrows (loaded_training_df self)) ->
                            Last_Maintenance_Date row = None ->
                            In pe (Pending_maintenance d) ->
                            pe_device_id pe <> index + 1).
Proof.
  intros Hm Hne Hacc (row & Hrow & Hnone). split; [|split; [|split]].
  - unfold get_upcoming_maintenance_devices. rewrite Hm, Hne.
    apply for_each_some_raise.
    destruct (iterrows_index _ _ Hrow) as [i Hi].
    exists (i, row), strptime_type_error.
    split; [exact Hi|]. destruct (Hacc row Hrow) as [p Hp].
    unfold upcoming_row. rewrite Hp, Hnone. reflexivity.
  - intros [Hw Hs]. apply mem_In in Hw. apply mem_In in Hs.
    unfold get_upcoming_maintenance_devices. rewrite Hm, Hne.
    apply for_each_first_raise.
    + intros [i r] Hir. apply iterrows_row in Hir.
      destruct (Hacc r Hir) as [p Hp]. unfold upcoming_row, getitem.
      rewrite Hp, Hw, Hs.
      cbn [bind]. destruct (Last_Maintenance_Date r) as [s|]; [|now right].
      left. destruct (next_maintenance s (clamp p)) as [[[? ?] ?]|]; [|eauto].
      destruct (_ && _); eauto.
    + destruct (iterrows_index _ _ Hrow) as [i Hi]. exists (i, row).
      split; [exact Hi|]. destruct (Hacc row Hrow) as [p Hp].
      unfold upcoming_row. rewrite Hp, Hnone. reflexivity.
  - unfold get_current_week_maintenance_devices. rewrite Hm, Hne.
    destruct (for_each_total
                (weekly_row (columns (loaded_training_df self)) m now)
                (iterrows (loaded_training_df self))) as [lw Hlw].
    { intros [i r] Hir. apply weekly_row_total. intros _.
      apply Hacc. now apply iterrows_row in Hir. }
    exists lw. split; [exact Hlw|]. split.
    + intros e He. apply (for_each_In _ _ _ Hlw) in He.
      destruct He as ([i r] & es & _ & Hb & Hes).
      destruct (weekly_row_shape _ _ _ _ _ Hb) as (_ & Hf).
      destruct (Hf e Hes) as (issue & parsed & p & _ & ->). discriminate.
    + intros index row0 e Hin Hblank He Hid.
      apply (for_each_In _ _ _ Hlw) in He.
      destruct He as ([i r] & es & Hir & Hb & Hes).
      pose proof (weekly_row_spec _ _ _ _ _ Hb) as [Hiff Hids].
      destruct (Hids e Hes) as [Hid' _].
      assert (i = index) by lia. subst i.
      pose proof (iterrows_functional _ _ _ _ Hir Hin). subst r.
      assert (Hweek : in_current_week now m row0) by (apply Hiff; eauto).
      destruct Hweek as (_ & p & parsed & _ & Hparsed & _).
      rewrite Hblank in Hparsed. cbn [str_cell] in Hparsed.
      rewrite nan_is_no_date in Hparsed. discriminate.
  - intros file Hfile.
    destruct (dashboard_insights_spec now self m file Hm Hne Hfile Hacc)
      as (d & pending & Hd & Hloop & Hpend & _).
    exists d. split; [exact Hd|].
    intros index row0 pe Hin Hblank Hpe Hid. rewrite Hpend in Hpe.
    assert (Hdue : is_due now m row0).
    { apply (pending_membership now m _ _ index row0 Hloop Hin). eauto. }
    destruct Hdue as (p & parsed & _ & Hparsed & _).
    rewrite Hblank in Hparsed. cbn [str_cell] in Hparsed.
    rewrite nan_is_no_date in Hparsed. discriminate.
Qed.

Lemma empty_date_cell_breaks_upcoming_only_witness :
  get_upcoming_maintenance_devices (mkDate 2023 6 1) blank_date_state =
    Raise strptime_type_error /\
  exists lw, get_current_week_maintenance_devices (mkDate 2023 6 1)
                                                  blank_date_state = Ok lw.
Proof.
  destruct (empty_date_cell_breaks_upcoming_only (mkDate 2023 6 1)
              blank_date_state (constant_regressor (300 # 1)%Q)
              eq_refl eq_refl) as (_ & Hup & (lw & Hlw & _) & _).
  - intros r _. exists (300 # 1)%Q. reflexivity.
  - exists blank_date_row. split; [simpl; tauto | reflexivity].
  - split; [apply Hup; split; simpl; tauto | exists lw; exact Hlw].
Defined.

(* ===================================================================== *)
(** * The entries of a room *)
(* ===================================================================== *)

Lemma drop_duplicates_from_Subseq {A K : Type} (keq : K -> K -> bool)
  (name : A -> K) (seen : list K) (l : list A) :
  Subseq (drop_duplicates_from keq name seen l) l.
Proof.
  revert seen. induction l as [|x t IH]; intros seen; simpl; [constructor|].
  destruct (existsb _ _); constructor; apply IH.
Qed.

Lemma Subseq_In {A : Type} (l m : list A) (x : A) :
  Subseq l m -> In x l -> In x m.
Proof.
  induction 1; simpl; [tauto | auto | intros [->|H']; auto].
Qed.

Lemma Subseq_sorted {A : Type} (R : A -> A -> Prop) (l m : list A) :
  Subseq l m -> StronglySorted R m -> StronglySorted R l.
Proof.
  induction 1 as [|x l m Hs IH|x l m Hs IH]; intros Hm.
  - constructor.
  - inversion Hm; auto.
  - inversion Hm as [|? ? Hm' Hall]; subst. constructor; [auto|].
    rewrite Forall_forall in *. intros y Hy. apply Hall.
    eapply Subseq_In; eauto.
Qed.

Lemma Forall2_sorted {A B : Type} (P : A -> B -> Prop) (R : A -> A -> Prop)
  (S : B -> B -> Prop) (l : list A) (r : list B) :
  (forall a a' b b', P a b -> P a' b' -> R a a' -> S b b') ->
  Forall2 P l r -> StronglySorted R l -> StronglySorted S r.
Proof.
  intros Hrel. induction 1 as [|a b l r Hab F IH]; intros Hs; [constructor|].
  inversion Hs as [|? ? Hs' Hall]; subst. constructor; [auto|].
  apply Forall_forall. intros b' Hb'.
  destruct (Forall2_In_r _ _ _ _ F Hb') as (a' & Ha' & Hab').
  rewrite Forall_forall in Hall. eauto.
Qed.

Lemma NoDup_map_coarser {A B C : Type} (f : A -> B) (g : A -> C) (l : list A) :
  (forall a b, In a l -> In b l -> g a = g b -> f a = f b) ->
  NoDup (map f l) -> NoDup (map g l).
Proof.
  induction l as [|x t IH]; simpl; intros Hfg Hn; [constructor|].
  inversion Hn as [|? ? Hx Ht]; subst. constructor.
  - intros Hin. apply in_map_iff in Hin. destruct Hin as (y & Hy & Hyin).
    apply Hx. rewrite (Hfg x y (or_introl eq_refl) (or_intror Hyin) (eq_sym Hy)).
    now apply in_map.
  - apply IH; auto.
Qed.

Lemma resolve_room_origin (df : DataFrame) (room : Z) (x : ParsedRow) :
  In x (resolve_room df room) ->
  In (pr_index x, pr_row x) (iterrows df) /\
  Room_Number (pr_row x) = room /\
  pr_parsed x = parse_date (Last_Maintenance_Date (pr_row x)).
Proof.
  unfold resolve_room. intros Hx. apply drop_duplicates_from_incl in Hx.
  apply (Permutation_in _ (sort_values_desc_perm _ _)) in Hx.
  now apply room_candidates.
Qed.

(** X12.  A list that [predict_for_room] returns is sorted newest first:
    no entry stands after one whose previous maintenance date is earlier,
    and entries without a date come last.  Every entry is of the room
    asked for, and no device id occurs twice. *)
Theorem room_entries_are_newest_first (now : date)
  (self : HotelMaintenanceModel) (room : Z) (l : list Entry) :
  predict_for_room now self room = Ok l ->
  StronglySorted not_older l /\
  (forall e, In e l -> room_no e = room) /\
  NoDup (map device_id l).
Proof.
  intros H. apply predict_for_room_inv in H.
  set (df := loaded_training_df self) in *.
  assert (Hs : StronglySorted (may_precede pr_parsed) (resolve_room df room)).
  { unfold resolve_room, drop_duplicates.
    eapply Subseq_sorted; [apply drop_duplicates_from_Subseq|].
    apply sort_values_desc_sorted. }
  split; [|split].
  - eapply Forall2_sorted; [|exact H|exact Hs].
    intros a a' b b' (_ & _ & _ & Hb & _) (_ & _ & _ & Hb' & _) Hr.
    unfold not_older, may_precede in *. rewrite Hb, Hb'.
    unfold key_gtb in Hr.
    destruct (pr_parsed a) as [da|], (pr_parsed a') as [db|];
      try exact I; try discriminate.
    apply Z.ltb_ge in Hr. exact Hr.
  - intros e He. destruct (Forall2_In_r _ _ _ _ H He) as (x & Hx & Hxe).
    destruct Hxe as (_ & Hroom & _). rewrite Hroom.
    apply (resolve_room_origin _ _ _ Hx).
  - assert (Hids : map device_id l =
                   map (fun x => pr_index x + 1) (resolve_room df room)).
    { symmetry. apply Forall2_map_eq.
      apply (Forall2_impl (R1 := room_entry_of)); [|exact H].
      intros x e Hx. symmetry. apply Hx. }
    rewrite Hids.
    apply (NoDup_map_coarser pr_type).
    + intros a b Ha Hb Hab.
      apply resolve_room_origin in Ha, Hb.
      destruct Ha as (Ha & _), Hb as (Hb & _).
      assert (E : pr_index a = pr_index b) by lia. rewrite E in Ha.
      unfold pr_type. now rewrite (iterrows_functional _ _ _ _ Ha Hb).
    + unfold resolve_room, drop_duplicates.
      apply (drop_duplicates_from_NoDup String.eqb String.eqb_eq).
Qed.

Lemma room_entries_are_newest_first_witness :
  exists l, predict_for_room (mkDate 2025 6 1) suite_state 2000 = Ok l /\
            StronglySorted not_older l /\
            map device_name l = ["Minibar"; "TV"; "Lamp"] /\
            map previous_maintenance_date l =
              [Some (mkDate 2024 3 4); Some (mkDate 2023 1 1); None].
Proof.
  eexists.
  assert (H : predict_for_room (mkDate 2025 6 1) suite_state 2000 =
              Ok (match predict_for_room (mkDate 2025 6 1) suite_state 2000 with
                  | Ok l => l
                  | Raise _ => []
                  end)) by (vm_compute; reflexivity).
  split; [exact H|].
  split; [exact (proj1 (room_entries_are_newest_first _ _ _ _ H))|].
  split; vm_compute; reflexivity.
Defined.

Lemma view_entry_warranty (now : date) (index : Z) (row : DeviceRecord)
  (issue : option string) (parsed : date) (p : Q) (f : Z) :
  let e := view_entry now index row issue parsed p f in
  (under_warranty e = "yes" <-> in_warranty now row) /\
  (under_warranty e = "yes" \/ under_warranty e = "no") /\
  warranty_year_till e = Warranty_Year row.
Proof.
  cbn. unfold in_warranty. destruct (Warranty_Year row) as [w|].
  - destruct (Z.leb_spec (year now) w); repeat split; auto; try discriminate.
    + eauto.
    + intros (w' & [= <-] & H'). lia.
  - repeat split; auto; try discriminate. intros (w' & E & _). discriminate.
Qed.

(** X13.  In the three list views the warranty flag is the text "yes"
    exactly when the warranty year of the entry's row is present and not
    before the current year, and the text "no" otherwise; the warranty
    year reported is the row's. *)
Theorem list_views_report_warranty (now : date)
  (self : HotelMaintenanceModel) (l : list Entry) :
  (exists room, predict_for_room now self room = Ok l) \/
  get_upcoming_maintenance_devices now self = Ok l \/
  get_current_week_maintenance_devices now self = Ok l ->
  forall e, In e l ->
    exists row,
      In (device_id e - 1, row) (iterrows (loaded_training_df self)) /\
      (under_warranty e = "yes" <-> in_warranty now row) /\
      (under_warranty e = "yes" \/ under_warranty e = "no") /\
      warranty_year_till e = Warranty_Year row.
Proof.
  intros [[room H] | [H | H]] e He.
  - unfold predict_for_room in H.
    destruct (hotel_model self) as [m|]; [|discriminate].
    destruct (df_empty (loaded_training_df self)); [discriminate|].
    destruct (room_devices (loaded_training_df self) room) as [|ir rest];
      [injection H as <-; destruct He|].
    apply (for_each_In _ _ _ H) in He.
    destruct He as (x & es & Hx & Hb & Hes).
    apply resolve_room_origin in Hx. destruct Hx as (Hx & _).
    destruct (room_entry_warranty _ _ _ _ _ Hb Hes) as (Hiff & Hor).
    destruct (room_entry_shape _ _ _ _ Hb) as (e' & -> & Hid & _).
    destruct Hes as [<-|[]].
    exists (pr_row x). replace (device_id e' - 1) with (pr_index x) by lia.
    split; [exact Hx|]. split; [exact Hiff|]. split; [exact Hor|].
    unfold room_entry in Hb. destruct (predict m (pr_row x)); [|discriminate].
    cbn [bind] in Hb. injection Hb as <-. reflexivity.
  - unfold get_upcoming_maintenance_devices in H.
    destruct (hotel_model self) as [m|]; [|discriminate].
    destruct (df_empty (loaded_training_df self)); [discriminate|].
    apply (for_each_In _ _ _ H) in He.
    destruct He as ([i r] & es & Hir & Hb & Hes).
    destruct (upcoming_row_spec _ _ _ _ _ Hb) as (_ & _ & Hf).
    destruct (Hf e Hes) as (issue & parsed & p & _ & -> & _).
    exists r. cbn [device_id view_entry].
    replace (i + 1 - 1) with i by lia. split; [exact Hir|].
    apply view_entry_warranty.
  - unfold get_current_week_maintenance_devices in H.
    destruct (hotel_model self) as [m|]; [|discriminate].
    destruct (df_empty (loaded_training_df self)); [discriminate|].
    apply (for_each_In _ _ _ H) in He.
    destruct He as ([i r] & es & Hir & Hb & Hes).
    destruct (weekly_row_shape _ _ _ _ _ Hb) as (_ & Hf).
    destruct (Hf e Hes) as (issue & parsed & p & _ & ->).
    exists r. cbn [device_id view_entry].
    replace (i + 1 - 1) with i by lia. split; [exact Hir|].
    apply view_entry_warranty.
Qed.

Lemma list_views_report_warranty_witness :
  exists l, predict_for_room (mkDate 2025 6 1) scenario_state 2000 = Ok l /\
            forall e, In e l ->
                      under_warranty e = "yes" \/ under_warranty e = "no".
Proof.
  eexists.
  assert (H : predict_for_room (mkDate 2025 6 1) scenario_state 2000 =
              Ok (match predict_for_room (mkDate 2025 6 1) scenario_state 2000 with
                  | Ok l => l
                  | Raise _ => []
                  end)) by (vm_compute; reflexivity).
  split; [exact H|]. intros e He.
  destruct (list_views_report_warranty (mkDate 2025 6 1) scenario_state _
              (or_introl (ex_intro _ 2000 H)) e He) as (row & _ & _ & Hor & _).
  exact Hor.
Defined.

(* ===================================================================== *)
(** * The details of one device *)
(* ===================================================================== *)

Lemma filter_head_first {A : Type} (f : Z * A -> bool) (l : list (Z * A))
  (x : Z * A) (rest : list (Z * A)) :
  StronglySorted (fun a b : Z * A => fst a < fst b) l ->
  filter f l = x :: rest ->
  In x l /\ f x = true /\ forall y, In y l -> f y = true -> fst x <= fst y.
Proof.
  induction 1 as [|a t Hs IH Ha]; simpl; [discriminate|].
  destruct (f a) eqn:Fa.
  - intros [= <- _]. split; [now left|]. split; [exact Fa|].
    intros y [<-|Hy] _; [lia|]. rewrite Forall_forall in Ha.
    specialize (Ha y Hy). lia.
  - intros Hf. destruct (IH Hf) as (Hin & Fx & Hmin).
    split; [now right|]. split; [exact Fx|].
    intros y [<-|Hy] Fy; [congruence | auto].
Qed.

Lemma device_match_spec (room : Z) (ty : string) (ir : Z * DeviceRecord) :
  (Room_Number (snd ir) =? room) && String.eqb (Appliance_Type (snd ir)) ty = true
  <-> Room_Number (snd ir) = room /\ Appliance_Type (snd ir) = ty.
Proof.
  now rewrite andb_true_iff, Z.eqb_eq, String.eqb_eq.
Qed.

(** what [get_device_details] goes through when it returns a device *)
Lemma get_device_details_inv (now : date) (self : HotelMaintenanceModel)
  (room : Z) (ty : string) (info : DeviceInfo) :
  get_device_details now self room ty = Ok (Some info) ->
  exists m index row p s,
    hotel_model self = Some m /\
    first_match (loaded_training_df self) room ty index row /\
    predict m row = Ok p /\
    Last_Maintenance_Date row = Some s /\
    di_room_no info = room /\
    di_device_id info = index + 1 /\
    di_device_name info = ty /\
    di_previous_maintenance_date info = try_formats date_formats s /\
    di_next_maintenance_date info =
      match try_formats date_formats s with
      | Some d => Some (dt_ord (add_days d (clamp p)))
      | None => None
      end.
Proof.
  unfold get_device_details.
  destruct (df_empty _); [discriminate|].
  destruct (hotel_model self) as [m|]; [|discriminate].
  destruct (filter _ _) as [|[index device] rest] eqn:F; [discriminate|].
  destruct (predict m device) as [p|] eqn:Hp; cbn [bind]; [|discriminate].
  destruct (Last_Maintenance_Date device) as [s|] eqn:Hs; [|discriminate].
  unfold getitem.
  destruct (mem "Warranty Year" _); cbn [bind]; [|discriminate].
  destruct (mem "Status" _); cbn [bind]; [|discriminate].
  intros [= <-].
  destruct (filter_head_first _ _ _ _ (iterrows_sorted _) F) as (Hin & Hf & Hmin).
  apply device_match_spec in Hf. cbn [snd] in Hf. destruct Hf as [Hroom Hty].
  exists m, index, device, p, s. cbn.
  split; [reflexivity|]. split.
  - split; [exact Hin|]. split; [exact Hroom|]. split; [exact Hty|].
    intros i' r' Hin' Hroom' Hty'.
    apply (Hmin (i', r') Hin'). apply device_match_spec. cbn [snd]. auto.
  - repeat split; auto.
Qed.

(** X14.  [get_device_details] answers from the first row of the dataset
    that has the room and the appliance type, whatever the dates of later
    rows: the device id is that row's index plus one, room and name are
    the ones asked for, the previous date is that row's parsed date, and
    the next date, when the date parses, is not before it. *)
Theorem device_details_use_first_matching_row (now : date)
  (self : HotelMaintenanceModel) (room : Z) (ty : string) (info : DeviceInfo) :
  get_device_details now self room ty = Ok (Some info) ->
  exists row s,
    first_match (loaded_training_df self) room ty (di_device_id info - 1) row /\
    Last_Maintenance_Date row = Some s /\
    di_room_no info = room /\
    di_device_name info = ty /\
    di_previous_maintenance_date info = parse_date (Some s) /\
    (forall d, di_previous_maintenance_date info = Some d ->
               exists n, di_next_maintenance_date info = Some n /\
                         toordinal d <= n) /\
    (di_previous_maintenance_date info = None ->
     di_next_maintenance_date info = None).
Proof.
  intros H. apply get_device_details_inv in H.
  destruct H as (m & index & row & p & s & _ & Hfirst & _ & Hs & Hroom & Hid
                 & Hname & Hprev & Hnext).
  exists row, s. replace (di_device_id info - 1) with index by lia.
  split; [exact Hfirst|]. split; [exact Hs|]. split; [exact Hroom|].
  split; [exact Hname|]. split; [exact Hprev|]. split.
  - intros d Hd. rewrite Hprev in Hd. rewrite Hd in Hnext.
    eexists. split; [exact Hnext|]. apply add_days_not_before.
  - intros Hd. rewrite Hprev in Hd. now rewrite Hd in Hnext.
Qed.

Lemma device_details_use_first_matching_row_witness :
  exists info,
    get_device_details (mkDate 2025 6 1) repeated_state 2000 "TV" =
      Ok (Some info) /\
    di_device_id info = 1 /\
    di_previous_maintenance_date info = Some (mkDate 2022 6 15).
Proof.
  eexists.
  assert (H : get_device_details (mkDate 2025 6 1) repeated_state 2000 "TV" =
              Ok (Some (match get_device_details (mkDate 2025 6 1)
                                repeated_state 2000 "TV" with
                        | Ok (Some info) => info
                        | _ => mkInfo 0 0 EmptyString EmptyString None
                                      EmptyString None None None
                        end))) by (vm_compute; reflexivity).
  split; [exact H|].
  destruct (device_details_use_first_matching_row _ _ _ _ _ H)
    as (row & s & _ & _ & _ & _ & _ & _ & _).
  split; reflexivity.
Defined.

(** X15.  [get_device_details] and [predict_for_room] part ways on a
    device whose first row has an empty date cell: with a model that
    predicts on every row, the former raises a [TypeError], while the
    latter returns its list, reporting a device without a parsed date
    with no next maintenance date. *)
Theorem empty_date_cell_breaks_device_details (now : date)
  (self : HotelMaintenanceModel) (m : Regressor) (room : Z) (ty : string)
  (index : Z) (row : DeviceRecord) :
  hotel_model self = Some m ->
  df_empty (loaded_training_df self) = false ->
  accepts m (loaded_training_df self) ->
  first_match (loaded_training_df self) room ty index row ->
  Last_Maintenance_Date row = None ->
  get_device_details now self room ty = Raise strptime_type_error /\
  exists l, predict_for_room now self room = Ok l /\
            l <> [] /\
            forall e, In e l -> previous_maintenance_date e = None ->
                      next_maintenance_date e = None.
Proof.
  intros Hm Hne Hacc (Hin & Hroom & Hty & Hmin) Hnone. split.
  - unfold get_device_details. rewrite Hne, Hm.
    destruct (filter _ _) as [|[i r] rest] eqn:F.
    + assert (Hf : In (index, row)
                      (filter (fun ir => (Room_Number (snd ir) =? room) &&
                                         String.eqb (Appliance_Type (snd ir)) ty)
                              (iterrows (loaded_training_df self)))).
      { apply filter_In. split; [exact Hin|]. apply device_match_spec. auto. }
      rewrite F in Hf. destruct Hf.
    + destruct (filter_head_first _ _ _ _ (iterrows_sorted _) F)
        as (Hir & Hf & Hfirst).
      apply device_match_spec in Hf. cbn [snd] in Hf. destruct Hf as [Hr Ht].
      assert (Hle1 : i <= index).
      { apply (Hfirst (index, row) Hin). apply device_match_spec. auto. }
      assert (Hle2 : index <= i) by (apply (Hmin i r Hir Hr Ht)).
      assert (i = index) by lia. subst i.
      pose proof (iterrows_functional _ _ _ _ Hir Hin). subst r.
      destruct (Hacc row (iterrows_row _ _ _ Hin)) as [p Hp].
      rewrite Hp. cbn [bind]. now rewrite Hnone.
  - destruct (predict_for_room_total now self m room Hm Hne Hacc) as [l Hl].
    exists l. split; [exact Hl|]. split.
    + intros ->. unfold predict_for_room in Hl. rewrite Hm, Hne in Hl.
      assert (Hf : In (index, row) (room_devices (loaded_training_df self) room)).
      { apply filter_In. split; [exact Hin|]. cbn [snd]. now apply Z.eqb_eq. }
      destruct (room_devices (loaded_training_df self) room) as [|ir rest] eqn:R;
        [destruct Hf|].
      assert (Hx : In ((index, row), parse_date (Last_Maintenance_Date row))
                      (map (fun ir => (ir, parse_date (Last_Maintenance_Date (snd ir))))
                           (room_devices (loaded_training_df self) room))).
      { rewrite R. apply (in_map (fun ir => (ir, parse_date (Last_Maintenance_Date (snd ir))))).
        exact Hf. }
      pose proof (newest_per_name pr_parsed pr_type
                    (map (fun ir => (ir, parse_date (Last_Maintenance_Date (snd ir))))
                         (room_devices (loaded_training_df self) room)))
        as (_ & Hnames & _).
      apply (in_map pr_type) in Hx. apply Hnames in Hx.
      change (drop_duplicates String.eqb pr_type
                (sort_values_desc pr_parsed
                   (map (fun ir => (ir, parse_date (Last_Maintenance_Date (snd ir))))
                        (room_devices (loaded_training_df self) room))))
        with (resolve_room (loaded_training_df self) room) in Hx.
      destruct (resolve_room (loaded_training_df self) room) as [|x xs];
        [destruct Hx|].
      cbn [for_each] in Hl.
      destruct (room_entry_shape m now x) with (es := match room_entry m now x with Ok es => es | Raise _ => [] end) as (e & He & _).
      { destruct (room_entry m now x); [reflexivity | discriminate]. }
      destruct (room_entry m now x) as [es|]; [|discriminate]. subst es.
      cbn [bind] in Hl. destruct (for_each _ xs); discriminate.
    + intros e He Hprev. unfold predict_for_room in Hl. rewrite Hm, Hne in Hl.
      destruct (room_devices (loaded_training_df self) room) as [|ir rest];
        [injection Hl as <-; destruct He|].
      apply (for_each_In _ _ _ Hl) in He.
      destruct He as (x & es & _ & Hb & Hes).
      unfold room_entry in Hb. destruct (predict m (pr_row x)); [|discriminate].
      cbn [bind] in Hb. injection Hb as <-. destruct Hes as [<-|[]].
      cbn in *. now rewrite Hprev.
Qed.

Lemma empty_date_cell_breaks_device_details_witness :
  get_device_details (mkDate 2025 6 1) blank_date_state 2001 "Kettle" =
    Raise strptime_type_error /\
  exists l, predict_for_room (mkDate 2025 6 1) blank_date_state 2001 = Ok l /\
            l <> [].
Proof.
  destruct (empty_date_cell_breaks_device_details (mkDate 2025 6 1)
              blank_date_state (constant_regressor (300 # 1)%Q) 2001 "Kettle"
              1 blank_date_row eq_refl eq_refl) as (Hd & l & Hl & Hne & _).
  - intros r _. exists (300 # 1)%Q. reflexivity.
  - split; [simpl; tauto|]. split; [reflexivity|]. split; [reflexivity|].
    intros i r [[= <- <-]|[[= <- <-]|[]]]; simpl; intros; try lia; discriminate.
  - reflexivity.
  - split; [exact Hd|]. exists l. auto.
Defined.

(* ===================================================================== *)
(** * Dates the program prints are dates it reads *)
(* ===================================================================== *)

Ltac digit_cases k :=
  let H := fresh in
  assert (H : k = 0 \/ k = 1 \/ k = 2 \/ k = 3 \/ k = 4 \/ k = 5 \/
              k = 6 \/ k = 7 \/ k = 8 \/ k = 9) by lia;
  repeat (destruct H as [H|H]; [subst k|]); [..|subst k].

Lemma digit_char_digit (k : Z) : 0 <= k <= 9 -> digit (digit_char k) = true.
Proof. intros H. digit_cases k; reflexivity. Qed.

Lemma digit_char_value (k : Z) :
  0 <= k <= 9 -> digit_value (digit_char k) = k.
Proof. intros H. digit_cases k; reflexivity. Qed.

(** a text that starts with three digits is no month/day/year text *)
Lemma month_first_rejects_digits (ts : list token) (g : groups)
  (a b c : Z) (rest : string) :
  0 <= a <= 9 -> 0 <= b <= 9 -> 0 <= c <= 9 ->
  match_tokens (Field Dm :: Lit "/" :: ts) g
    (String (digit_char a) (String (digit_char b) (String (digit_char c) rest)))
  = [].
Proof.
  intros Ha Hb Hc. digit_cases a; digit_cases b; digit_cases c; reflexivity.
Qed.

Lemma year_group_step (ts : list token) (g : groups) (a b c e : Z)
  (rest : string) :
  0 <= a <= 9 -> 0 <= b <= 9 -> 0 <= c <= 9 -> 0 <= e <= 9 ->
  match_tokens (Field DY :: ts) g
    (String (digit_char a) (String (digit_char b)
       (String (digit_char c) (String (digit_char e) rest)))) =
  match_tokens ts
    (set_group DY (String (digit_char a) (String (digit_char b)
                     (String (digit_char c) (String (digit_char e) EmptyString)))) g)
    rest.
Proof.
  intros Ha Hb Hc He.
  cbn [match_tokens match_token regex_of flat_map match_classes].
  rewrite !digit_char_digit by assumption.
  cbn [flat_map app fst snd]. now rewrite app_nil_r.
Qed.

Lemma int_four_digits (a b c e : Z) :
  0 <= a <= 9 -> 0 <= b <= 9 -> 0 <= c <= 9 -> 0 <= e <= 9 ->
  int (String (digit_char a) (String (digit_char b)
         (String (digit_char c) (String (digit_char e) EmptyString)))) =
  1000 * a + 100 * b + 10 * c + e.
Proof.
  intros Ha Hb Hc He. unfold int. cbn [int_digits].
  rewrite !digit_char_digit, !digit_char_value by assumption. lia.
Qed.

Ltac day_cases n :=
  let H := fresh in
  assert (H : n = 1 \/ n = 2 \/ n = 3 \/ n = 4 \/ n = 5 \/ n = 6 \/ n = 7 \/
              n = 8 \/ n = 9 \/ n = 10 \/ n = 11 \/ n = 12 \/ n = 13 \/
              n = 14 \/ n = 15 \/ n = 16 \/ n = 17 \/ n = 18 \/ n = 19 \/
              n = 20 \/ n = 21 \/ n = 22 \/ n = 23 \/ n = 24 \/ n = 25 \/
              n = 26 \/ n = 27 \/ n = 28 \/ n = 29 \/ n = 30 \/ n = 31) by lia;
  repeat (destruct H as [H|H]; [subst n|]); [..|subst n].

(** the month and day part of an ISO text is read as it was written *)
Lemma month_day_tail_step (g : groups) (m dd : Z) :
  1 <= m <= 12 -> 1 <= dd <= 31 ->
  exists g' tl,
    match_tokens [Lit "-"; Field Dm; Lit "-"; Field Dd] g
      (String "-" (pad2 m ++ String "-" (pad2 dd))) = (g', EmptyString) :: tl /\
    g_Y g' = g_Y g /\ g_y g' = g_y g /\ month_of g' = m /\ day_of g' = dd.
Proof.
  intros Hm Hd. month_cases m; day_cases dd;
    (eexists; eexists; split; [vm_compute; reflexivity|];
     repeat split; reflexivity).
Qed.

Lemma strftime_iso_unfold (d : date) :
  strftime_iso d =
  String (digit_char (year d / 1000))
    (String (digit_char (year d / 100 mod 10))
       (String (digit_char (year d / 10 mod 10))
          (String (digit_char (year d mod 10))
             (String "-" (pad2 (month d) ++ String "-" (pad2 (day d))))))).
Proof. reflexivity. Qed.

(** what the three first formats make of a printed date *)
Lemma iso_text_formats (d : date) :
  valid_date d = true ->
  1000 <= year d ->
  strptime (strftime_iso d) "%m/%d/%Y" = None /\
  strptime (strftime_iso d) "%m/%d/%y" = None /\
  strptime (strftime_iso d) "%Y-%m-%d" = Some d.
Proof.
  intros V Hy. pose proof (valid_date_bounds d V) as (Hyear & Hmonth & Hday).
  assert (Hday' : 1 <= day d <= 31).
  { split; [lia|]. destruct Hday as [_ Hday]. unfold days_in_month in Hday.
    repeat match type of Hday with
           | context [if ?b then _ else _] => destruct b
           end; lia. }
  assert (Ha : 0 <= year d / 1000 <= 9) by (Z.div_mod_to_equations; lia).
  assert (Hb : 0 <= year d / 100 mod 10 <= 9) by (Z.div_mod_to_equations; lia).
  assert (Hc : 0 <= year d / 10 mod 10 <= 9) by (Z.div_mod_to_equations; lia).
  assert (He : 0 <= year d mod 10 <= 9) by (Z.div_mod_to_equations; lia).
  assert (H1 : strptime (strftime_iso d) "%m/%d/%Y" = None).
  { unfold strptime.
    change (pattern "%m/%d/%Y")
      with (Some [Field Dm; Lit "/"; Field Dd; Lit "/"; Field DY]).
    rewrite strftime_iso_unfold.
    now rewrite month_first_rejects_digits. }
  assert (H2 : strptime (strftime_iso d) "%m/%d/%y" = None).
  { unfold strptime.
    change (pattern "%m/%d/%y")
      with (Some [Field Dm; Lit "/"; Field Dd; Lit "/"; Field Dy]).
    rewrite strftime_iso_unfold.
    now rewrite month_first_rejects_digits. }
  assert (H3 : strptime (strftime_iso d) "%Y-%m-%d" = Some d).
  { unfold strptime.
    change (pattern "%Y-%m-%d")
      with (Some [Field DY; Lit "-"; Field Dm; Lit "-"; Field Dd]).
    rewrite strftime_iso_unfold, year_group_step by assumption.
    destruct (month_day_tail_step
                (set_group DY
                   (String (digit_char (year d / 1000))
                      (String (digit_char (year d / 100 mod 10))
                         (String (digit_char (year d / 10 mod 10))
                            (String (digit_char (year d mod 10)) EmptyString))))
                   no_groups)
                (month d) (day d) Hmonth Hday')
      as (g' & tl & -> & HY & _ & Hm' & Hd').
    assert (Hyr : year_of g' = year d).
    { unfold year_of. rewrite HY. cbn [set_group g_Y no_groups].
      rewrite int_four_digits by assumption.
      Z.div_mod_to_equations. lia. }
    rewrite Hyr, Hm', Hd'. destruct d as [y m dd]. cbn [year month day] in *.
    now rewrite V. }
  auto.
Qed.

(** X16.  The dates the program prints are dates it reads back unchanged:
    for every calendar date with a four-digit year, the text
    [strftime('%Y-%m-%d')] produces is parsed by the date loop to that same
    date; neither month-first format takes it. *)
Theorem printed_date_parses_back (d : date) :
  valid_date d = true ->
  1000 <= year d ->
  parse_date (Some (strftime_iso d)) = Some d /\
  strptime (strftime_iso d) "%m/%d/%Y" = None /\
  strptime (strftime_iso d) "%m/%d/%y" = None /\
  strptime (strftime_iso d) "%Y-%m-%d" = Some d.
Proof.
  intros V Hy. destruct (iso_text_formats d V Hy) as (H1 & H2 & H3).
  split; [|auto].
  cbn [parse_date]. unfold date_formats. cbn [try_formats].
  now rewrite H1, H2, H3.
Qed.

Lemma printed_date_parses_back_witness :
  parse_date (Some "2024-02-29") = Some (mkDate 2024 2 29).
Proof.
  exact (proj1 (printed_date_parses_back (mkDate 2024 2 29) eq_refl
                  ltac:(simpl; lia))).
Defined.

(* ===================================================================== *)
(** * Assets outside the rooms *)
(* ===================================================================== *)

Lemma forallb_mem_false (schema cols : list string) :
  forallb (fun col => mem col cols) schema = false <->
  exists col, In col schema /\ ~ In col cols.
Proof.
  split.
  - intros H. induction schema as [|c cs IH]; simpl in H; [discriminate|].
    destruct (mem c cols) eqn:E.
    + destruct (IH H) as (col & Hin & Hn). exists col. split; auto. now right.
    + exists c. split; [now left|]. rewrite <- mem_In. congruence.
  - intros (col & Hin & Hn).
    destruct (forallb _ schema) eqn:E; auto.
    rewrite forallb_forall in E. apply E in Hin. now apply mem_In in Hin.
Qed.

(** X17.  [load_non_room_data] on a file that loads.  If the file lacks
    required columns it raises a [ValueError], not wrapped, whose message
    ends with exactly the missing columns in schema order.  Otherwise it
    returns one entry for each row that has some cell filled, in file
    order, and nothing for a row that is empty throughout. *)
Theorem non_room_rows_are_reported_or_columns_named (df : NonRoomFrame) :
  ((exists col, In col non_room_required_cols /\ ~ In col (nr_columns df)) ->
   exists names,
     load_non_room_data (Stored df) =
       Raise (ValueError ("Missing required columns in 'non-room-hotel.csv': "
                          ++ join ", " names)) /\
     Subseq names non_room_required_cols /\
     (forall col, In col names <->
                  In col non_room_required_cols /\ ~ In col (nr_columns df))) /\
  ((forall col, In col non_room_required_cols -> In col (nr_columns df)) ->
   exists l,
     load_non_room_data (Stored df) = Ok l /\
     (List.length l <= List.length (nr_rows df))%nat /\
     Subseq l (map non_room_entry (nr_rows df)) /\
     (forall e, In e l <->
                exists row, In row (nr_rows df) /\ all_missing row = false /\
                            e = non_room_entry row)).
Proof.
  split.
  - intros Hlack. apply forallb_mem_false in Hlack.
    unfold load_non_room_data. rewrite Hlack. cbn [negb non_room_except].
    eexists. split; [reflexivity|]. split; [apply filter_Subseq|].
    intros col. rewrite filter_In, negb_true_iff.
    pose proof (mem_In col (nr_columns df)) as M.
    destruct (mem col (nr_columns df)).
    + split; [intros [_ H]; discriminate H | intros [_ H]; elim H; now apply M].
    + split; intros [H _]; (split; [exact H|]); auto.
      intros Hin. apply M in Hin. discriminate Hin.
  - intros Hall.
    assert (Hf : forallb (fun col => mem col (nr_columns df))
                         non_room_required_cols = true).
    { apply forallb_forall. intros col Hcol. apply mem_In. auto. }
    unfold load_non_room_data. rewrite Hf. cbn [negb].
    eexists. split; [reflexivity|]. split; [|split].
    + rewrite length_map. apply filter_length_le.
    + induction (nr_rows df) as [|r t IH]; simpl; [constructor|].
      destruct (all_missing r); simpl; now constructor.
    + intros e. rewrite in_map_iff. split.
      * intros (row & <- & Hrow). apply filter_In in Hrow.
        destruct Hrow as [Hin Hb]. apply negb_true_iff in Hb. eauto.
      * intros (row & Hin & Hb & ->). exists row. split; [reflexivity|].
        apply filter_In. split; [exact Hin|]. now rewrite Hb.
Qed.

Lemma non_room_rows_are_reported_or_columns_named_witness :
  load_non_room_data (Stored non_room_frame_without_id) =
    Raise (ValueError
             "Missing required columns in 'non-room-hotel.csv': DeviceID") /\
  exists l, load_non_room_data (Stored non_room_frame) = Ok l /\
            (List.length l <= 2)%nat.
Proof.
  destruct (non_room_rows_are_reported_or_columns_named non_room_frame_without_id)
    as [Hmiss _].
  destruct (non_room_rows_are_reported_or_columns_named non_room_frame)
    as [_ Hok].
  split.
  - destruct Hmiss as (names & Hr & _).
    + exists "DeviceID". split; [simpl; tauto | simpl; intuition discriminate].
    + reflexivity.
  - destruct Hok as (l & Hl & Hlen & _).
    + intros col Hcol. exact Hcol.
    + exists l. split; [exact Hl | exact Hlen].
Defined.

(* ===================================================================== *)
(** * Routes *)
(* ===================================================================== *)

Lemma list_route_status {A : Type} (found none failed : string)
  (r : result (list A)) :
  match r with
  | Ok items =>
      exists msg, Routes.list_route found none failed r =
                  Reply 200 (Routes.mkListBody msg items true)
  | Raise (RuntimeError msg) =>
      Routes.list_route found none failed r =
      Reply 400 (Routes.mkListBody msg [] false)
  | Raise e =>
      Routes.list_route found none failed r =
      Reply 500 (Routes.mkListBody (failed ++ str_exn e) [] false)
  end.
Proof.
  destruct r as [[|x t]|[]]; cbn; eauto.
Qed.

(** X18.  The non-room endpoint answers 200 or 500, never 400: it answers
    200 with the loader's list and [success: true] when the file loads
    with all its columns, and 500 with [success: false] when the file is
    absent, unreadable or lacks a required column. *)
Theorem non_room_endpoint_answers_200_or_500 (file : FileLoad NonRoomFrame) :
  (exists body, Routes.non_room_data file = Reply 200 body /\
                Routes.lb_success body = true /\
                load_non_room_data file = Ok (Routes.lb_items body)) \/
  (exists body e, Routes.non_room_data file = Reply 500 body /\
                  Routes.lb_success body = false /\
                  Routes.lb_items body = [] /\
                  load_non_room_data file = Raise e).
Proof.
  unfold Routes.non_room_data.
  pose proof (list_route_status
                "Successfully retrieved devices for non room maintenance."
                "No devices found for non room maintenance."
                "Failed to retrieve non room maintenance devices: "
                (load_non_room_data file)) as H.
  destruct (load_non_room_data file) as [items|e] eqn:E.
  - left. destruct H as [msg ->]. eexists. split; [reflexivity|]. auto.
  - right.
    assert (Hnot : forall msg, e <> RuntimeError msg).
    { intros msg ->. unfold load_non_room_data in E.
      destruct file as [| e0 | df]; [discriminate| |].
      - destruct e0; discriminate.
      - destruct (negb _); discriminate. }
    destruct e; try (rewrite H; eexists; eexists; split; [reflexivity|]; auto).
    elim (Hnot msg). reflexivity.
Qed.

(** X19.  The dashboard endpoint.  It answers 400 exactly when the model
    is missing or the dataset is empty, and 200 exactly when the model
    returns statistics, which it then passes on with the name of the
    selected file.  On an object with a model and a dataset on which no
    hotel was ever selected it answers 500. *)
Theorem dashboard_endpoint_status
  (fit : list DeviceRecord -> Fit)
  (score : Regressor -> list DeviceRecord -> result Metrics)
  (now : date) (self : HotelMaintenanceModel) :
  (status_of (Routes.get_dashboard_data now self) = Some 400 <->
   hotel_model self = None \/ df_empty (loaded_training_df self) = true) /\
  (forall body, Routes.get_dashboard_data now self = Reply 200 body <->
                exists d, get_dashboard_insights now self = Ok (Insights d) /\
                          body = Routes.DashboardOk d (loaded_data_file d)) /\
  (forall d file, Routes.get_dashboard_data now self =
                    Reply 200 (Routes.DashboardOk d file) ->
                  loaded_file_path self = Some file) /\
  (never_selected fit score self ->
   hotel_model self <> None ->
   df_empty (loaded_training_df self) = false ->
   status_of (Routes.get_dashboard_data now self) = Some 500).
Proof.
  split; [|split; [|split]].
  - unfold Routes.get_dashboard_data, get_dashboard_insights.
    destruct (hotel_model self) as [m|]; [|cbn; split; auto].
    destruct (df_empty (loaded_training_df self)); [cbn; split; auto|].
    destruct (for_each _ _); cbn [bind];
      [destruct (loaded_file_path self)|];
      cbn; (split; [discriminate | intros [H|H]; discriminate]).
  - intros body. unfold Routes.get_dashboard_data.
    destruct (get_dashboard_insights now self) as [[msg|d]|e]; split;
      try discriminate.
    + intros (d & [=] & _).
    + intros [= <-]. eauto.
    + intros (d' & [= <-] & ->). reflexivity.
    + intros (d & [=] & _).
  - intros d file H. unfold Routes.get_dashboard_data in H.
    destruct (get_dashboard_insights now self) as [[msg|d']|e] eqn:E;
      try discriminate.
    injection H as <- <-.
    apply dashboard_insights_fields in E.
    destruct E as (m & _ & _ & _ & _ & _ & _ & _ & _ & Hp). exact Hp.
  - intros Hns Hm Hne. apply never_selected_no_path in Hns.
    unfold Routes.get_dashboard_data, get_dashboard_insights.
    destruct (hotel_model self) as [m|]; [|congruence].
    rewrite Hne, Hns. destruct (for_each _ _); reflexivity.
Qed.

(** X20.  The hotel selection endpoint.  A registered hotel whose file
    lacks required columns is answered with 500, not with the 400 the
    route keeps for a [ValueError]; an unregistered name and an absent
    file are answered with 400; a request without a hotel name with 400.
    The object changes only with a 200, and then its dataset is the
    hotel's file. *)
Theorem hotel_endpoint_status (disk : Disk) (self : HotelMaintenanceModel)
  (given : string) :
  (forall path df,
      lookup (lower given) HOTEL_CSV_FILES = Some path ->
      csv_file disk path = Stored df ->
      lacks_column hotel_required_cols df ->
      exists body,
        Routes.choose_hotel_data (Routes.HotelText given) disk self =
          (self, Reply 500 body)) /\
  (lookup (lower given) HOTEL_CSV_FILES = None ->
   exists body,
     Routes.choose_hotel_data (Routes.HotelText given) disk self =
       (self, Reply 400 body)) /\
  (forall path,
      lookup (lower given) HOTEL_CSV_FILES = Some path ->
      csv_file disk path = Absent ->
      exists body,
        Routes.choose_hotel_data (Routes.HotelText given) disk self =
          (self, Reply 400 body)) /\
  (forall field self' r,
      Routes.choose_hotel_data field disk self = (self', r) ->
      status_of r <> Some 200 -> self' = self) /\
  (forall self' body,
      Routes.choose_hotel_data (Routes.HotelText given) disk self =
        (self', Reply 200 body) ->
      exists path,
        lookup (lower given) HOTEL_CSV_FILES = Some path /\
        csv_file disk path = Stored (loaded_training_df self') /\
        hotel_model self' = hotel_model self /\
        loaded_file_path self' = Some (basename path)) /\
  Routes.choose_hotel_data Routes.NoHotelField disk self =
    (self, Reply 400 (Routes.HotelMessage
                        "Invalid JSON input. 'hotel_name' is required.")).
Proof.
  split; [|split; [|split; [|split; [|split]]]].
  - intros path df Hname Hfile Hlack. apply all_present_false in Hlack.
    unfold Routes.choose_hotel_data, load_hotel_data.
    rewrite lower_idem, Hname, Hfile, Hlack. cbn. eauto.
  - intros Hname. unfold Routes.choose_hotel_data, load_hotel_data.
    rewrite lower_idem, Hname. cbn. eauto.
  - intros path Hname Hfile. unfold Routes.choose_hotel_data, load_hotel_data.
    rewrite lower_idem, Hname, Hfile. cbn. eauto.
  - intros field self' r H Hs. unfold Routes.choose_hotel_data in H.
    destruct field as [|name|]; try (injection H as <- <-; reflexivity).
    destruct (load_hotel_data (lower name) disk self) as [s' [[[n w] p]|e]] eqn:E.
    + injection H as <- <-. elim Hs. reflexivity.
    + assert (s' = self).
      { pose proof (load_hotel_data_refused (lower name) disk self e) as R.
        rewrite E in R. apply R. reflexivity. }
      destruct e; injection H as <- _; assumption.
  - intros self' body H. unfold Routes.choose_hotel_data in H.
    destruct (load_hotel_data (lower given) disk self) as [s' [[[n w] p]|e]] eqn:E.
    + injection H as <- _.
      apply load_hotel_data_success in E. rewrite lower_idem in E.
      destruct E as (Hname & df & Hfile & _ & -> & _).
      exists p. cbn. auto.
    + destruct e; discriminate.
  - reflexivity.
Qed.

Lemma hotel_endpoint_status_witness :
  exists body,
    Routes.choose_hotel_data (Routes.HotelText "FairField") hotel_disk
                             trained_state = (trained_state, Reply 500 body).
Proof.
  destruct (hotel_endpoint_status hotel_disk trained_state "FairField")
    as (H500 & _).
  apply (H500 "FairField.csv" frame_without_usage eq_refl eq_refl).
  exists "Usage Hours". split; [simpl; tauto | simpl; intuition discriminate].
Defined.

(** X21.  The device endpoint.  Without both parameters it answers 400.
    With a model and a dataset in place it answers 404 exactly when no row
    has the room and the appliance type, and a 200 carries the details of
    the first such row. *)
Theorem device_endpoint_status (now : date) (self : HotelMaintenanceModel)
  (m : Regressor) (room : Z) (ty : string) :
  hotel_model self = Some m ->
  df_empty (loaded_training_df self) = false ->
  (status_of (Routes.get_device_info now self (Some room) (Some ty)) = Some 404
   <-> forall row, In row (rows (loaded_training_df self)) ->
                   Room_Number row = room -> Appliance_Type row <> ty) /\
  (forall body,
      Routes.get_device_info now self (Some room) (Some ty) = Reply 200 body ->
      exists info row,
        body = Routes.InfoFound info /\
        first_match (loaded_training_df self) room ty (di_device_id info - 1) row) /\
  status_of (Routes.get_device_info now self None (Some ty)) = Some 400 /\
  status_of (Routes.get_device_info now self (Some room) None) = Some 400.
Proof.
  intros Hm Hne. split; [|split; [|split; reflexivity]].
  - unfold Routes.get_device_info, get_device_details. rewrite Hne, Hm.
    destruct (filter _ _) as [|[i r] rest] eqn:F.
    + cbn. split; [intros _|reflexivity].
      intros row Hrow Hroom Hty. destruct (iterrows_index _ _ Hrow) as [i Hi].
      assert (Hf : In (i, row)
                      (filter (fun ir => (Room_Number (snd ir) =? room) &&
                                         String.eqb (Appliance_Type (snd ir)) ty)
                              (iterrows (loaded_training_df self)))).
      { apply filter_In. split; [exact Hi|]. apply device_match_spec. auto. }
      rewrite F in Hf. destruct Hf.
    + assert (Hf : In (i, r) ((i, r) :: rest)) by now left.
      rewrite <- F in Hf. apply filter_In in Hf. destruct Hf as [Hir Hmatch].
      apply device_match_spec in Hmatch. cbn [snd] in Hmatch.
      destruct Hmatch as [Hroom Hty]. split.
      * intros Hs. exfalso.
        destruct (predict m r) as [p|e]; cbn [bind] in Hs.
        -- destruct (Last_Maintenance_Date r); [|cbn in Hs; discriminate].
           unfold getitem in Hs.
           destruct (mem "Warranty Year" _); cbn [bind] in Hs;
             [|cbn in Hs; discriminate].
           destruct (mem "Status" _); cbn in Hs; discriminate.
        -- destruct e; cbn in Hs; discriminate.
      * intros Hnone. elim (Hnone r (iterrows_row _ _ _ Hir) Hroom Hty).
  - intros body H. unfold Routes.get_device_info in H.
    destruct (get_device_details now self room ty) as [[info|]|e] eqn:E.
    + injection H as <-. exists info.
      apply get_device_details_inv in E.
      destruct E as (m' & index & row & p & s & _ & Hfirst & _ & _ & _ & Hid & _).
      exists row. split; [reflexivity|].
      now replace (di_device_id info - 1) with index by lia.
    + discriminate.
    + destruct e; discriminate.
Qed.

Lemma device_endpoint_status_witness :
  status_of (Routes.get_device_info (mkDate 2025 6 1) scenario_state
                                    (Some 2000) (Some "Minibar")) = Some 404.
Proof.
  apply (proj1 (device_endpoint_status (mkDate 2025 6 1) scenario_state
                  (constant_regressor (300 # 1)%Q) 2000 "Minibar"
                  eq_refl eq_refl)).
  intros row [<-|[]] _. discriminate.
Defined.

Lemma for_each_raise_origin {A B : Type} (body : A -> result (list B))
  (l : list A) (e : exn) :
  for_each body l = Raise e -> exists x, In x l /\ body x = Raise e.
Proof.
  induction l as [|a t IH]; cbn [for_each]; [discriminate|].
  destruct (body a) as [ys|e'] eqn:Ea; cbn [bind].
  - destruct (for_each body t) as [rest|e'']; cbn [bind]; [discriminate|].
    intros [= <-]. destruct (IH eq_refl) as (x & Hx & Hb).
    exists x. split; [now right | exact Hb].
  - intros [= <-]. exists a. split; [now left | exact Ea].
Qed.

(** what the body of the upcoming view raises on a row the model accepts *)
Lemma upcoming_row_raises (cols : list string) (m : Regressor) (now : date)
  (index : Z) (row : DeviceRecord) (e : exn) :
  (exists p, predict m row = Ok p) ->
  upcoming_row cols m now (index, row) = Raise e ->
  (e = strptime_type_error /\ Last_Maintenance_Date row = None) \/
  (exists k, e = KeyError k /\ ~ In k cols /\ is_upcoming now m row).
Proof.
  intros [p Hp]. unfold upcoming_row. rewrite Hp. cbn [bind].
  destruct (Last_Maintenance_Date row) as [s|] eqn:Hs;
    [|intros [= <-]; left; auto].
  destruct (next_maintenance s (clamp p)) as [[[parsed f] t]|] eqn:N;
    [|discriminate].
  apply next_maintenance_spec in N. destruct N as (Hd & -> & ->).
  rewrite six_months_ord. unfold today_of.
  rewrite dt_ltb_midnight, dt_leb_midnight. cbn [dt_ord datetime_of_date].
  destruct (Z.ltb_spec (toordinal now) (dt_ord (add_days parsed (clamp p))));
    [|discriminate].
  destruct (Z.leb_spec (dt_ord (add_days parsed (clamp p)))
                       (toordinal now + 182)); cbn [andb]; [|discriminate].
  assert (Hup : is_upcoming now m row).
  { exists p, s, parsed. auto. }
  unfold getitem.
  destruct (mem "Warranty Year" cols) eqn:Hw; cbn [bind].
  - destruct (mem "Status" cols) eqn:Hst; cbn [bind]; [discriminate|].
    intros [= <-]. right. exists "Status". split; [reflexivity|].
    split; [|exact Hup]. rewrite <- mem_In. congruence.
  - intros [= <-]. right. exists "Warranty Year". split; [reflexivity|].
    split; [|exact Hup]. rewrite <- mem_In. congruence.
Qed.

(** X22.  The three list endpoints.  Without a model or without rows each
    answers 400 with the model's message.  With both, and a model that
    predicts on every row, the room search and the weekly list always
    answer 200 with what the model returned.  The upcoming list answers
    200 when the dataset has the [Warranty Year] and [Status] columns and
    every row has a date cell; it answers 500 as soon as one row has no
    date cell, and also when one of the two columns is absent and some
    row is due within the window.  A request whose room is missing or is
    no number is answered 400, and one whose room is a float that is NaN
    or infinite 500. *)
Theorem list_endpoints_status (now : date) (self : HotelMaintenanceModel) :
  (unloaded self ->
   (forall room text,
       Routes.predict_maintenance now self (Routes.RoomNumber room text) =
         Reply 400 (Routes.SearchList "Model or training data not loaded."
                                      [] false)) /\
   Routes.get_upcoming_maintenance now self =
     Reply 400 (failure_body "Model or training data not loaded.") /\
   Routes.get_weekly_maintenance now self =
     Reply 400 (failure_body "Model or training data not loaded.")) /\
  (forall m,
      hotel_model self = Some m ->
      df_empty (loaded_training_df self) = false ->
      accepts m (loaded_training_df self) ->
      (forall room text, exists msg l,
          predict_for_room now self room = Ok l /\
          Routes.predict_maintenance now self (Routes.RoomNumber room text) =
            Reply 200 (Routes.SearchList msg l true)) /\
      (exists msg l,
          get_current_week_maintenance_devices now self = Ok l /\
          Routes.get_weekly_maintenance now self =
            Reply 200 (Routes.mkListBody msg l true)) /\
      (lookup_columns (loaded_training_df self) ->
       (forall row, In row (rows (loaded_training_df self)) ->
                    Last_Maintenance_Date row <> None) ->
       exists msg l,
         get_upcoming_maintenance_devices now self = Ok l /\
         Routes.get_upcoming_maintenance now self =
           Reply 200 (Routes.mkListBody msg l true)) /\
      ((exists row, In row (rows (loaded_training_df self)) /\
                    Last_Maintenance_Date row = None) ->
       status_of (Routes.get_upcoming_maintenance now self) = Some 500) /\
      (~ lookup_columns (loaded_training_df self) ->
       (exists row, In row (rows (loaded_training_df self)) /\
                    is_upcoming now m row) ->
       status_of (Routes.get_upcoming_maintenance now self) = Some 500)) /\
  status_of (Routes.predict_maintenance now self Routes.NoRoomField) = Some 400 /\
  status_of (Routes.predict_maintenance now self Routes.RoomNotNumber) = Some 400 /\
  (forall refusal,
      status_of (Routes.predict_maintenance now self
                   (Routes.RoomNotFinite refusal)) = Some 500).
Proof.
  split; [|split; [|split; [|split]]]; try reflexivity.
  - intros Hun.
    assert (Hp : forall room, predict_for_room now self room = Raise not_loaded).
    { intros room. unfold predict_for_room.
      destruct Hun as [-> | Hd]; [reflexivity|].
      rewrite Hd. now destruct (hotel_model self). }
    assert (Hu : get_upcoming_maintenance_devices now self = Raise not_loaded).
    { unfold get_upcoming_maintenance_devices.
      destruct Hun as [-> | Hd]; [reflexivity|].
      rewrite Hd. now destruct (hotel_model self). }
    assert (Hw : get_current_week_maintenance_devices now self = Raise not_loaded).
    { unfold get_current_week_maintenance_devices.
      destruct Hun as [-> | Hd]; [reflexivity|].
      rewrite Hd. now destruct (hotel_model self). }
    split; [|split].
    + intros room text. unfold Routes.predict_maintenance. rewrite Hp.
      reflexivity.
    + unfold Routes.get_upcoming_maintenance. rewrite Hu. reflexivity.
    + unfold Routes.get_weekly_maintenance. rewrite Hw. reflexivity.
  - intros m Hm Hne Hacc.
    assert (Hbroken :
              (exists x e, In x (iterrows (loaded_training_df self)) /\
                           upcoming_row (columns (loaded_training_df self))
                                        m now x = Raise e) ->
              status_of (Routes.get_upcoming_maintenance now self) = Some 500).
    { intros Hex.
      destruct (for_each_some_raise _ _ Hex) as [e He].
      assert (Hu : get_upcoming_maintenance_devices now self = Raise e).
      { unfold get_upcoming_maintenance_devices. now rewrite Hm, Hne. }
      destruct (for_each_raise_origin _ _ _ He) as ([i r] & Hir & Hb).
      apply upcoming_row_raises in Hb;
        [|apply Hacc; now apply iterrows_row in Hir].
      unfold Routes.get_upcoming_maintenance. rewrite Hu.
      destruct Hb as [[-> _] | (k & -> & _)]; reflexivity. }
    split; [|split; [|split; [|split]]].
    + intros room text.
      destruct (predict_for_room_total now self m room Hm Hne Hacc) as [l Hl].
      unfold Routes.predict_maintenance. rewrite Hl.
      destruct l as [|x t]; eexists; eexists; split; reflexivity.
    + assert (Hw : exists l, get_current_week_maintenance_devices now self = Ok l).
      { unfold get_current_week_maintenance_devices. rewrite Hm, Hne.
        apply for_each_total. intros [i r] Hir. apply weekly_row_total.
        intros _. apply Hacc. now apply iterrows_row in Hir. }
      destruct Hw as [l Hl]. unfold Routes.get_weekly_maintenance. rewrite Hl.
      destruct (list_route_status
                  "Successfully retrieved devices for current week maintenance."
                  "No devices found for current week maintenance."
                  "Failed to retrieve current week maintenance devices: "
                  (Ok l)) as [msg Hmsg].
      exists msg, l. split; [reflexivity | exact Hmsg].
    + intros [Hwy Hst] Hdates.
      assert (Hu : exists l, get_upcoming_maintenance_devices now self = Ok l).
      { unfold get_upcoming_maintenance_devices. rewrite Hm, Hne.
        apply for_each_total. intros [i r] Hir. apply iterrows_row in Hir.
        apply upcoming_row_total;
          [now apply mem_In | now apply mem_In | now apply Hacc
           | now apply Hdates]. }
      destruct Hu as [l Hl]. unfold Routes.get_upcoming_maintenance. rewrite Hl.
      destruct (list_route_status
                  "Successfully retrieved devices with upcoming maintenance."
                  "No devices found with upcoming maintenance."
                  "Failed to retrieve upcoming maintenance devices: "
                  (Ok l)) as [msg Hmsg].
      exists msg, l. split; [reflexivity | exact Hmsg].
    + intros (row & Hrow & Hnone). apply Hbroken.
      destruct (iterrows_index _ _ Hrow) as [i Hi].
      exists (i, row), strptime_type_error. split; [exact Hi|].
      destruct (Hacc row Hrow) as [p Hp].
      unfold upcoming_row. rewrite Hp, Hnone. reflexivity.
    + intros Hcols (row & Hrow & Hup). apply Hbroken.
      destruct (iterrows_index _ _ Hrow) as [i Hi].
      destruct (upcoming_row (columns (loaded_training_df self)) m now (i, row))
        as [es|e] eqn:Hb; [|eauto].
      exfalso. apply Hcols.
      destruct Hup as (p & s & parsed & Hp & Hs & Hparsed & Hlo & Hhi).
      unfold upcoming_row in Hb. rewrite Hp, Hs in Hb. cbn [bind] in Hb.
      unfold next_maintenance in Hb. rewrite Hparsed in Hb.
      rewrite six_months_ord in Hb. unfold today_of in Hb.
      rewrite dt_ltb_midnight, dt_leb_midnight in Hb.
      cbn [dt_ord datetime_of_date] in Hb.
      apply Z.ltb_lt in Hlo. apply Z.leb_le in Hhi. rewrite Hlo, Hhi in Hb.
      cbn [andb] in Hb. unfold getitem in Hb.
      destruct (mem "Warranty Year" _) eqn:Hw; cbn [bind] in Hb;
        [|discriminate].
      destruct (mem "Status" _) eqn:Hst; cbn [bind] in Hb; [|discriminate].
      split; now apply mem_In.
Qed.

Lemma list_endpoints_status_witness :
  status_of (Routes.get_weekly_maintenance (mkDate 2025 6 1) scenario_state)
    = Some 200 /\
  status_of (Routes.get_upcoming_maintenance (mkDate 2023 6 1) scenario_state)
    = Some 200 /\
  status_of (Routes.get_upcoming_maintenance (mkDate 2023 6 1)
               seven_column_state) = Some 500.
Proof.
  destruct (list_endpoints_status (mkDate 2025 6 1) scenario_state)
    as (_ & H & _).
  destruct (H (constant_regressor (300 # 1)%Q) eq_refl eq_refl)
    as (_ & (msg & l & _ & Hr) & _).
  { intros r _. eexists. reflexivity. }
  split; [rewrite Hr; reflexivity|].
  destruct (list_endpoints_status (mkDate 2023 6 1) scenario_state)
    as (_ & H1 & _).
  destruct (H1 (constant_regressor (300 # 1)%Q) eq_refl eq_refl)
    as (_ & _ & Hup & _).
  { intros r _. eexists. reflexivity. }
  destruct Hup as (msg1 & l1 & _ & Hr1).
  { split; simpl; tauto. }
  { intros r [<-|[]]. discriminate. }
  split; [rewrite Hr1; reflexivity|].
  destruct (list_endpoints_status (mkDate 2023 6 1) seven_column_state)
    as (_ & H2 & _).
  destruct (H2 (constant_regressor (300 # 1)%Q) eq_refl eq_refl)
    as (_ & _ & _ & _ & Hkey).
  { intros r _. eexists. reflexivity. }
  apply Hkey.
  - intros [Hw _]. simpl in Hw. intuition discriminate.
  - exists bare_row. split; [now left|].
    exists (300 # 1)%Q, "01/01/2023", (mkDate 2023 1 1).
    split; [reflexivity|]. split; [reflexivity|]. split; [reflexivity|].
    vm_compute. split; [reflexivity | discriminate].
Defined.

Lemma train_model_raise
  (fit : list DeviceRecord -> Fit)
  (score : Regressor -> list DeviceRecord -> result Metrics)
  (df : DataFrame) (disk disk' : Disk) (self self' : HotelMaintenanceModel)
  (e : exn) :
  let df' := {| columns := columns df; rows := map fill_status (rows df) |} in
  train_model fit score df disk self = (self', disk', Raise e) ->
  (all_present training_schema df = false ->
   self' = self /\ disk' = disk /\
   e = ValueError ("Missing required columns in CSV: " ++
                   join ", " (missing_cols training_schema df))) /\
  ((disk' = disk /\
    loaded_training_df self' = loaded_training_df self /\
    model_metrics self' = model_metrics self) \/
   (exists m mt held,
       joblib_dump disk m = Refuses e held /\
       hotel_model self' = Some m /\ model_metrics self' = Some mt /\
       loaded_training_df self' = loaded_training_df self /\
       MODEL_PATH disk' = held /\ DATA_PATH disk' = DATA_PATH disk) \/
   (exists m mt held,
       to_pickle disk df' = Refuses e held /\
       hotel_model self' = Some m /\ model_metrics self' = Some mt /\
       loaded_training_df self' = df' /\
       MODEL_PATH disk' = Stored m /\ DATA_PATH disk' = held)).
Proof.
  cbv zeta.
  destruct (all_present training_schema df) eqn:Hall.
  2:{ unfold train_model. rewrite Hall. cbn [negb]. intros [= <- <- <-].
      split; [auto | now left]. }
  rewrite (train_model_steps fit score df disk self Hall). cbv zeta.
  cbn [rows]. intros E. split; [discriminate|].
  destruct (fit _) as [m|e1 estimator].
  2:{ injection E as <- <- _. now left. }
  destruct (score m _) as [mt|e2].
  2:{ injection E as <- <- _. now left. }
  destruct (joblib_dump disk m) as [|e3 held] eqn:Hdump.
  2:{ injection E as <- <- <-. right. left. exists m, mt, held.
      repeat split; assumption || reflexivity. }
  destruct (to_pickle disk _) as [|e4 held] eqn:Hpickle; [discriminate|].
  injection E as <- <- <-. right. right. exists m, mt, held.
  repeat split; assumption || reflexivity.
Qed.

Lemma endswith_nonempty (s suffix : string) :
  suffix <> EmptyString -> endswith s suffix = true ->
  String.eqb s EmptyString = false.
Proof.
  intros Hs H. destruct s; [|reflexivity].
  destruct suffix; [congruence | discriminate].
Qed.

(** X23.  The training endpoint.  When it answers other than 200, either
    the disk, the dataset and the metrics are what they were, or one of
    the two writes raised: [joblib.dump], and the object already has the
    new model and metrics beside the old dataset, or [to_pickle], and the
    object has the new model, dataset and metrics while the disk stores
    the new model without that dataset.  On a disk that takes both writes
    only the first case is left.  A refused write is answered with the
    failure message and a status other than 200.  A 200 comes only from a
    file whose name ends in [.csv], that was read, and that has every
    column of the training schema; it reports the number of rows of the
    upload, which is the number of rows of the dataset now in memory and
    on disk.  An upload that lacks a column is answered 400 with the
    missing columns in the message and changes nothing, and a file name
    that does not end in [.csv] is answered 400 without the content being
    looked at. *)
Theorem train_endpoint_status
  (fit : list DeviceRecord -> Fit)
  (score : Regressor -> list DeviceRecord -> result Metrics)
  (upload : Routes.Upload) (disk : Disk) (self : HotelMaintenanceModel) :
  let '(self', disk', r) := Routes.train_model fit score upload disk self in
  (status_of r <> Some 200 ->
   (disk' = disk /\
    loaded_training_df self' = loaded_training_df self /\
    model_metrics self' = model_metrics self) \/
   (exists m mt e held,
       joblib_dump disk m = Refuses e held /\
       hotel_model self' = Some m /\ model_metrics self' = Some mt /\
       loaded_training_df self' = loaded_training_df self /\
       MODEL_PATH disk' = held /\ DATA_PATH disk' = DATA_PATH disk) \/
   (exists filename df m mt e held,
       upload = Routes.FilePart filename (Ok df) /\
       to_pickle disk {| columns := columns df;
                         rows := map fill_status (rows df) |}
         = Refuses e held /\
       hotel_model self' = Some m /\ model_metrics self' = Some mt /\
       loaded_training_df self' =
         {| columns := columns df; rows := map fill_status (rows df) |} /\
       MODEL_PATH disk' = Stored m /\ DATA_PATH disk' = held)) /\
  (writable disk -> status_of r <> Some 200 ->
   disk' = disk /\
   loaded_training_df self' = loaded_training_df self /\
   model_metrics self' = model_metrics self) /\
  (forall filename df m mt,
     upload = Routes.FilePart filename (Ok df) ->
     endswith filename ".csv" = true ->
     all_present training_schema df = true ->
     fit (map fill_status (rows df)) = Fitted m ->
     score m (map fill_status (rows df)) = Ok mt ->
     (forall e held,
         joblib_dump disk m = Refuses e held ->
         (exists status, status <> 200 /\
                         r = Reply status (Routes.train_failed e)) /\
         hotel_model self' = Some m /\ model_metrics self' = Some mt /\
         loaded_training_df self' = loaded_training_df self /\
         MODEL_PATH disk' = held) /\
     (forall e held,
         joblib_dump disk m = Stores ->
         to_pickle disk {| columns := columns df;
                           rows := map fill_status (rows df) |}
           = Refuses e held ->
         (exists status, status <> 200 /\
                         r = Reply status (Routes.train_failed e)) /\
         hotel_model self' = Some m /\ model_metrics self' = Some mt /\
         loaded_training_df self' =
           {| columns := columns df; rows := map fill_status (rows df) |} /\
         MODEL_PATH disk' = Stored m /\ DATA_PATH disk' = held)) /\
  (forall body, r = Reply 200 body ->
     exists filename df mt m,
       upload = Routes.FilePart filename (Ok df) /\
       endswith filename ".csv" = true /\
       all_present training_schema df = true /\
       body = Routes.Trained
                "CSV data uploaded and hotel maintenance prediction model trained successfully!"
                (Z.of_nat (List.length (rows df)))
                (round4 (r2_score mt)) (round4 (mae mt)) (round4 (rmse mt)) /\
       model_metrics self' = Some mt /\
       hotel_model self' = Some m /\
       MODEL_PATH disk' = Stored m /\
       DATA_PATH disk' = Stored (loaded_training_df self') /\
       List.length (rows (loaded_training_df self')) = List.length (rows df)) /\
  (forall filename df,
     upload = Routes.FilePart filename (Ok df) ->
     endswith filename ".csv" = true ->
     lacks_column training_schema df ->
     self' = self /\
     r = Reply 400
           (Routes.TrainMessage
              ("Failed to upload data or train hotel maintenance prediction model: "
               ++ "Missing required columns in CSV: "
               ++ join ", " (missing_cols training_schema df)))) /\
  (forall filename content,
     upload = Routes.FilePart filename content ->
     endswith filename ".csv" = false ->
     self' = self /\ status_of r = Some 400).
Proof.
  destruct (Routes.train_model fit score upload disk self)
    as [[self' disk'] r] eqn:E.
  unfold Routes.train_model in E.
  destruct upload as [|filename content].
  { injection E as <- <- <-.
    split; [auto|]. split; [auto|]. split; [discriminate|].
    split; [discriminate|]. split; discriminate. }
  destruct (String.eqb filename EmptyString) eqn:Hempty.
  { injection E as <- <- <-.
    split; [auto|]. split; [auto|]. split.
    { intros f df m mt [= -> _] Hcsv.
      apply endswith_nonempty in Hcsv; [congruence | discriminate]. }
    split; [discriminate|]. split.
    - intros f df [= -> _] Hcsv _.
      apply endswith_nonempty in Hcsv; [congruence | discriminate].
    - intros f c _ _. auto. }
  destruct (endswith filename ".csv") eqn:Hcsv.
  2:{ injection E as <- <- <-.
      split; [auto|]. split; [auto|]. split.
      { intros f df m mt [= -> _] Hcsv'. congruence. }
      split; [discriminate|]. split.
      - intros f df [= -> _] Hcsv'. congruence.
      - intros f c _ _. auto. }
  destruct content as [df|e].
  2:{ assert (Hr : self' = self /\ disk' = disk /\ status_of r <> Some 200 /\
                   forall body, r <> Reply 200 body).
      { destruct e; injection E as <- <- <-;
          (repeat split; [discriminate | intros body; discriminate]). }
      destruct Hr as (-> & -> & _ & Hno).
      split; [auto|]. split; [auto|]. split; [intros f df m mt [=]|].
      split; [intros body Hb; elim (Hno body Hb)|]. split.
      - intros f df [=].
      - intros f c [= -> _]. congruence. }
  destruct (train_model fit score df disk self) as [[s1 d1] o] eqn:T.
  assert (Hrefused :
    forall m mt,
      all_present training_schema df = true ->
      fit (map fill_status (rows df)) = Fitted m ->
      score m (map fill_status (rows df)) = Ok mt ->
      (forall e held,
          joblib_dump disk m = Refuses e held ->
          (exists status, status <> 200 /\
                          r = Reply status (Routes.train_failed e)) /\
          hotel_model self' = Some m /\ model_metrics self' = Some mt /\
          loaded_training_df self' = loaded_training_df self /\
          MODEL_PATH disk' = held) /\
      (forall e held,
          joblib_dump disk m = Stores ->
          to_pickle disk {| columns := columns df;
                            rows := map fill_status (rows df) |}
            = Refuses e held ->
          (exists status, status <> 200 /\
                          r = Reply status (Routes.train_failed e)) /\
          hotel_model self' = Some m /\ model_metrics self' = Some mt /\
          loaded_training_df self' =
            {| columns := columns df; rows := map fill_status (rows df) |} /\
          MODEL_PATH disk' = Stored m /\ DATA_PATH disk' = held)).
  { intros m mt Hall Hfit Hscore.
    pose proof T as T'.
    rewrite (train_model_steps fit score df disk self Hall) in T'.
    cbv zeta in T'. cbn [rows] in T'. rewrite Hfit, Hscore in T'. split.
    - intros e held Hdump. rewrite Hdump in T'. injection T' as <- <- <-.
      assert (Hr : self' = {| hotel_model := Some m;
                              loaded_training_df := loaded_training_df self;
                              model_metrics := Some mt;
                              loaded_file_path := loaded_file_path self |} /\
                   MODEL_PATH disk' = held /\
                   exists status, status <> 200 /\
                                  r = Reply status (Routes.train_failed e)).
      { destruct e; injection E as <- <- <-;
          (split; [reflexivity|]; split; [reflexivity|];
           eexists; split; [|reflexivity]; discriminate). }
      destruct Hr as (-> & Hmp & Hst). repeat split; assumption || reflexivity.
    - intros e held Hdump Hpickle. rewrite Hdump, Hpickle in T'.
      injection T' as <- <- <-.
      assert (Hr : self' = {| hotel_model := Some m;
                              loaded_training_df :=
                                {| columns := columns df;
                                   rows := map fill_status (rows df) |};
                              model_metrics := Some mt;
                              loaded_file_path := loaded_file_path self |} /\
                   MODEL_PATH disk' = Stored m /\ DATA_PATH disk' = held /\
                   exists status, status <> 200 /\
                                  r = Reply status (Routes.train_failed e)).
      { destruct e; injection E as <- <- <-;
          (split; [reflexivity|]; split; [reflexivity|];
           split; [reflexivity|];
           eexists; split; [|reflexivity]; discriminate). }
      destruct Hr as (-> & Hmp & Hdp & Hst).
      repeat split; assumption || reflexivity. }
  destruct o as [mt|e].
  - injection E as <- <- <-.
    apply train_model_success in T.
    destruct T as (Hall & m & _ & _ & -> & ->).
    split; [intros H; elim H; reflexivity|].
    split; [intros _ H; elim H; reflexivity|].
    split; [intros f d m0 mt0 [= _ <-] _; apply Hrefused|].
    split; [|split].
    + intros body [= <-]. exists filename, df, mt, m. cbn.
      repeat split; auto. apply length_map.
    + intros f d [= _ ->] _ Hlack. apply all_present_false in Hlack. congruence.
    + intros f c [= -> _]. congruence.
  - apply train_model_raise in T. cbv zeta in T.
    destruct T as (Hmissing & Hcases).
    assert (Hr : disk' = d1 /\ self' = s1 /\ status_of r <> Some 200 /\
                 (forall body, r <> Reply 200 body) /\
                 (forall msg, e = ValueError msg ->
                              r = Reply 400 (Routes.train_failed (ValueError msg)))).
    { destruct e; injection E as <- <- <-;
        (repeat split;
         [discriminate | intros body; discriminate
          | intros msg0 [=]; subst; reflexivity]). }
    destruct Hr as (-> & -> & _ & Hno & Hval).
    split.
    { intros _. destruct Hcases as [H | [(m & mt & held & H) | (m & mt & held & H)]].
      - now left.
      - right. left. exists m, mt, e, held. exact H.
      - right. right. exists filename, df, m, mt, e, held.
        split; [reflexivity | exact H]. }
    split.
    { intros [Hdump Hpickle] _.
      destruct Hcases as [H | [(m & mt & held & H & _) | (m & mt & held & H & _)]].
      - exact H.
      - rewrite Hdump in H. discriminate.
      - rewrite Hpickle in H. discriminate. }
    split; [intros f d m0 mt0 [= _ <-] _; apply Hrefused|].
    split; [intros body Hb; elim (Hno body Hb)|]. split.
    + intros f d [= _ ->] _ Hlack. apply all_present_false in Hlack.
      destruct (Hmissing Hlack) as (-> & _ & He). split; [reflexivity|].
      rewrite (Hval _ He). reflexivity.
    + intros f c [= -> _]. congruence.
Qed.

Lemma train_endpoint_status_witness :
  let '(self', disk', r) :=
    Routes.train_model trivial_fit trivial_score
      (Routes.FilePart "hotel.csv" (Ok scenario_frame)) full_disk
      (__init__ trivial_score full_disk) in
  r = Reply 500 (Routes.train_failed (Exception "No space left on device")) /\
  loaded_training_df self' = scenario_frame /\
  MODEL_PATH disk' = Stored (constant_regressor (300 # 1)%Q) /\
  DATA_PATH disk' = Absent.
Proof.
  pose proof (train_endpoint_status trivial_fit trivial_score
                (Routes.FilePart "hotel.csv" (Ok scenario_frame)) full_disk
                (__init__ trivial_score full_disk)) as H.
  destruct (Routes.train_model trivial_fit trivial_score
              (Routes.FilePart "hotel.csv" (Ok scenario_frame)) full_disk
              (__init__ trivial_score full_disk))
    as [[self' disk'] r] eqn:E.
  destruct H as (_ & _ & Hreach & _).
  destruct (Hreach "hotel.csv" scenario_frame (constant_regressor (300 # 1)%Q)
                   {| r2_score := 1; mae := 0; rmse := 0 |}
                   eq_refl eq_refl eq_refl eq_refl eq_refl) as [_ Hpickle].
  destruct (Hpickle (Exception "No space left on device") Absent
                    eq_refl eq_refl) as (_ & _ & _ & Hd & Hm & Hp).
  split; [|auto].
  vm_compute in E. injection E as _ _ <-. reflexivity.
Defined.

Lemma sort_values_desc_nonempty {A : Type} (key : A -> option date)
  (l : list A) :
  l <> [] -> sort_values_desc key l <> [].
Proof.
  intros Hl Hs. pose proof (sort_values_desc_perm key l) as P.
  rewrite Hs in P. apply Permutation_nil in P. contradiction.
Qed.

Lemma resolve_room_nonempty (df : DataFrame) (room : Z) :
  room_devices df room <> [] -> resolve_room df room <> [].
Proof.
  intros Hr. unfold resolve_room, drop_duplicates.
  destruct (sort_values_desc pr_parsed _) as [|x t] eqn:S.
  - apply sort_values_desc_nonempty in S; [contradiction|].
    destruct (room_devices df room); [congruence | discriminate].
  - discriminate.
Qed.

(** X24.  A training whose fit raises, on an upload with every column,
    raises what the fit raised and leaves the object holding the estimator
    that was created for the fit, whatever state the failed fit left it
    in, beside the old dataset and metrics, and the disk as it was.  The
    object still passes the guard of the queries, so a search for the room
    of any row asks that estimator: when the estimator raises on every
    input, the search raises the same exception, and is answered 500
    unless that exception is a [RuntimeError].  The model stored on disk
    is still the one a new object would load. *)
Theorem failed_fit_leaves_its_estimator
  (fit : list DeviceRecord -> Fit)
  (score : Regressor -> list DeviceRecord -> result Metrics)
  (df : DataFrame) (disk : Disk) (self : HotelMaintenanceModel) (e : exn)
  (estimator : Regressor) (now : date) :
  all_present training_schema df = true ->
  fit (map fill_status (rows df)) = FitRaised e estimator ->
  df_empty (loaded_training_df self) = false ->
  let '(self', disk', outcome) := train_model fit score df disk self in
  outcome = Raise e /\ disk' = disk /\
  hotel_model self' = Some estimator /\
  loaded_training_df self' = loaded_training_df self /\
  model_metrics self' = model_metrics self /\
  (forall e0 row text,
      (forall usage daily year, estimator usage daily year = Raise e0) ->
      In row (rows (loaded_training_df self)) ->
      predict_for_room now self' (Room_Number row) = Raise e0 /\
      ((forall msg, e0 <> RuntimeError msg) ->
       status_of (Routes.predict_maintenance now self'
                    (Routes.RoomNumber (Room_Number row) text)) = Some 500)) /\
  (forall m0, MODEL_PATH disk = Stored m0 ->
              hotel_model (__init__ score disk') = Some m0).
Proof.
  intros Hall Hfit Hne.
  rewrite (train_model_steps fit score df disk self Hall). cbv zeta.
  cbn [rows]. rewrite Hfit.
  split; [reflexivity|]. split; [reflexivity|]. split; [reflexivity|].
  split; [reflexivity|]. split; [reflexivity|]. split.
  - intros e0 row text Hest Hrow.
    assert (Hp : predict_for_room now
                   {| hotel_model := Some estimator;
                      loaded_training_df := loaded_training_df self;
                      model_metrics := model_metrics self;
                      loaded_file_path := loaded_file_path self |}
                   (Room_Number row) = Raise e0).
    { unfold predict_for_room. cbn [hotel_model loaded_training_df].
      rewrite Hne.
      assert (Hd : room_devices (loaded_training_df self) (Room_Number row) <> []).
      { destruct (iterrows_index _ _ Hrow) as [i Hi]. intros Hnil.
        assert (Hf : In (i, row)
                        (room_devices (loaded_training_df self) (Room_Number row))).
        { apply filter_In. split; [exact Hi|]. cbn [snd]. apply Z.eqb_refl. }
        rewrite Hnil in Hf. destruct Hf. }
      pose proof (resolve_room_nonempty _ _ Hd) as Hres.
      destruct (room_devices _ _); [congruence|].
      destruct (resolve_room _ _) as [|x t]; [congruence|].
      cbn [for_each]. unfold room_entry at 1. unfold predict.
      rewrite Hest. reflexivity. }
    split; [exact Hp|]. intros Hrt.
    unfold Routes.predict_maintenance. rewrite Hp.
    destruct e0; try reflexivity. elim (Hrt msg). reflexivity.
  - intros m0 Hm0. unfold __init__, _load_persisted_data. rewrite Hm0.
    destruct (DATA_PATH disk) as [| |d]; try reflexivity.
    destruct (_ && _); [destruct (score m0 _)|]; reflexivity.
Qed.

Lemma failed_fit_leaves_its_estimator_witness :
  let '(self', disk', outcome) :=
    train_model refusing_fit trivial_score scenario_frame empty_disk
                scenario_state in
  outcome = Raise (ValueError "Input y contains NaN.") /\
  predict_for_room (mkDate 2025 6 1) self' 2000 =
    Raise (AttributeError "n_features_in_") /\
  status_of (Routes.predict_maintenance (mkDate 2025 6 1) self'
               (Routes.RoomNumber 2000 "2000")) = Some 500.
Proof.
  pose proof (failed_fit_leaves_its_estimator refusing_fit trivial_score
                scenario_frame empty_disk scenario_state
                (ValueError "Input y contains NaN.")
                (raising (AttributeError "n_features_in_")) (mkDate 2025 6 1)
                eq_refl eq_refl eq_refl) as H.
  destruct (train_model refusing_fit trivial_score scenario_frame empty_disk
                        scenario_state) as [[self' disk'] outcome].
  destruct H as (Ho & _ & _ & _ & _ & Hrows & _).
  destruct (Hrows (AttributeError "n_features_in_") scenario_row "2000")
    as [Hp Hs]; [reflexivity | now left |].
  split; [exact Ho|]. split; [exact Hp|]. apply Hs. discriminate.
Defined.

(* ===================================================================== *)
(** * The single-file application *)
(* ===================================================================== *)

Lemma legacy_room_devices (df : DataFrame) (room : Z) :
  Legacy.room_devices df (inject_Z room) = room_devices df room.
Proof.
  unfold Legacy.room_devices, room_devices. apply filter_ext. intros [i r].
  unfold Qeq_bool. cbn [snd inject_Z Qnum Qden]. now rewrite !Z.mul_1_r.
Qed.

Lemma legacy_room_devices_fractional (df : DataFrame) (x : Q) :
  fractional x -> Legacy.room_devices df x = [].
Proof.
  intros Hx. unfold Legacy.room_devices. apply filter_none. intros [i r] _.
  destruct (Qeq_bool _ _) eqn:E; [|reflexivity].
  apply Qeq_bool_iff in E. elim (Hx _ E).
Qed.

Lemma legacy_formats_first (s : string) (d : date) :
  try_formats Legacy.date_formats s = Some d ->
  try_formats date_formats s = Some d.
Proof.
  unfold Legacy.date_formats, date_formats. cbn [try_formats].
  destruct (strptime s "%m/%d/%Y"); [auto|].
  destruct (strptime s "%m/%d/%y"); [auto | discriminate].
Qed.

Lemma legacy_predict_row_spec (m : Regressor) (index : Z) (row : DeviceRecord)
  (q : Q) :
  predict m row = Ok q ->
  Legacy.predict_row m (index, row) =
    Ok [ {| Legacy.roomNumber := Room_Number row;
            Legacy.applianceType := Appliance_Type row;
            Legacy.lastMaintenanceDate := Last_Maintenance_Date row;
            Legacy.predictedDaysSinceMaintenance := round2 (clamp q);
            Legacy.nextMaintenanceDate :=
              match Last_Maintenance_Date row with
              | None => None
              | Some s =>
                  match try_formats Legacy.date_formats s with
                  | Some parsed_date =>
                      Some (dt_ord (add_days parsed_date (clamp q)))
                  | None => None
                  end
              end |} ].
Proof. intros H. unfold Legacy.predict_row. rewrite H. reflexivity. Qed.

Lemma legacy_predict_row_shape (m : Regressor) (ir : Z * DeviceRecord)
  (ps : list Legacy.Prediction) :
  Legacy.predict_row m ir = Ok ps -> exists p, ps = [p] /\ prediction_of m ir p.
Proof.
  destruct ir as [i r]. destruct (predict m r) as [q|e] eqn:E.
  - rewrite (legacy_predict_row_spec m i r q E). intros [= <-].
    eexists. split; [reflexivity|]. unfold prediction_of. cbn.
    repeat split. exists q. auto.
  - unfold Legacy.predict_row. rewrite E. discriminate.
Qed.

Lemma room_entry_spec (m : Regressor) (now : date) (x : ParsedRow)
  (es : list Entry) :
  room_entry m now x = Ok es ->
  exists e q,
    es = [e] /\ predict m (pr_row x) = Ok q /\
    room_no e = Room_Number (pr_row x) /\
    device_name e = Appliance_Type (pr_row x) /\
    predictedDaysSinceMaintenance e = round2 (clamp q) /\
    next_maintenance_date e =
      match pr_parsed x with
      | Some d => Some (dt_ord (add_days d (clamp q)))
      | None => None
      end.
Proof.
  unfold room_entry. destruct (predict m (pr_row x)) as [q|e] eqn:E;
    cbn [bind]; [|discriminate].
  intros [= <-]. eexists. exists q. cbn. repeat split.
Qed.

Lemma Forall2_In_l {A B : Type} (R : A -> B -> Prop) (l : list A) (r : list B)
  (x : A) :
  Forall2 R l r -> In x l -> exists y, In y r /\ R x y.
Proof.
  induction 1 as [|a b l r Hab _ IH]; simpl; [intros []|].
  intros [<-|Hx]; [eauto|]. destruct (IH Hx) as (y & Hy & Hr). eauto.
Qed.

Lemma drop_duplicates_keeps_distinct {A : Type} (name : A -> string)
  (l : list A) :
  NoDup (map name l) ->
  List.length (drop_duplicates String.eqb name l) = List.length l.
Proof.
  intros Hn. unfold drop_duplicates.
  rewrite <- (length_map name (drop_duplicates_from String.eqb name [] l)).
  rewrite <- (length_map name l).
  apply Permutation_length, NoDup_Permutation; auto.
  - apply drop_duplicates_from_NoDup. apply String.eqb_eq.
  - intros k. rewrite (drop_duplicates_from_names String.eqb String.eqb_eq).
    simpl. tauto.
Qed.

Lemma drop_duplicates_from_full {A K : Type} (keq : K -> K -> bool)
  (name : A -> K) (seen : list K) (l : list A) :
  List.length (drop_duplicates_from keq name seen l) = List.length l ->
  drop_duplicates_from keq name seen l = l.
Proof.
  revert seen. induction l as [|x t IH]; intros seen; simpl; [reflexivity|].
  destruct (existsb _ _).
  - pose proof (drop_duplicates_from_length_le keq name seen t). lia.
  - simpl. intros [= H]. now rewrite IH.
Qed.

Lemma drop_duplicates_full_distinct {A : Type} (name : A -> string)
  (l : list A) :
  List.length (drop_duplicates String.eqb name l) = List.length l ->
  NoDup (map name l).
Proof.
  intros H. unfold drop_duplicates in H.
  apply drop_duplicates_from_full in H. rewrite <- H.
  apply drop_duplicates_from_NoDup. apply String.eqb_eq.
Qed.

Lemma resolve_room_length (df : DataFrame) (room : Z) :
  (List.length (resolve_room df room) <= List.length (room_devices df room))%nat /\
  (List.length (resolve_room df room) = List.length (room_devices df room) <->
   NoDup (map (fun ir => Appliance_Type (snd ir)) (room_devices df room))).
Proof.
  unfold resolve_room.
  set (parsed := map (fun ir => (ir, parse_date (Last_Maintenance_Date (snd ir))))
                     (room_devices df room)).
  assert (Hlen : List.length (sort_values_desc pr_parsed parsed) =
                 List.length (room_devices df room)).
  { rewrite (Permutation_length (sort_values_desc_perm pr_parsed parsed)).
    apply length_map. }
  split.
  - rewrite <- Hlen. apply drop_duplicates_from_length_le.
  - rewrite <- Hlen. split.
    + intros Hfull. apply drop_duplicates_full_distinct in Hfull.
      apply (Permutation_NoDup
               (Permutation_map pr_type (sort_values_desc_perm pr_parsed parsed)))
        in Hfull.
      unfold parsed in Hfull. rewrite map_map in Hfull. exact Hfull.
    + intros Hn. apply drop_duplicates_keeps_distinct.
      apply (Permutation_NoDup
               (Permutation_sym
                  (Permutation_map pr_type
                     (sort_values_desc_perm pr_parsed parsed)))).
      unfold parsed. rewrite map_map. exact Hn.
Qed.

Lemma predict_for_room_entries (now : date) (self : HotelMaintenanceModel)
  (m : Regressor) (room : Z) (l : list Entry) :
  hotel_model self = Some m ->
  predict_for_room now self room = Ok l ->
  forall e, In e l ->
    exists x, In x (resolve_room (loaded_training_df self) room) /\
              room_entry m now x = Ok [e].
Proof.
  intros Hm. unfold predict_for_room. rewrite Hm.
  destruct (df_empty _); [discriminate|].
  destruct (room_devices _ _); [intros [= <-] e []|].
  intros Hl e He. apply (for_each_In _ _ _ Hl) in He.
  destruct He as (x & ys & Hx & Hb & Hy).
  destruct (room_entry_spec _ _ _ _ Hb) as (e' & q & -> & _).
  destruct Hy as [<-|[]]. eauto.
Qed.

(** X25.  The room search of the single-file application against the one
    of the model class, on the same model and dataset and a whole room
    number.  The former answers one prediction for every row of the room,
    in the order of the dataset; the latter keeps one row per appliance
    type, so its list is never longer, and is as long if and only if no
    type repeats among the rows of the room; each of its entries has a
    prediction of the former with the same room, type and number of
    days. *)
Theorem legacy_search_lists_every_row (now : date)
  (self : HotelMaintenanceModel) (m : Regressor) (room : Z) (text : string) :
  hotel_model self = Some m ->
  df_empty (loaded_training_df self) = false ->
  accepts m (loaded_training_df self) ->
  exists msg ps l,
    Legacy.predict_maintenance (globals_of self)
                               (Legacy.RoomValueFinite (inject_Z room) text) =
      Reply 200 (Legacy.PredictList msg ps true) /\
    Forall2 (prediction_of m) (room_devices (loaded_training_df self) room) ps /\
    predict_for_room now self room = Ok l /\
    (List.length l <= List.length ps)%nat /\
    (List.length l = List.length ps <->
     NoDup (map (fun ir => Appliance_Type (snd ir))
                (room_devices (loaded_training_df self) room))) /\
    (forall e, In e l -> exists p, In p ps /\ same_device e p).
Proof.
  intros Hm Hne Hacc.
  destruct (for_each_total (Legacy.predict_row m)
              (room_devices (loaded_training_df self) room)) as [ps Hps].
  { intros [i r] Hir. apply filter_In in Hir. destruct Hir as [Hir _].
    apply iterrows_row in Hir. destruct (Hacc r Hir) as [q Hq].
    rewrite (legacy_predict_row_spec m i r q Hq). eauto. }
  pose proof (for_each_singletons _ (prediction_of m) _ _
                (legacy_predict_row_shape m) Hps) as Hrows.
  destruct (predict_for_room_total now self m room Hm Hne Hacc) as [l Hl].
  pose proof (predict_for_room_inv now self room l Hl) as Hinv.
  pose proof (resolve_room_length (loaded_training_df self) room) as [Hle Heq].
  assert (Hans : exists msg,
             Legacy.predict_maintenance (globals_of self)
               (Legacy.RoomValueFinite (inject_Z room) text) =
             Reply 200 (Legacy.PredictList msg ps true)).
  { unfold Legacy.predict_maintenance, globals_of.
    cbn [Legacy.hotel_model Legacy.loaded_training_df].
    rewrite Hm, Hne, legacy_room_devices.
    destruct (room_devices (loaded_training_df self) room) as [|ir rest].
    - cbn in Hps. injection Hps as <-. eauto.
    - rewrite Hps. eauto. }
  destruct Hans as [msg Hans]. exists msg, ps, l.
  split; [exact Hans|]. split; [exact Hrows|]. split; [exact Hl|].
  rewrite <- (Forall2_length Hinv), <- (Forall2_length Hrows).
  split; [exact Hle|]. split; [exact Heq|].
  intros e He.
  destruct (predict_for_room_entries now self m room l Hm Hl e He)
    as (x & Hx & Hentry).
  destruct (room_entry_spec _ _ _ _ Hentry)
    as (e' & q & [= <-] & Hq & Hroom & Hname & Hdays & _).
  destruct (resolve_room_origin _ _ _ Hx) as (Hir & Hr & _).
  assert (Hin : In (pr_index x, pr_row x)
                   (room_devices (loaded_training_df self) room)).
  { apply filter_In. split; [exact Hir|]. cbn [snd]. now apply Z.eqb_eq. }
  destruct (Forall2_In_l _ _ _ _ Hrows Hin) as (p & Hp & Hpred).
  exists p. split; [exact Hp|].
  destruct Hpred as (Hpr & Hpn & _ & q' & Hq' & Hpd). cbn [snd] in *.
  unfold same_device. rewrite Hroom, Hname, Hdays, Hpr, Hpn, Hpd.
  repeat split. congruence.
Qed.

Lemma legacy_search_lists_every_row_witness :
  exists msg ps l,
    Legacy.predict_maintenance (globals_of repeated_state)
                               (Legacy.RoomValueFinite (inject_Z 2000) "2000") =
      Reply 200 (Legacy.PredictList msg ps true) /\
    predict_for_room (mkDate 2025 6 1) repeated_state 2000 = Ok l /\
    List.length ps = 2%nat /\ List.length l = 1%nat /\
    ~ NoDup (map (fun ir => Appliance_Type (snd ir))
                 (room_devices (loaded_training_df repeated_state) 2000)).
Proof.
  destruct (legacy_search_lists_every_row (mkDate 2025 6 1) repeated_state
              (constant_regressor (300 # 1)%Q) 2000 "2000" eq_refl eq_refl)
    as (msg & ps & l & H1 & _ & H2 & _ & Hiff & _).
  - intros r _. eexists. reflexivity.
  - exists msg, ps, l.
    assert (Hps : List.length ps = 2%nat).
    { pose proof H1 as Hv. vm_compute in Hv. injection Hv as _ <-.
      reflexivity. }
    assert (Hl : List.length l = 1%nat).
    { pose proof H2 as Hv. vm_compute in Hv. injection Hv as <-.
      reflexivity. }
    split; [exact H1|]. split; [exact H2|]. split; [exact Hps|].
    split; [exact Hl|]. intros Hn. apply Hiff in Hn. lia.
Defined.

(** X26.  Dates in the two room searches, for one row on which the model
    predicts.  Both report the same device and number of days.  Whenever
    the single-file application computes a next maintenance date it is the
    day the model class computes for the row; but it tries only the two
    month-first formats, so for a year-first date it reports no next date
    where the model class reports one.  An empty date cell gives no next
    date in both, and fails neither. *)
Theorem legacy_search_reads_two_formats (m : Regressor) (now : date)
  (index : Z) (row : DeviceRecord) (q : Q) :
  predict m row = Ok q ->
  exists p e,
    Legacy.predict_row m (index, row) = Ok [p] /\
    room_entry m now (index, row, parse_date (Last_Maintenance_Date row)) =
      Ok [e] /\
    same_device e p /\
    (forall n, Legacy.nextMaintenanceDate p = Some n ->
               next_maintenance_date e = Some n) /\
    (Last_Maintenance_Date row = None ->
     Legacy.nextMaintenanceDate p = None /\ next_maintenance_date e = None) /\
    (forall d, valid_date d = true -> 1000 <= year d ->
               Last_Maintenance_Date row = Some (strftime_iso d) ->
               Legacy.nextMaintenanceDate p = None /\
               next_maintenance_date e = Some (dt_ord (add_days d (clamp q)))).
Proof.
  intros Hq. eexists. eexists.
  split; [exact (legacy_predict_row_spec m index row q Hq)|].
  split.
  { unfold room_entry. unfold pr_row at 1. cbn [fst snd]. rewrite Hq.
    cbn [bind]. reflexivity. }
  cbn [Legacy.nextMaintenanceDate next_maintenance_date pr_parsed pr_row
       pr_index fst snd].
  split; [unfold same_device; cbn; auto|]. split; [|split].
  - intros n. destruct (Last_Maintenance_Date row) as [s|]; [|discriminate].
    cbn [parse_date].
    destruct (try_formats Legacy.date_formats s) as [d|] eqn:E; [|discriminate].
    now rewrite (legacy_formats_first s d E).
  - intros ->. auto.
  - intros d V Hy ->. destruct (iso_text_formats d V Hy) as (H1 & H2 & H3).
    cbn [parse_date]. unfold Legacy.date_formats, date_formats.
    cbn [try_formats]. rewrite H1, H2, H3. auto.
Qed.

Lemma legacy_search_reads_two_formats_witness :
  exists p e,
    Legacy.predict_row (constant_regressor (300 # 1)%Q) (0, iso_row) = Ok [p] /\
    room_entry (constant_regressor (300 # 1)%Q) (mkDate 2025 6 1)
               (0, iso_row, parse_date (Last_Maintenance_Date iso_row)) = Ok [e] /\
    Legacy.nextMaintenanceDate p = None /\
    next_maintenance_date e <> None.
Proof.
  destruct (legacy_search_reads_two_formats (constant_regressor (300 # 1)%Q)
              (mkDate 2025 6 1) 0 iso_row (300 # 1)%Q eq_refl)
    as (p & e & Hp & He & _ & _ & _ & Hiso).
  exists p, e. split; [exact Hp|]. split; [exact He|].
  destruct (Hiso (mkDate 2023 1 1) eq_refl ltac:(simpl; lia) eq_refl)
    as [Hn Hs].
  split; [exact Hn|]. rewrite Hs. discriminate.
Defined.

(** X27.  What the two room searches make of the request.  The
    single-file application looks at model and dataset first, so without
    them every request gets its "not loaded" answer, where the route of
    the model class answers a request without a room number by naming
    that.  With model and dataset, the single-file application compares
    the number in the request itself with the column: a number with a
    fraction, or one that is not finite, finds no device and is answered
    200 with an empty list; the route of the model class cuts the fraction
    off and lists the devices of that room, and answers 500 to a number
    that is not finite. *)
Theorem legacy_search_compares_the_number_itself (now : date)
  (self : HotelMaintenanceModel) (text : string) :
  (unloaded self ->
   (forall field,
       Legacy.predict_maintenance (globals_of self) field =
         Reply 400
           (Legacy.PredictList
              "Hotel maintenance prediction model or training data not loaded. Please upload a CSV dataset first."
              [] false)) /\
   Routes.predict_maintenance now self Routes.NoRoomField =
     Reply 400 (Routes.SearchMessage
                  "Invalid JSON input. 'Room Number' is required.")) /\
  (forall m,
      hotel_model self = Some m ->
      df_empty (loaded_training_df self) = false ->
      (forall x, fractional x ->
         Legacy.predict_maintenance (globals_of self)
                                    (Legacy.RoomValueFinite x text) =
           Reply 200 (Legacy.PredictList
                        ("No devices found for Room Number: " ++ text) [] true) /\
         (accepts m (loaded_training_df self) ->
          (exists row, In row (rows (loaded_training_df self)) /\
                       Room_Number row = truncate x) ->
          exists msg e l,
            Routes.predict_maintenance now self
                                       (Routes.RoomNumber (truncate x) text) =
              Reply 200 (Routes.SearchList msg (e :: l) true))) /\
      Legacy.predict_maintenance (globals_of self)
                                 (Legacy.RoomValueNotFinite text) =
        Reply 200 (Legacy.PredictList
                     ("No devices found for Room Number: " ++ text) [] true) /\
      (forall refusal,
          status_of (Routes.predict_maintenance now self
                       (Routes.RoomNotFinite refusal)) = Some 500)).
Proof.
  split.
  - intros Hun. split; [|reflexivity]. intros field.
    unfold Legacy.predict_maintenance, globals_of.
    cbn [Legacy.hotel_model Legacy.loaded_training_df].
    destruct Hun as [-> | Hd]; [reflexivity|].
    rewrite Hd. now destruct (hotel_model self).
  - intros m Hm Hne. split; [|split].
    + intros x Hx. split.
      * unfold Legacy.predict_maintenance, globals_of.
        cbn [Legacy.hotel_model Legacy.loaded_training_df].
        rewrite Hm, Hne, (legacy_room_devices_fractional _ x Hx). reflexivity.
      * intros Hacc (row & Hrow & Hroom).
        destruct (predict_for_room_total now self m (truncate x) Hm Hne Hacc)
          as [l Hl].
        pose proof (predict_for_room_inv now self (truncate x) l Hl) as Hinv.
        assert (Hd : room_devices (loaded_training_df self) (truncate x) <> []).
        { destruct (iterrows_index _ _ Hrow) as [i Hi]. intros Hnil.
          assert (Hf : In (i, row)
                          (room_devices (loaded_training_df self) (truncate x))).
          { apply filter_In. split; [exact Hi|]. cbn [snd]. now apply Z.eqb_eq. }
          rewrite Hnil in Hf. destruct Hf. }
        apply resolve_room_nonempty in Hd.
        unfold Routes.predict_maintenance. rewrite Hl.
        destruct l as [|e l].
        -- inversion Hinv as [Hnil|]. congruence.
        -- eauto.
    + unfold Legacy.predict_maintenance, globals_of.
      cbn [Legacy.hotel_model Legacy.loaded_training_df].
      rewrite Hm, Hne. reflexivity.
    + reflexivity.
Qed.

Lemma legacy_search_compares_the_number_itself_witness :
  Legacy.predict_maintenance (globals_of scenario_state)
                             (Legacy.RoomValueFinite (4001 # 2)%Q "2000.5") =
    Reply 200 (Legacy.PredictList "No devices found for Room Number: 2000.5"
                                  [] true) /\
  exists msg e l,
    Routes.predict_maintenance (mkDate 2025 6 1) scenario_state
                               (Routes.RoomNumber 2000 "2000.5") =
      Reply 200 (Routes.SearchList msg (e :: l) true).
Proof.
  destruct (legacy_search_compares_the_number_itself (mkDate 2025 6 1)
              scenario_state "2000.5") as (_ & H).
  destruct (H (constant_regressor (300 # 1)%Q) eq_refl eq_refl) as (Hx & _).
  destruct (Hx (4001 # 2)%Q) as [Hl Hr].
  - intros n E. unfold Qeq in E. cbn in E. lia.
  - split; [exact Hl|]. apply Hr.
    + intros r _. eexists. reflexivity.
    + exists scenario_row. split; [now left | reflexivity].
Defined.

(** X28.  Training in the two applications.  The single-file application
    asks for seven columns, the model class for those and for [Status] and
    [Warranty Year].  So an upload that has the seven and lacks one of the
    two is trained on by the former, which, when both writes go through,
    answers 200 and stores model and dataset, and is refused by the
    latter, which answers 400 and changes nothing.  A file that [read_csv]
    refuses with a [ValueError] is answered 500 by the former and 400 by
    the latter. *)
Theorem legacy_training_asks_for_fewer_columns
  (fit : list DeviceRecord -> Fit)
  (score : Regressor -> list DeviceRecord -> result Metrics)
  (filename : string) (df : DataFrame) (disk : Disk)
  (self : HotelMaintenanceModel) (m : Regressor) (mt : Metrics) :
  endswith filename ".csv" = true ->
  all_present Legacy.training_schema df = true ->
  lacks_column training_schema df ->
  fit (rows df) = Fitted m ->
  score m (rows df) = Ok mt ->
  (joblib_dump disk m = Stores -> to_pickle disk df = Stores ->
   let '(g', disk', r) :=
     Legacy.train_model fit score (Routes.FilePart filename (Ok df)) disk
                        (globals_of self) in
   status_of r = Some 200 /\
   Legacy.hotel_model g' = Some m /\
   Legacy.loaded_training_df g' = df /\
   Legacy.model_metrics g' = Some mt /\
   MODEL_PATH disk' = Stored m /\ DATA_PATH disk' = Stored df) /\
  (let '(self', disk', r) :=
     Routes.train_model fit score (Routes.FilePart filename (Ok df)) disk self in
   status_of r = Some 400 /\ self' = self /\ disk' = disk) /\
  (forall col, In col training_schema -> ~ In col (columns df) ->
               col = "Status" \/ col = "Warranty Year") /\
  (forall msg,
      status_of (snd (Legacy.train_model fit score
                        (Routes.FilePart filename (Raise (ValueError msg)))
                        disk (globals_of self))) = Some 500 /\
      status_of (snd (Routes.train_model fit score
                        (Routes.FilePart filename (Raise (ValueError msg)))
                        disk self)) = Some 400).
Proof.
  intros Hcsv Hseven Hlack Hfit Hscore.
  pose proof (endswith_nonempty filename ".csv" ltac:(discriminate) Hcsv)
    as Hname.
  split; [|split; [|split]].
  - intros Hdump Hpickle.
    unfold Legacy.train_model. rewrite Hname, Hcsv, Hseven. cbn [negb].
    rewrite Hfit, Hscore, Hdump, Hpickle. repeat split.
  - apply all_present_false in Hlack.
    unfold Routes.train_model, train_model. rewrite Hname, Hcsv, Hlack.
    cbn [negb]. repeat split.
  - intros col Hin Hno.
    unfold all_present in Hseven. rewrite forallb_forall in Hseven.
    assert (Hpresent : forall c, In c Legacy.training_schema -> In c (columns df)).
    { intros c Hc. apply mem_In. now apply Hseven. }
    unfold training_schema, features, target, required_lookup_cols in Hin.
    cbn in Hin.
    repeat (destruct Hin as [<-|Hin];
            [try (now left); try (now right);
             elim Hno; apply Hpresent; cbn; tauto|]).
    destruct Hin.
  - intros msg. unfold Legacy.train_model, Routes.train_model.
    rewrite Hname, Hcsv. split; reflexivity.
Qed.

Lemma legacy_training_asks_for_fewer_columns_witness :
  status_of (snd (Legacy.train_model trivial_fit trivial_score
                    (Routes.FilePart "rooms.csv" (Ok seven_column_upload))
                    empty_disk (globals_of scenario_state))) = Some 200 /\
  status_of (snd (Routes.train_model trivial_fit trivial_score
                    (Routes.FilePart "rooms.csv" (Ok seven_column_upload))
                    empty_disk scenario_state)) = Some 400.
Proof.
  destruct (legacy_training_asks_for_fewer_columns trivial_fit trivial_score
              "rooms.csv" seven_column_upload empty_disk scenario_state
              (constant_regressor (300 # 1)%Q)
              {| r2_score := 1; mae := 0; rmse := 0 |}
              eq_refl eq_refl) as (Hl & Hr & _).
  - exists "Status". split; [simpl; tauto | simpl; intuition discriminate].
  - reflexivity.
  - reflexivity.
  - destruct (Legacy.train_model _ _ _ _ _) as [[g' d'] r].
    destruct (Routes.train_model _ _ _ _ _) as [[s' d''] r'].
    cbn [snd]. split; [apply Hl; reflexivity | apply Hr].
Defined.

(** X29.  Start-up in the two applications.  [load_persisted_data] of the
    single-file application and [_load_persisted_data] of the model class
    leave the same model, dataset and metrics behind, on every disk and
    from every state; so after start-up the single-file application
    answers a search for a room with its "not loaded" 400 exactly when
    the object of the model class has no model or no rows. *)
Theorem legacy_startup_agrees
  (score : Regressor -> list DeviceRecord -> result Metrics) (disk : Disk) :
  (forall self,
      Legacy.load_persisted_data score disk (globals_of self) =
      globals_of (_load_persisted_data score disk self)) /\
  Legacy.load_persisted_data score disk Legacy.initial =
    globals_of (__init__ score disk) /\
  (forall x text,
      status_of (Legacy.predict_maintenance
                   (Legacy.load_persisted_data score disk Legacy.initial)
                   (Legacy.RoomValueFinite x text)) = Some 400 <->
      unloaded (__init__ score disk)).
Proof.
  assert (Hany : forall self,
             Legacy.load_persisted_data score disk (globals_of self) =
             globals_of (_load_persisted_data score disk self)).
  { intros self. unfold Legacy.load_persisted_data, _load_persisted_data, globals_of.
    cbn [Legacy.hotel_model Legacy.loaded_training_df Legacy.model_metrics].
    destruct (MODEL_PATH disk) as [|e|m0];
      destruct (DATA_PATH disk) as [|e'|d0]; try reflexivity.
    - destruct (hotel_model self); [|reflexivity].
      destruct (_ && _); [|reflexivity]. destruct (score _ _); reflexivity.
    - destruct (_ && _); [|reflexivity]. destruct (score _ _); reflexivity. }
  assert (Hinit : Legacy.load_persisted_data score disk Legacy.initial =
                  globals_of (__init__ score disk)).
  { unfold __init__. rewrite <- Hany. reflexivity. }
  split; [exact Hany|]. split; [exact Hinit|].
  intros x text. rewrite Hinit.
  unfold Legacy.predict_maintenance, unloaded, globals_of.
  cbn [Legacy.hotel_model Legacy.loaded_training_df].
  destruct (hotel_model (__init__ score disk)) as [m|];
    [|split; [now left | reflexivity]].
  destruct (df_empty (loaded_training_df (__init__ score disk)));
    [split; [now right | reflexivity]|].
  split; [|intros [H|H]; discriminate].
  destruct (Legacy.room_devices _ x); [discriminate|].
  destruct (for_each _ _); discriminate.
Qed.
